(** * The Snyk quality gate of [snyk.py], embedded and verified

    [snyk.py] drives the external [snyk] command line tool, counts the
    findings of a scan by severity and turns the counts into the exit status
    of a CI step.  This file embeds the module function by function:

    - Python values that travel through the module (decoded JSON documents,
      configuration entries, arguments) are the inductive type [pyval];
    - everything the module does to the outside (log lines, spawned
      commands, files written, clock reads) is recorded, in order, in a
      trace of [event]s; a computation is a function from the trace so far
      to an [outcome] (a value or a raised exception) and the new trace;
    - whatever the outside answers (the process environment, the files, what
      a spawned command prints and returns, [json.loads], the clock,
      GitPython) is a field of the record [World].

    A Python [str] is a [string]; the character [NUL] is ["000"].  Left
    out are running out of memory and signals ([MemoryError],
    [KeyboardInterrupt]). *)

From Stdlib Require Import List String Ascii ZArith Bool Lia.
From Stdlib Require Import PrimFloat.
Import ListNotations.

Set Warnings "-register-all".
Local Open Scope string_scope.
Local Open Scope Z_scope.
Local Open Scope list_scope.

(* ================================================================== *)
(** * Python values *)
(* ================================================================== *)

(** The values [json.loads] produces: [None], booleans, integers, floats,
    strings, lists and dictionaries with string keys.  A dictionary is kept
    as its list of entries in insertion order. *)
Inductive pyval : Type :=
| PNone
| PBool (b : bool)
| PInt (z : Z)
| PFloat (f : float)
| PStr (s : string)
| PList (items : list pyval)
| PDict (entries : list (string * pyval)).

Definition dict : Type := list (string * pyval).

(** The exceptions that occur in the module and in the library calls it
    makes.  [SystemExit] is what [sys.exit] raises; it is the only one
    that is not an [Exception].  [UnicodeEncodeError], [UnicodeDecodeError]
    and [JSONDecodeError] are subclasses of [ValueError]. *)
Inductive exn : Type :=
| ValueError
| UnicodeEncodeError
| UnicodeDecodeError
| JSONDecodeError
| TypeError
| AttributeError
| KeyError
| IndexError
| AssertionError
| UnboundLocalError
| RecursionError
| OSError
| CalledProcessError
| GitCommandError
| InvalidGitRepositoryError
| NoSuchPathError
| SystemExit (code : Z).

Definition is_Exception (e : exn) : bool :=
  match e with SystemExit _ => false | _ => true end.

(** [except ValueError] catches the class and its subclasses. *)
Definition is_ValueError (e : exn) : bool :=
  match e with
  | ValueError | UnicodeEncodeError | UnicodeDecodeError | JSONDecodeError => true
  | _ => false
  end.

Definition is_CalledProcessError (e : exn) : bool :=
  match e with CalledProcessError => true | _ => false end.

Definition is_JSONDecodeError (e : exn) : bool :=
  match e with JSONDecodeError => true | _ => false end.

(** ** Dictionaries *)

(** [d.get(key, default)]. *)
Fixpoint dict_get (d : dict) (key : string) (default : pyval) : pyval :=
  match d with
  | [] => default
  | (k, v) :: rest => if String.eqb k key then v else dict_get rest key default
  end.

Fixpoint dict_mem (d : dict) (key : string) : bool :=
  match d with
  | [] => false
  | (k, _) :: rest => if String.eqb k key then true else dict_mem rest key
  end.

(** [d[key] = v]: an existing key keeps its place, a new key goes last. *)
Fixpoint dict_set (d : dict) (key : string) (v : pyval) : dict :=
  match d with
  | [] => [(key, v)]
  | (k, x) :: rest =>
      if String.eqb k key then (k, v) :: rest else (k, x) :: dict_set rest key v
  end.

(** ** Truth value, comparison, iteration, formatting *)

(** [bool(v)], as [if scan_results:] takes it. *)
Definition truthy (v : pyval) : bool :=
  match v with
  | PNone => false
  | PBool b => b
  | PInt z => negb (z =? 0)
  | PFloat f => negb (PrimFloat.eqb f 0%float)
  | PStr s => negb (String.eqb s "")
  | PList items => match items with [] => false | _ :: _ => true end
  | PDict entries => match entries with [] => false | _ :: _ => true end
  end.

(** [v == s] for a string literal [s]: only a string equals a string. *)
Definition py_eq_str (v : pyval) (s : string) : bool :=
  match v with
  | PStr t => String.eqb t s
  | _ => false
  end.

(** [v != None]. *)
Definition is_not_None (v : pyval) : bool :=
  match v with PNone => false | _ => true end.

(** [v > 0]: numbers (booleans are integers) compare, anything else is a
    [TypeError], given here as [None]. *)
Definition py_gt_zero (v : pyval) : option bool :=
  match v with
  | PBool b => Some b
  | PInt z => Some (0 <? z)
  | PFloat f => Some (PrimFloat.ltb 0%float f)
  | _ => None
  end.

(** [v + 1], as [counts[key] += 1] computes it. *)
Definition py_add_one (v : pyval) : option pyval :=
  match v with
  | PBool b => Some (PInt (if b then 2 else 1))
  | PInt z => Some (PInt (z + 1))
  | PFloat f => Some (PFloat (PrimFloat.add f 1%float))
  | _ => None
  end.

(** What a [for] loop over [v] visits: the items of a list, the keys of a
    dictionary, the characters of a string; [None] when [v] is not
    iterable. *)
Definition py_iter (v : pyval) : option (list pyval) :=
  match v with
  | PList items => Some items
  | PDict entries => Some (map (fun kv => PStr (fst kv)) entries)
  | PStr s => Some (map (fun c => PStr (String c EmptyString)) (list_ascii_of_string s))
  | _ => None
  end.

(** ** Strings as arguments of a command *)

(** Whether a string holds the character [NUL]. *)
Definition embedded_null (s : string) : bool :=
  existsb (Ascii.eqb "000") (list_ascii_of_string s).

(** Whether every character of a string is an ASCII character. *)
Definition is_ascii (s : string) : bool :=
  forallb (fun c => (nat_of_ascii c <? 128)%nat) (list_ascii_of_string s).

(* ================================================================== *)
(** * The outside world, effects and computations *)
(* ================================================================== *)

(** What [subprocess.run] hands back: the exit status and the captured
    standard output (standard error is captured and only ever printed). *)
Record CompletedProcess : Type := {
  returncode : Z;
  stdout : string
}.

(** The parsed command line ([parser.parse_args()]). *)
Record Args : Type := {
  scan_for_push : bool;
  scan_for_pr : bool;
  report : bool;
  target_name : option string;
  base_branch : option string;
  pr_branch : option string;
  repo_path : string
}.

(** What becomes of a file opened in text mode and read to its end:
    [open] fails ([OSError]), or the bytes of the file are not text in the
    encoding of the locale ([UnicodeDecodeError]), or the text is read. *)
Inductive reading : Type :=
| Text (text : string)
| NotText
| Unreadable.

(** What [json.loads] does with a text: the document, [JSONDecodeError] for
    a text that is not JSON, [RecursionError] for one nested deeper than the
    interpreter's stack, [ValueError] for one with an integer of more
    digits than the interpreter converts. *)
Inductive decoding : Type :=
| Decoded (v : pyval)
| Malformed
| TooDeep
| TooLarge.

(** What becomes of a command whose arguments [subprocess.run] has
    accepted: the executable cannot be started ([OSError]), or it runs and
    ends with a status.  What it printed is text in the encoding of the
    locale, the [stdout] of [Exited], or it is not ([Undecodable]): with
    [text=True] that is a [UnicodeDecodeError] once the process has
    ended. *)
Inductive process : Type :=
| Exited (r : CompletedProcess)
| Undecodable (returncode : Z)
| NotStarted.

(** What a call into GitPython gives: a value or an exception. *)
Inductive answer (A : Type) : Type :=
| Gives (a : A)
| Fails (e : exn).
Arguments Gives {A} a.
Arguments Fails {A} e.

(** An entry of a diff between two commits: the path before the change
    and the path after it, a string or [None] each. *)
Record Diff : Type := {
  a_path : pyval;
  b_path : pyval
}.

(** The answers of everything outside the module.  A run of [main] spawns
    at most three commands, all different, so what a command does is taken
    as a function of its command line; likewise for a file and for a call
    into GitPython.  A repository is known by its path, a commit by its
    hash. *)
Record World : Type := {
  (** the names bound in [os.environ] *)
  environ : list string;
  (** [os.path.exists] *)
  path_exists : string -> bool;
  (** whether [os.mkdir] succeeds *)
  mkdir_ok : string -> bool;
  (** [open(path, 'r')] and reading the file *)
  read_text : string -> reading;
  (** whether a file can be opened for writing and written *)
  can_write : string -> bool;
  (** [json.loads] *)
  json_loads : string -> decoding;
  (** for a string with a character outside ASCII: whether the file system
      encoding lacks one of its characters, so that the string cannot be
      the argument of a command *)
  fs_lacks : string -> bool;
  (** running a command *)
  run_process : list string -> process;
  (** [str(v)] for a value that is not a string, as an f-string formats it *)
  py_str : pyval -> string;
  (** the n-th reading of [time.time()] *)
  time_time : nat -> float;
  (** [Repo(repo_path)] *)
  git_repo : string -> answer unit;
  (** [repo.remotes.origin] *)
  git_origin : string -> answer unit;
  (** [origin.fetch()] *)
  git_fetch : string -> answer unit;
  (** [origin.refs[branch].commit]: the hash of the commit *)
  git_ref_commit : string -> option string -> answer string;
  (** [base_commit.diff(compare_commit)] *)
  git_diff : string -> string -> string -> answer (list Diff)
}.

Inductive level : Type := INFO | WARNING | ERROR.

(** One effect on the outside.  The text of a log line is the format string
    of the source, with its placeholders left as written.  [Spawn] is a
    process that was started.  GitPython is entered by [OpenRepo]
    ([Repo(repo_path)]); [GitFetch] is the fetch from the remote and
    [GitDiff] the diff of two commits, each recorded when it is asked
    for. *)
Inductive event : Type :=
| Log (lvl : level) (message : string)
| Spawn (command : list string)
| WriteJson (path : string) (document : pyval)
| Mkdir (path : string)
| ClockRead
| OpenRepo (repo : string)
| GitFetch (repo : string)
| GitDiff (repo : string) (base compare : string).

Definition trace : Type := list event.

Inductive outcome (A : Type) : Type :=
| Ok (a : A)
| Raise (e : exn).
Arguments Ok {A} a.
Arguments Raise {A} e.

(** A computation: from the trace so far to an outcome and the trace
    extended by what the computation did. *)
Definition M (A : Type) : Type := trace -> outcome A * trace.

Definition ret {A} (a : A) : M A := fun tr => (Ok a, tr).

Definition raise {A} (e : exn) : M A := fun tr => (Raise e, tr).

Definition bind {A B} (m : M A) (k : A -> M B) : M B :=
  fun tr =>
    match m tr with
    | (Ok a, tr') => k a tr'
    | (Raise e, tr') => (Raise e, tr')
    end.

Notation "x <- c1 ;; c2" := (bind c1 (fun x => c2))
  (at level 61, c1 at next level, right associativity).
Notation "c1 ;; c2" := (bind c1 (fun _ => c2))
  (at level 61, right associativity).

Definition emit (e : event) : M unit := fun tr => (Ok tt, tr ++ [e]).

(** [try: body  except <catches> as e: handler e]. *)
Definition try_except {A} (body : M A) (catches : exn -> bool)
    (handler : exn -> M A) : M A :=
  fun tr =>
    match body tr with
    | (Ok a, tr') => (Ok a, tr')
    | (Raise e, tr') => if catches e then handler e tr' else (Raise e, tr')
    end.

(** A [for] loop that threads the loop's variables through its body. *)
Fixpoint for_each {A S} (items : list A) (body : S -> A -> M S) (s : S) : M S :=
  match items with
  | [] => ret s
  | x :: rest => s' <- body s x ;; for_each rest body s'
  end.

Definition lift_option {A} (o : option A) (e : exn) : M A :=
  match o with
  | Some a => ret a
  | None => raise e
  end.

(** ** Projections of a trace *)

Definition spawned (tr : trace) : list (list string) :=
  flat_map (fun e => match e with Spawn c => [c] | _ => [] end) tr.

Definition logged (tr : trace) : list (level * string) :=
  flat_map (fun e => match e with Log l m => [(l, m)] | _ => [] end) tr.

Definition written (tr : trace) : list (string * pyval) :=
  flat_map (fun e => match e with WriteJson p d => [(p, d)] | _ => [] end) tr.

Definition clock_reads (tr : trace) : nat :=
  List.length (filter (fun e => match e with ClockRead => true | _ => false end) tr).

(** ** The library calls the module makes *)

Definition logger_info (message : string) : M unit := emit (Log INFO message).
Definition logger_warning (message : string) : M unit := emit (Log WARNING message).
Definition logger_error (message : string) : M unit := emit (Log ERROR message).

(** The banner lines ["----------------<name> <Started|Ended>-----------------"]. *)
Definition banner (text : string) : string :=
  ("----------------" ++ text ++ "-----------------")%string.

(** [obj.get(key, default)]: only a dictionary has the method. *)
Definition py_get (obj : pyval) (key : string) (default : pyval) : M pyval :=
  match obj with
  | PDict d => ret (dict_get d key default)
  | _ => raise AttributeError
  end.

(** [for x in v]: the items visited, or [TypeError]. *)
Definition iterate (v : pyval) : M (list pyval) := lift_option (py_iter v) TypeError.

(** [counts[key] += 1] on a dictionary held in a local variable. *)
Definition dict_incr (counts : dict) (key : string) : M dict :=
  if dict_mem counts key then
    v <- lift_option (py_add_one (dict_get counts key PNone)) TypeError ;;
    ret (dict_set counts key v)
  else raise KeyError.

Section SnykScanner.

Variable w : World.

(** [f"{v}"]. *)
Definition format (v : pyval) : string :=
  match v with
  | PStr s => s
  | _ => py_str w v
  end.

(** Whether the file system encoding has every character of a string: it
    has every ASCII character. *)
Definition encodable (s : string) : bool := is_ascii s || negb (fs_lacks w s).

(** One argument of [subprocess.run], as it is converted for the new
    process: [TypeError] for a value that is not a string,
    [UnicodeEncodeError] for a string the file system encoding cannot
    hold, [ValueError] for one that holds [NUL]. *)
Definition argument (a : pyval) : exn + string :=
  match a with
  | PStr s =>
      if negb (encodable s) then inl UnicodeEncodeError
      else if embedded_null s then inl ValueError
      else inr s
  | _ => inl TypeError
  end.

(** The arguments are converted in order; the first that cannot be ends
    the call. *)
Fixpoint arguments (args : list pyval) : exn + list string :=
  match args with
  | [] => inr []
  | a :: rest =>
      match argument a with
      | inl e => inl e
      | inr s =>
          match arguments rest with
          | inl e => inl e
          | inr command => inr (s :: command)
          end
      end
  end.

(** [subprocess.run(args, ...)], with [capture_output=True, text=True] when
    [text] is set and with neither otherwise.  The arguments are converted
    and the executable is started before any process runs; captured output
    is decoded when the process has ended.  Without [text] the output is
    not read, and only the exit status of the result counts. *)
Definition subprocess_run (text : bool) (args : list pyval) : M CompletedProcess :=
  match arguments args with
  | inl e => raise e
  | inr command =>
      match run_process w command with
      | NotStarted => raise OSError
      | Exited result => emit (Spawn command) ;; ret result
      | Undecodable code =>
          emit (Spawn command) ;;
          if text then raise UnicodeDecodeError
          else ret {| returncode := code; stdout := "" |}
      end
  end.

(** [json.loads(text)]. *)
Definition json_loads_call (text : string) : M pyval :=
  match json_loads w text with
  | Decoded v => ret v
  | Malformed => raise JSONDecodeError
  | TooDeep => raise RecursionError
  | TooLarge => raise ValueError
  end.

(** [with open(path, 'r') as f: ... f.read()]. *)
Definition read_file (path : string) : M string :=
  match read_text w path with
  | Text text => ret text
  | NotText => raise UnicodeDecodeError
  | Unreadable => raise OSError
  end.

(** A call into GitPython. *)
Definition git_call {A} (a : answer A) : M A :=
  match a with
  | Gives x => ret x
  | Fails e => raise e
  end.

(** [result.check_returncode()], and what [check=True] adds to a call. *)
Definition check_returncode (result : CompletedProcess) : M unit :=
  if returncode result =? 0 then ret tt else raise CalledProcessError.

Definition time_now : M float :=
  fun tr => (Ok (time_time w (clock_reads tr)), tr ++ [ClockRead]).


(** Reading a local variable that no branch has assigned yet. *)
Definition read_local {A} (x : option A) : M A := lift_option x UnboundLocalError.

(** A call binds its arguments before the body runs: when the required
    parameter [target] gets no value the call raises [TypeError] and the
    body never starts; [project_name] and [target_name] default to
    [None]. *)
Definition call_scan (f : pyval -> pyval -> pyval -> M pyval)
    (target project_name target_name : option pyval) : M pyval :=
  match target with
  | None => raise TypeError
  | Some t =>
      f t (match project_name with Some v => v | None => PNone end)
          (match target_name with Some v => v | None => PNone end)
  end.

(* ================================================================== *)
(** * class SnykScanner *)
(* ================================================================== *)

Definition check_snyk_installed : M unit :=
  try_except
    (logger_info (banner "check_snyk_installed started") ;;
     result <- subprocess_run true [PStr "snyk"; PStr "--version"] ;;
     check_returncode result ;;
     logger_info "Snyk CLI is installed: {result.stdout.strip()}" ;;
     logger_info (banner "check_snyk_installed Ended"))
    is_CalledProcessError
    (fun e =>
       logger_error "Snyk CLI is not installed. Please install it from https://snyk.io/docs/snyk-cli-installation/" ;;
       logger_info (banner "check_snyk_installed Ended") ;;
       raise e).

Definition check_snyk_token (token : pyval) : M unit :=
  try_except
    (logger_info (banner "check_snyk_token Started") ;;
     (if existsb (String.eqb "SNYK_TOKEN") (environ w) then
        logger_error "SNYK_TOKEN environment variable not set." ;;
        raise ValueError
      else ret tt) ;;
     result <- subprocess_run false [PStr "snyk"; PStr "auth"; token] ;;
     check_returncode result ;;
     logger_info "Authenticated to Snyk successfully." ;;
     logger_info (banner "check_snyk_token Ended"))
    is_CalledProcessError
    (fun e =>
       logger_error "Failed to authenticate to Snyk: {e}" ;;
       logger_info (banner "check_snyk_token Ended") ;;
       raise e).

(** The local variable [command] after the [if isinstance ... elif
    isinstance ...] of a scan: assigned for a string and for a list, left
    unassigned ([None]) for anything else, the [else: raise ValueError]
    being commented out. *)
Definition target_command (tool : list string) (target : pyval) : option (list string) :=
  match target with
  | PStr path => Some (tool ++ ["--json"; path])
  | PList files =>
      let flag_changed_files := map (fun file => ("--file=" ++ format file)%string) files in
      Some ((tool ++ ["--json"]) ++ flag_changed_files)
  | _ => None
  end.

(** [if project_name != None: command.append(...) ...]. *)
Definition append_report_flags (command : option (list string))
    (project_name target_name : pyval) : M (option (list string)) :=
  if is_not_None project_name then
    c <- read_local command ;;
    let c := c ++ ["--report"] in
    let c := c ++ [("--project-name=" ++ format project_name)%string] in
    if is_not_None target_name then
      ret (Some (c ++ [("--target-name=" ++ format target_name)%string]))
    else ret (Some c)
  else ret command.

(** The whole of the command construction: lines 59-72 of the source, up to
    the f-string that reads [command] for the log. *)
Definition build_command (tool : list string) (target project_name target_name : pyval)
    : M (list string) :=
  command <- append_report_flags (target_command tool target) project_name target_name ;;
  command <- read_local command ;;
  logger_info "Running Command - {command}" ;;
  ret command.

(** [if result.returncode == 0: ... elif ... else: ...]: one log line. *)
Definition log_returncode (result : CompletedProcess) : M unit :=
  if returncode result =? 0 then
    logger_info "CLI scan completed successfully. No vulnerabilities found."
  else if returncode result =? 1 then
    logger_warning "CLI scan completed. Vulnerabilities found."
  else if returncode result =? 2 then
    logger_error "CLI scan failed. Failure, try to re-run the command."
  else if returncode result =? 3 then
    logger_error "CLI scan failed. No supported projects detected."
  else
    logger_error "CLI scan failed with unexpected error code: {result.returncode}".

(** [trigger_sast_scan] and [trigger_sca_scan] are the same text but for the
    words of the command ([tool]), the name in the banners, and one line:
    the [CalledProcessError] handler of the second logs the closing banner,
    that of the first does not ([banner_on_process_error]). *)
Definition trigger_scan (tool : list string) (name : string)
    (banner_on_process_error : bool)
    (target project_name target_name : pyval) : M pyval :=
  try_except
    (logger_info (banner (name ++ " Started")%string) ;;
     command <- build_command tool target project_name target_name ;;
     result <- subprocess_run true (map PStr command) ;;
     log_returncode result ;;
     scan_results <- json_loads_call (stdout result) ;;
     logger_info (banner (name ++ " Ended")%string) ;;
     ret scan_results)
    (fun e => is_CalledProcessError e || is_JSONDecodeError e)
    (fun e =>
       if is_CalledProcessError e then
         logger_error "Error running Snyk CLI: {e}" ;;
         (if banner_on_process_error
          then logger_info (banner (name ++ " Ended")%string) else ret tt) ;;
         raise e
       else
         logger_error "Error parsing JSON output: {e}" ;;
         logger_info (banner (name ++ " Ended")%string) ;;
         raise e).

Definition trigger_sast_scan : pyval -> pyval -> pyval -> M pyval :=
  trigger_scan ["snyk"; "code"; "test"] "trigger_sast_scan" false.

Definition trigger_sca_scan : pyval -> pyval -> pyval -> M pyval :=
  trigger_scan ["snyk"; "test"] "trigger_sca_scan" true.

Definition get_changed_files (repo_path : string) (base_branch pr_branch : option string)
    : M (list pyval) :=
  try_except
    (logger_info (banner "get_changed_files Started") ;;
     emit (OpenRepo repo_path) ;;
     repo <- git_call (git_repo w repo_path) ;;
     origin <- git_call (git_origin w repo_path) ;;
     emit (GitFetch repo_path) ;;
     git_call (git_fetch w repo_path) ;;
     base_commit <- git_call (git_ref_commit w repo_path base_branch) ;;
     compare_commit <- git_call (git_ref_commit w repo_path pr_branch) ;;
     emit (GitDiff repo_path base_commit compare_commit) ;;
     diff_index <- git_call (git_diff w repo_path base_commit compare_commit) ;;
     let changed_files := map a_path diff_index in
     logger_info "Found {len(changed_files)} changed files between {base_branch} and {pr_branch}." ;;
     logger_info "Changed Files: {changed_files}" ;;
     logger_info "----------------get_changed_files Ended----------------" ;;
     ret changed_files)
    is_Exception
    (fun e =>
       logger_error "Error getting changed files: {e}" ;;
       logger_info "----------------get_changed_files Ended----------------" ;;
       raise e).

(** The three tests on [level] of the inner loop, as the key to count
    under. *)
Definition severity_key (level : pyval) : string :=
  if py_eq_str level "note" || py_eq_str level "info" then "low"
  else if py_eq_str level "warning" then "medium"
  else "high".

Definition summarize_severities (scan_results : pyval) : M pyval :=
  let severity_counts : dict := [("low", PInt 0); ("medium", PInt 0); ("high", PInt 0)] in
  try_except
    (logger_info (banner "summarize_severities Started") ;;
     runs <- py_get scan_results "runs" (PList []) ;;
     runs <- iterate runs ;;
     severity_counts <-
       for_each runs (fun severity_counts run =>
         results <- py_get run "results" (PList []) ;;
         results <- iterate results ;;
         for_each results (fun severity_counts result =>
           level <- py_get result "level" (PStr "") ;;
           dict_incr severity_counts (severity_key level))
         severity_counts)
       severity_counts ;;
     logger_info "Severity summary: {severity_counts}" ;;
     scan_time <- py_get scan_results "scan_time" (PInt 0) ;;
     let severity_counts := dict_set severity_counts "scan_time" scan_time in
     logger_info (banner "summarize_severities Ended") ;;
     ret (PDict severity_counts))
    is_Exception
    (fun e =>
       logger_error "Error summarizing severities: {e}" ;;
       logger_info (banner "summarize_severities Ended") ;;
       raise e).

Definition save_results_to_json (results : pyval) (file_path : string) : M unit :=
  try_except
    (logger_info (banner "save_results_to_json Started") ;;
     (if can_write w file_path then emit (WriteJson file_path results)
      else raise OSError) ;;
     logger_info "Scan results saved to {file_path}." ;;
     logger_info (banner "save_results_to_json Ended"))
    is_Exception
    (fun e =>
       logger_error "Error saving scan results to {file_path}: {e}" ;;
       logger_info (banner "save_results_to_json Ended") ;;
       raise e).

Definition evaluate_severity_summary (severity_summary : pyval) : M bool :=
  logger_info (banner "evaluate_severity_summary Started") ;;
  high <- py_get severity_summary "high" (PInt 0) ;;
  positive <- lift_option (py_gt_zero high) TypeError ;;
  if positive then
    logger_error "High severity issues found. Pipeline will fail." ;;
    logger_info (banner "evaluate_severity_summary Ended") ;;
    ret false
  else
    logger_info "No high severity issues found. Pipeline will pass." ;;
    logger_info (banner "evaluate_severity_summary Ended") ;;
    ret true.

(* ================================================================== *)
(** * Module level: load_config and main *)
(* ================================================================== *)

Definition load_config (config_file : string) : M pyval :=
  try_except
    (text <- read_file config_file ;;
     config <- json_loads_call text ;;
     logger_info "Configuration loaded from {config_file}." ;;
     ret config)
    is_Exception
    (fun e =>
       logger_error "Error loading configuration from {config_file}: {e}" ;;
       raise e).

(** The block under [if scan_results:]. *)
Definition report_and_gate (scan_results : pyval) (execution_time : pyval) : M unit :=
  let scan_summary_file_path := "./outputs/severity_summary.json" in
  let scan_json_file_path := "./outputs/scan_results.json" in
  if truthy scan_results then
    severity_summary <- summarize_severities scan_results ;;
    let scan_summary :=
      PDict [("execution_time", execution_time); ("summary", severity_summary)] in
    save_results_to_json scan_results scan_json_file_path ;;
    save_results_to_json scan_summary scan_summary_file_path ;;
    passed <- evaluate_severity_summary severity_summary ;;
    if negb passed then raise (SystemExit 1) else ret tt
  else ret tt.

(** The block under [if args.scan_for_push:].  With [--report] the call
    names [project_name] only and gives [target] no value. *)
Definition scan_for_push_block (args : Args) (target project_path : pyval) : M unit :=
  scanned <-
    (if negb (report args) then
       start_time <- time_now ;;
       scan_results <- call_scan trigger_sast_scan (Some target) None None ;;
       end_time <- time_now ;;
       let execution_time := PrimFloat.sub end_time start_time in
       logger_info "Snyk scan execution time: {execution_time:.2f} seconds" ;;
       ret (scan_results, PFloat execution_time)
     else
       start_time <- time_now ;;
       scan_results <- call_scan trigger_sast_scan None (Some project_path) None ;;
       end_time <- time_now ;;
       let execution_time := PrimFloat.sub end_time start_time in
       logger_info "Snyk scan execution time: {execution_time:.2f} seconds" ;;
       ret (scan_results, PFloat execution_time)) ;;
  report_and_gate (fst scanned) (snd scanned).

(** [main], from the parsed arguments on.  A [return] inside an [except]
    block ends [main] at once: the two guarded checks give back whether to
    go on. *)
Definition main (args : Args) : M unit :=
  logger_info (banner "Main started") ;;
  (if negb (path_exists w "outputs") then
     if mkdir_ok w "outputs" then emit (Mkdir "outputs") else raise OSError
   else ret tt) ;;
  logger_info "Arguments: {args}" ;;
  config <- load_config "config.json" ;;
  project_path <- py_get config "project_path" PNone ;;
  org_id <- py_get config "org_id" PNone ;;
  project_id <- py_get config "project_id" PNone ;;
  token <- py_get config "auth_token" PNone ;;
  target <- py_get config "target" PNone ;;
  installed <-
    try_except (check_snyk_installed ;; ret true) is_Exception
      (fun e => logger_error "Snyk CLI check failed: {e}" ;; ret false) ;;
  if negb installed then ret tt else
  authenticated <-
    try_except (check_snyk_token token ;; ret true) is_ValueError
      (fun e => logger_error "Authentication failed: {e}" ;; ret false) ;;
  if negb authenticated then ret tt else
  (if scan_for_push args then scan_for_push_block args target project_path
   else ret tt) ;;
  logger_info (banner "Main Ended").

End SnykScanner.

(** The exit status of the interpreter after [main()]: 0 when [main]
    returns, the argument of [sys.exit] when it was called, and 1 when an
    exception reaches the top level. *)
Definition exit_status (o : outcome unit) : Z :=
  match o with
  | Ok _ => 0
  | Raise (SystemExit code) => code
  | Raise _ => 1
  end.

(** Running a computation from the empty trace. *)
Definition run {A} (m : M A) : outcome A * trace := m [].

(* ================================================================== *)
(** * Vocabulary of the statements *)
(* ================================================================== *)

(** The dictionary [summarize_severities] returns, for given counts. *)
Definition histogram (low medium high : nat) (scan_time : pyval) : pyval :=
  PDict [("low", PInt (Z.of_nat low)); ("medium", PInt (Z.of_nat medium));
         ("high", PInt (Z.of_nat high)); ("scan_time", scan_time)].

Definition file_flag (path : string) : string := ("--file=" ++ path)%string.

(** The flags a set [project_name] adds at the end of a command. *)
Definition upload_flags (w : World) (project_name target_name : pyval) : list string :=
  if is_not_None project_name then
    ["--report"; ("--project-name=" ++ format w project_name)%string]
      ++ (if is_not_None target_name
          then [("--target-name=" ++ format w target_name)%string] else [])
  else [].

Definition is_str_or_list (v : pyval) : bool :=
  match v with
  | PStr _ | PList _ => true
  | _ => false
  end.

Definition sast_tool : list string := ["snyk"; "code"; "test"].
Definition sca_tool : list string := ["snyk"; "test"].

(** The level and the text of the one line [log_returncode] writes. *)
Definition exit_code_level (code : Z) : level :=
  if code =? 0 then INFO else if code =? 1 then WARNING else ERROR.

Definition exit_code_message (code : Z) : string :=
  if code =? 0 then "CLI scan completed successfully. No vulnerabilities found."
  else if code =? 1 then "CLI scan completed. Vulnerabilities found."
  else if code =? 2 then "CLI scan failed. Failure, try to re-run the command."
  else if code =? 3 then "CLI scan failed. No supported projects detected."
  else "CLI scan failed with unexpected error code: {result.returncode}".

(** The three buckets, and the bucket of a result by its level: [note] and
    [info] are low, [warning] is medium, every other level is high, as is a
    level that is missing (it reads as the empty string) or not a string. *)
Inductive bucket : Type := Low | Medium | High.

Definition bucket_eqb (a b : bucket) : bool :=
  match a, b with
  | Low, Low | Medium, Medium | High, High => true
  | _, _ => false
  end.

Definition level_of (result : dict) : pyval := dict_get result "level" (PStr "").

Definition bucket_of_level (level : pyval) : bucket :=
  match level with
  | PStr s =>
      if String.eqb s "note" then Low
      else if String.eqb s "info" then Low
      else if String.eqb s "warning" then Medium
      else High
  | _ => High
  end.

Definition count_bucket (b : bucket) (results : list dict) : nat :=
  List.length (filter (fun result => bucket_eqb (bucket_of_level (level_of result)) b) results).

(** The shape of a scan document: [runs] is a list of dictionaries, the
    [results] of each (none when the key is missing) a list of
    dictionaries.  [results_of_runs] lists the results of all runs in
    order, and is [None] for any other shape. *)
Fixpoint all_dicts (items : list pyval) : option (list dict) :=
  match items with
  | [] => Some []
  | PDict d :: rest => option_map (cons d) (all_dicts rest)
  | _ :: _ => None
  end.

Definition results_of_run (run : pyval) : option (list dict) :=
  match run with
  | PDict r =>
      match dict_get r "results" (PList []) with
      | PList items => all_dicts items
      | _ => None
      end
  | _ => None
  end.

Fixpoint results_of_runs (runs : list pyval) : option (list dict) :=
  match runs with
  | [] => Some []
  | run :: rest =>
      match results_of_run run, results_of_runs rest with
      | Some here, Some there => Some (here ++ there)
      | _, _ => None
      end
  end.

(** The local dictionary [severity_counts] while the loops run. *)
Definition counts (l m h : Z) : dict :=
  [("low", PInt l); ("medium", PInt m); ("high", PInt h)].

Definition tally (b : bucket) (results : list dict) : Z := Z.of_nat (count_bucket b results).

(** What the start of [main] needs to get to the tool check: the output
    directory is there or can be made, and [config.json] is read and
    decodes to a dictionary. *)
Definition loaded_config (w : World) : option dict :=
  if negb (path_exists w "outputs") && negb (mkdir_ok w "outputs") then None
  else
    match read_text w "config.json" with
    | Text text =>
        match json_loads w text with
        | Decoded (PDict cfg) => Some cfg
        | _ => None
        end
    | _ => None
    end.

(** A string that can be the argument of a command: the file system
    encoding has its characters and it holds no [NUL]. *)
Definition passable (w : World) (s : string) : bool :=
  encodable w s && negb (embedded_null s).

(** [snyk --version] starts, ends with status 0 and prints text. *)
Definition tool_installed (w : World) : bool :=
  match run_process w ["snyk"; "--version"] with
  | Exited r => returncode r =? 0
  | _ => false
  end.

(** [snyk auth <token>] can be passed its token, starts and ends with
    status 0; what it prints is not read. *)
Definition auth_accepted (w : World) (token : string) : bool :=
  passable w token
  && match run_process w ["snyk"; "auth"; token] with
     | Exited r => returncode r =? 0
     | Undecodable code => code =? 0
     | NotStarted => false
     end.

(** The events of [main] before the tool check. *)
Definition startup_events (w : World) : trace :=
  [Log INFO "----------------Main started-----------------"]
  ++ (if path_exists w "outputs" then [] else [Mkdir "outputs"])
  ++ [Log INFO "Arguments: {args}";
      Log INFO "Configuration loaded from {config_file}."].

Definition tool_check_events : trace :=
  [Log INFO "----------------check_snyk_installed started-----------------";
   Spawn ["snyk"; "--version"];
   Log INFO "Snyk CLI is installed: {result.stdout.strip()}";
   Log INFO "----------------check_snyk_installed Ended-----------------"].

Definition token_check_events (token : string) : trace :=
  [Log INFO "----------------check_snyk_token Started-----------------";
   Spawn ["snyk"; "auth"; token];
   Log INFO "Authenticated to Snyk successfully.";
   Log INFO "----------------check_snyk_token Ended-----------------"].

(** The events of [main] up to and including a successful token check. *)
Definition setup_events (w : World) (token : string) : trace :=
  startup_events w ++ tool_check_events ++ token_check_events token.

(** The commands of the setup: the tool check and the token check. *)
Definition setup_command (c : list string) : Prop :=
  c = ["snyk"; "--version"] \/ exists token, c = ["snyk"; "auth"; token].

(** An event of a run that neither scans nor asks the change-set
    resolver: any command it spawns is one of the setup's, and it opens
    no repository, fetches nothing and asks for no diff. *)
Definition setup_event (e : event) : Prop :=
  match e with
  | Spawn c => setup_command c
  | OpenRepo _ | GitFetch _ | GitDiff _ _ _ => False
  | _ => True
  end.

(** A computation all of whose events, from any trace, are of that kind. *)
Definition scanless {A} (m : M A) : Prop :=
  forall tr, exists more, snd (m tr) = tr ++ more /\ Forall setup_event more.

(** What the scan of the push block gets back from the scanner, for the
    target of the configuration. *)
Definition push_scan_result (w : World) (cfg : dict) : option CompletedProcess :=
  match target_command w sast_tool (dict_get cfg "target" PNone) with
  | Some command =>
      if forallb (passable w) command then
        match run_process w command with
        | Exited r => Some r
        | _ => None
        end
      else None
  | None => None
  end.

(** The setup goes through: configuration loaded, tool found, token not in
    the environment, a string in the configuration, and accepted. *)
Definition setup_succeeds (w : World) (cfg : dict) : Prop :=
  loaded_config w = Some cfg
  /\ tool_installed w = true
  /\ ~ In "SNYK_TOKEN" (environ w)
  /\ exists token,
       dict_get cfg "auth_token" PNone = PStr token /\ auth_accepted w token = true.

(** Two machines that answer alike but for GitPython. *)
Definition same_but_git (w w' : World) : Prop :=
  environ w = environ w' /\ path_exists w = path_exists w'
  /\ mkdir_ok w = mkdir_ok w' /\ read_text w = read_text w'
  /\ can_write w = can_write w' /\ json_loads w = json_loads w'
  /\ fs_lacks w = fs_lacks w' /\ run_process w = run_process w'
  /\ py_str w = py_str w' /\ time_time w = time_time w'.

(* ================================================================== *)
(** * Sample machines and command lines *)
(* ================================================================== *)

(** A JSON text needs the double quote character. *)
Definition quoted (s : string) : string :=
  (String "034" s ++ String "034" EmptyString)%string.

Fixpoint command_eqb (c1 c2 : list string) : bool :=
  match c1, c2 with
  | [], [] => true
  | a :: r1, b :: r2 => String.eqb a b && command_eqb r1 r2
  | _, _ => false
  end.

Fixpoint lookup_text {A} (table : list (string * A)) (text : string) : option A :=
  match table with
  | [] => None
  | (t, a) :: rest => if String.eqb t text then Some a else lookup_text rest text
  end.

(** The files of a machine, and the texts its [json.loads] decodes. *)
Definition read_from (files : list (string * string)) (path : string) : reading :=
  match lookup_text files path with
  | Some text => Text text
  | None => Unreadable
  end.

Definition decode_from (decoded : list (string * pyval)) (text : string) : decoding :=
  match lookup_text decoded text with
  | Some v => Decoded v
  | None => Malformed
  end.

(** A machine where [snyk --version] and [snyk auth <token>] succeed, every
    other command ends as [scan] says, the files of [files] can be read,
    [json.loads] decodes the texts of [decoded], the file system encoding is
    ASCII, and the diff between any two branches is empty. *)
Definition sample_world (env : list string) (files : list (string * string))
    (decoded : list (string * pyval)) (scan : process) : World :=
  {| environ := env;
     path_exists := fun _ => false;
     mkdir_ok := fun _ => true;
     read_text := read_from files;
     can_write := fun _ => true;
     json_loads := decode_from decoded;
     fs_lacks := fun _ => true;
     run_process := fun command =>
       if command_eqb command ["snyk"; "--version"] then
         Exited {| returncode := 0; stdout := "1.1296.2" |}
       else if command_eqb (firstn 2 command) ["snyk"; "auth"] then
         Exited {| returncode := 0; stdout := "" |}
       else scan;
     py_str := fun _ => "<str>";
     time_time := fun n => match n with O => 10%float | S _ => 12.5%float end;
     git_repo := fun _ => Gives tt;
     git_origin := fun _ => Gives tt;
     git_fetch := fun _ => Gives tt;
     git_ref_commit := fun _ branch =>
       match branch with
       | Some name => Gives name
       | None => Fails AssertionError
       end;
     git_diff := fun _ _ _ => Gives [] |}.

(** [{"auth_token": "t0ken", "target": "."}] *)
Definition config_text : string :=
  ("{" ++ quoted "auth_token" ++ ": " ++ quoted "t0ken" ++ ", "
       ++ quoted "target" ++ ": " ++ quoted "." ++ "}")%string.

Definition config_value : pyval :=
  PDict [("auth_token", PStr "t0ken"); ("target", PStr ".")].

(** [{"runs": [{"results": [{"level": "warning"}, {"level": "warning"},
    {"level": "error"}]}]}] *)
Definition findings_text : string :=
  ("{" ++ quoted "runs" ++ ": [{" ++ quoted "results" ++ ": [{"
       ++ quoted "level" ++ ": " ++ quoted "warning" ++ "}, {"
       ++ quoted "level" ++ ": " ++ quoted "warning" ++ "}, {"
       ++ quoted "level" ++ ": " ++ quoted "error" ++ "}]}]}")%string.

Definition findings_value : pyval :=
  PDict [("runs", PList [PDict [("results",
    PList [PDict [("level", PStr "warning")];
           PDict [("level", PStr "warning")];
           PDict [("level", PStr "error")]])]])].

(** [{"runs": [{"results": [{"level": "note"}]}]}] *)
Definition notes_text : string :=
  ("{" ++ quoted "runs" ++ ": [{" ++ quoted "results" ++ ": [{"
       ++ quoted "level" ++ ": " ++ quoted "note" ++ "}]}]}")%string.

Definition notes_value : pyval :=
  PDict [("runs", PList [PDict [("results", PList [PDict [("level", PStr "note")]])]])].

Definition sample_decoded : list (string * pyval) :=
  [(config_text, config_value); (findings_text, findings_value);
   (notes_text, notes_value)].

Definition sample_files : list (string * string) := [("config.json", config_text)].

(** The usual machine: the scan ends with status 1 and prints the three
    findings. *)
Definition findings_world : World :=
  sample_world ["PATH"; "HOME"] sample_files sample_decoded
    (Exited {| returncode := 1; stdout := findings_text |}).

Definition push_args : Args :=
  {| scan_for_push := true; scan_for_pr := false; report := false;
     target_name := None; base_branch := None; pr_branch := None;
     repo_path := "./" |}.

(** A machine whose scan ends with status 2 and still prints a document. *)
Definition failed_scan_world : World :=
  sample_world ["PATH"; "HOME"] sample_files sample_decoded
    (Exited {| returncode := 2; stdout := notes_text |}).

(** A machine whose scan ends with status 7 and prints nothing that
    decodes. *)
Definition broken_scan_world : World :=
  sample_world ["PATH"; "HOME"] sample_files sample_decoded
    (Exited {| returncode := 7; stdout := "Segmentation fault" |}).

(** A machine with the token in its environment. *)
Definition token_world : World :=
  sample_world ["PATH"; "SNYK_TOKEN"] sample_files sample_decoded
    (Exited {| returncode := 0; stdout := notes_text |}).

Definition report_args : Args :=
  {| scan_for_push := true; scan_for_pr := false; report := true;
     target_name := None; base_branch := None; pr_branch := None;
     repo_path := "./" |}.

Definition pr_args : Args :=
  {| scan_for_push := false; scan_for_pr := true; report := false;
     target_name := None; base_branch := Some "main"; pr_branch := Some "feature";
     repo_path := "./" |}.

Definition pr_push_args : Args :=
  {| scan_for_push := true; scan_for_pr := true; report := false;
     target_name := None; base_branch := Some "main"; pr_branch := Some "feature";
     repo_path := "./" |}.

(** A machine whose scan ends with status 1 and prints one note. *)
Definition notes_world : World :=
  sample_world ["PATH"; "HOME"] sample_files sample_decoded
    (Exited {| returncode := 1; stdout := notes_text |}).

(** A machine without the [snyk] executable. *)
Definition no_tool_world : World :=
  {| environ := ["PATH"; "HOME"];
     path_exists := fun _ => true;
     mkdir_ok := fun _ => false;
     read_text := read_from sample_files;
     can_write := fun _ => true;
     json_loads := decode_from sample_decoded;
     fs_lacks := fun _ => true;
     run_process := fun _ => NotStarted;
     py_str := fun _ => "<str>";
     time_time := fun _ => 0%float;
     git_repo := fun _ => Fails InvalidGitRepositoryError;
     git_origin := fun _ => Gives tt;
     git_fetch := fun _ => Gives tt;
     git_ref_commit := fun _ _ => Fails IndexError;
     git_diff := fun _ _ _ => Gives [] |}.

(** A token that holds [NUL]. *)
Definition nul_token : string := ("t0" ++ String "000" "ken")%string.

(** [{"auth_token": "t0\u0000ken", "target": "."}] *)
Definition nul_token_text : string :=
  ("{" ++ quoted "auth_token" ++ ": " ++ quoted "t0\u0000ken" ++ ", "
       ++ quoted "target" ++ ": " ++ quoted "." ++ "}")%string.

(** A machine whose configuration holds that token. *)
Definition nul_token_world : World :=
  sample_world ["PATH"; "HOME"] [("config.json", nul_token_text)]
    [(nul_token_text, PDict [("auth_token", PStr nul_token); ("target", PStr ".")]);
     (notes_text, notes_value)]
    (Exited {| returncode := 1; stdout := notes_text |}).

(** A machine where [snyk auth] is refused: it ends with status 2. *)
Definition refused_auth_world : World :=
  {| environ := ["PATH"; "HOME"];
     path_exists := fun _ => true;
     mkdir_ok := fun _ => false;
     read_text := read_from sample_files;
     can_write := fun _ => true;
     json_loads := decode_from sample_decoded;
     fs_lacks := fun _ => true;
     run_process := fun command =>
       if command_eqb command ["snyk"; "--version"] then
         Exited {| returncode := 0; stdout := "1.1296.2" |}
       else Exited {| returncode := 2; stdout := "" |};
     py_str := fun _ => "<str>";
     time_time := fun _ => 0%float;
     git_repo := fun _ => Fails InvalidGitRepositoryError;
     git_origin := fun _ => Gives tt;
     git_fetch := fun _ => Gives tt;
     git_ref_commit := fun _ _ => Fails IndexError;
     git_diff := fun _ _ _ => Gives [] |}.

(** The machine of [findings_world] with a repository whose branches
    differ by one file. *)
Definition one_change_world : World :=
  {| environ := environ findings_world;
     path_exists := path_exists findings_world;
     mkdir_ok := mkdir_ok findings_world;
     read_text := read_text findings_world;
     can_write := can_write findings_world;
     json_loads := json_loads findings_world;
     fs_lacks := fs_lacks findings_world;
     run_process := run_process findings_world;
     py_str := py_str findings_world;
     time_time := time_time findings_world;
     git_repo := fun _ => Gives tt;
     git_origin := fun _ => Gives tt;
     git_fetch := fun _ => Gives tt;
     git_ref_commit := fun _ _ => Gives "0a1b2c3";
     git_diff := fun _ _ _ => Gives [{| a_path := PStr "a.py"; b_path := PStr "a.py" |}] |}.

(* ================================================================== *)
(** * Vocabulary of the further properties *)
(* ================================================================== *)

(** A computation that, from any trace, adds only events satisfying [P]
    and raises only exceptions satisfying [Q]. *)
Definition stays_within (P : event -> Prop) (Q : exn -> Prop) {A} (m : M A) : Prop :=
  forall tr,
    exists more,
      snd (m tr) = tr ++ more
      /\ Forall P more
      /\ (forall e, fst (m tr) = Raise e -> Q e).

Definition is_log (e : event) : Prop :=
  match e with
  | Log _ _ => True
  | _ => False
  end.

(** A command of a scan by [tool]: the words of the tool, [--json], and
    whatever follows. *)
Definition scan_command (tool c : list string) : Prop :=
  exists rest, c = tool ++ "--json" :: rest.

(** The events a run of [main] can produce. *)
Definition main_event (e : event) : Prop :=
  match e with
  | Log _ _ => True
  | ClockRead => True
  | Mkdir path => path = "outputs"
  | Spawn c => setup_command c \/ scan_command sast_tool c
  | WriteJson path _ =>
      path = "./outputs/scan_results.json" \/ path = "./outputs/severity_summary.json"
  | OpenRepo _ | GitFetch _ | GitDiff _ _ _ => False
  end.

(** The exceptions that can end [main]: [sys.exit(1)] or an [Exception]. *)
Definition main_exn (e : exn) : Prop := e = SystemExit 1 \/ is_Exception e = true.

(** The exceptions a scan can raise: for a [command] never assigned, for
    an argument that cannot be passed ([ValueError] among them), for an
    executable that cannot be started, for an output that is not text,
    that is not JSON, that is nested too deep, or that holds too large an
    integer ([ValueError] again). *)
Definition scan_exn (e : exn) : Prop :=
  e = UnboundLocalError \/ e = UnicodeEncodeError \/ e = ValueError \/ e = OSError
  \/ e = UnicodeDecodeError \/ e = JSONDecodeError \/ e = RecursionError.

(** The exit status of a command that ran, whatever it printed. *)
Definition exit_code (p : process) : option Z :=
  match p with
  | Exited r => Some (returncode r)
  | Undecodable code => Some code
  | NotStarted => None
  end.

(** The exceptions of a configuration that cannot be loaded. *)
Definition config_exn (e : exn) : Prop :=
  e = OSError \/ e = UnicodeDecodeError \/ e = JSONDecodeError \/ e = RecursionError
  \/ e = ValueError.

(** The events of a scan by [tool]: log lines and commands of that tool. *)
Definition scan_event (tool : list string) (e : event) : Prop :=
  match e with
  | Log _ _ => True
  | Spawn c => scan_command tool c
  | _ => False
  end.

(** The bodies of the two loops of [summarize_severities], by name. *)
Definition count_result (severity_counts : dict) (result : pyval) : M dict :=
  level <- py_get result "level" (PStr "") ;;
  dict_incr severity_counts (severity_key level).

Definition count_run (severity_counts : dict) (run : pyval) : M dict :=
  results <- py_get run "results" (PList []) ;;
  results <- iterate results ;;
  for_each results count_result severity_counts.

(** An event that neither runs a command nor writes a file nor opens a
    repository. *)
Definition quiet_event (e : event) : Prop :=
  match e with
  | Log _ _ | Mkdir _ | ClockRead => True
  | _ => False
  end.

(** The events of the block under [if scan_results:]. *)
Definition gate_event (e : event) : Prop :=
  match e with
  | Log _ _ | WriteJson _ _ => True
  | _ => False
  end.

(** The three commands of a run of [main], in the order it runs them. *)
Definition main_commands (token : string) (rest : list string) : list (list string) :=
  [["snyk"; "--version"]; ["snyk"; "auth"; token];
   ["snyk"; "code"; "test"; "--json"] ++ rest].


(** The events of the push block without [--report] up to the block under
    [if scan_results:], for a scan that ran [command] and ended as [r]
    with an output that decodes. *)
Definition scan_block_events (command : list string) (r : CompletedProcess) : trace :=
  [ClockRead;
   Log INFO "----------------trigger_sast_scan Started-----------------";
   Log INFO "Running Command - {command}";
   Spawn command;
   Log (exit_code_level (returncode r)) (exit_code_message (returncode r));
   Log INFO "----------------trigger_sast_scan Ended-----------------";
   ClockRead;
   Log INFO "Snyk scan execution time: {execution_time:.2f} seconds"].

(** The summary document [main] writes. *)
Definition scan_summary (execution_time summary : pyval) : pyval :=
  PDict [("execution_time", execution_time); ("summary", summary)].


(** [{}] *)
Definition empty_object_text : string := "{}".

(** A machine whose scan prints an empty object and ends with status 0. *)
Definition empty_output_world : World :=
  sample_world ["PATH"; "HOME"] sample_files
    ((empty_object_text, PDict []) :: sample_decoded)
    (Exited {| returncode := 0; stdout := empty_object_text |}).

(** [{"auth_token": "t0ken"}]: a configuration without a target. *)
Definition no_target_text : string :=
  ("{" ++ quoted "auth_token" ++ ": " ++ quoted "t0ken" ++ "}")%string.

Definition no_target_world : World :=
  sample_world ["PATH"; "HOME"] [("config.json", no_target_text)]
    [(no_target_text, PDict [("auth_token", PStr "t0ken")])]
    (Exited {| returncode := 0; stdout := notes_text |}).

(** A machine whose repository differs between the two branches by one
    file changed in place and one file renamed; no command can be
    started. *)
Definition two_changes_world : World :=
  {| environ := ["PATH"; "HOME"];
     path_exists := fun _ => true;
     mkdir_ok := fun _ => false;
     read_text := read_from sample_files;
     can_write := fun _ => true;
     json_loads := decode_from sample_decoded;
     fs_lacks := fun _ => true;
     run_process := fun _ => NotStarted;
     py_str := fun _ => "<str>";
     time_time := fun _ => 0%float;
     git_repo := fun _ => Gives tt;
     git_origin := fun _ => Gives tt;
     git_fetch := fun _ => Gives tt;
     git_ref_commit := fun _ branch =>
       match branch with
       | Some name => Gives ("commit of origin/" ++ name)%string
       | None => Fails AssertionError
       end;
     git_diff := fun _ _ _ =>
       Gives [{| a_path := PStr "a.py"; b_path := PStr "a.py" |};
              {| a_path := PStr "old.py"; b_path := PStr "new.py" |}] |}.

(* ================================================================== *)
(** * Basic facts *)
(* ================================================================== *)

(** Strings that can all be passed are the command. *)
Lemma arguments_strings (w : World) (c : list string) :
  forallb (passable w) c = true -> arguments w (map PStr c) = inr c.
Proof.
  induction c as [|a c IH]; simpl; [reflexivity|].
  intros H. apply andb_prop in H. destruct H as [Ha Hc].
  unfold passable in Ha. apply andb_prop in Ha. destruct Ha as [Henc Hnul].
  rewrite Henc. apply negb_true_iff in Hnul. rewrite Hnul. cbn.
  rewrite (IH Hc). reflexivity.
Qed.

(** A command is made of the arguments, which were strings that can be
    passed. *)
Lemma arguments_given (w : World) (args : list pyval) :
  forall c, arguments w args = inr c ->
            args = map PStr c /\ forallb (passable w) c = true.
Proof.
  induction args as [|a args IH]; intros c H.
  - injection H as <-. split; reflexivity.
  - cbn in H.
    destruct a; cbn in H; try discriminate H.
    destruct (encodable w s) eqn:Henc; cbn in H; [|discriminate H].
    destruct (embedded_null s) eqn:Hnul; [discriminate H|].
    destruct (arguments w args) as [e|c'] eqn:Hrest; [discriminate H|].
    injection H as <-.
    destruct (IH c' eq_refl) as [-> Hall].
    split; [reflexivity|].
    cbn. unfold passable at 1. rewrite Henc, Hnul, Hall. reflexivity.
Qed.

(** Strings are refused only for what they hold. *)
Lemma arguments_refused (w : World) (c : list string) (e : exn) :
  arguments w (map PStr c) = inl e -> e = UnicodeEncodeError \/ e = ValueError.
Proof.
  induction c as [|a c IH]; cbn; [discriminate|].
  destruct (encodable w a); cbn; [|intros H; injection H as <-; left; reflexivity].
  destruct (embedded_null a); [intros H; injection H as <-; right; reflexivity|].
  destruct (arguments w (map PStr c)) as [e'|c']; [|discriminate].
  intros H. injection H as <-. apply IH. reflexivity.
Qed.

(** Strings that cannot all be passed are refused. *)
Lemma arguments_not_passable (w : World) (c : list string) :
  forallb (passable w) c = false ->
  exists e, arguments w (map PStr c) = inl e
            /\ (e = UnicodeEncodeError \/ e = ValueError).
Proof.
  intros H.
  destruct (arguments w (map PStr c)) as [e|c'] eqn:Hargs.
  - exists e. split; [reflexivity | exact (arguments_refused w c e Hargs)].
  - destruct (arguments_given w _ _ Hargs) as [_ Hall].
    assert (c' = c) as ->.
    { destruct (arguments_given w _ _ Hargs) as [Hmap _].
      clear -Hmap. revert c' Hmap.
      induction c as [|a c IH]; intros [|a' c'] Hmap; try discriminate Hmap;
        [reflexivity|].
      cbn in Hmap. injection Hmap as -> Hmap. f_equal. apply IH. exact Hmap. }
    congruence.
Qed.

(** What [subprocess.run] does with a command that can be passed. *)
Lemma subprocess_run_passed (w : World) (text : bool) (c : list string) (tr : trace) :
  forallb (passable w) c = true ->
  subprocess_run w text (map PStr c) tr
  = match run_process w c with
    | NotStarted => (Raise OSError, tr)
    | Exited r => (Ok r, tr ++ [Spawn c])
    | Undecodable code =>
        if text then (Raise UnicodeDecodeError, tr ++ [Spawn c])
        else (Ok {| returncode := code; stdout := "" |}, tr ++ [Spawn c])
    end.
Proof.
  intros H. unfold subprocess_run. rewrite (arguments_strings w c H).
  destruct (run_process w c) as [r|code|]; [reflexivity| |reflexivity].
  destruct text; reflexivity.
Qed.

Lemma json_loads_call_result (w : World) (text : string) (tr : trace) :
  json_loads_call w text tr
  = match json_loads w text with
    | Decoded v => (Ok v, tr)
    | Malformed => (Raise JSONDecodeError, tr)
    | TooDeep => (Raise RecursionError, tr)
    | TooLarge => (Raise ValueError, tr)
    end.
Proof. unfold json_loads_call. destruct (json_loads w text); reflexivity. Qed.

(** The two commands of the setup. *)
Lemma run_version (w : World) (tr : trace) :
  subprocess_run w true [PStr "snyk"; PStr "--version"] tr
  = match run_process w ["snyk"; "--version"] with
    | NotStarted => (Raise OSError, tr)
    | Exited r => (Ok r, tr ++ [Spawn ["snyk"; "--version"]])
    | Undecodable code => (Raise UnicodeDecodeError, tr ++ [Spawn ["snyk"; "--version"]])
    end.
Proof. exact (subprocess_run_passed w true ["snyk"; "--version"] tr eq_refl). Qed.

Lemma auth_passable (w : World) (token : string) :
  forallb (passable w) ["snyk"; "auth"; token] = passable w token.
Proof. cbn. apply andb_true_r. Qed.

Lemma run_auth (w : World) (token : string) (tr : trace) :
  passable w token = true ->
  subprocess_run w false [PStr "snyk"; PStr "auth"; PStr token] tr
  = match run_process w ["snyk"; "auth"; token] with
    | NotStarted => (Raise OSError, tr)
    | Exited r => (Ok r, tr ++ [Spawn ["snyk"; "auth"; token]])
    | Undecodable code =>
        (Ok {| returncode := code; stdout := "" |}, tr ++ [Spawn ["snyk"; "auth"; token]])
    end.
Proof.
  intros H.
  apply (subprocess_run_passed w false ["snyk"; "auth"; token] tr).
  rewrite auth_passable. exact H.
Qed.

(** A token that cannot be passed: the exception [subprocess.run] raises
    for it. *)
Lemma run_auth_refused (w : World) (text : bool) (token : string) (tr : trace) :
  passable w token = false ->
  subprocess_run w text [PStr "snyk"; PStr "auth"; PStr token] tr
  = (Raise (if encodable w token then ValueError else UnicodeEncodeError), tr).
Proof.
  intros Hpass.
  unfold subprocess_run. cbn [arguments argument].
  replace (encodable w "snyk") with true by reflexivity.
  replace (encodable w "auth") with true by reflexivity.
  cbn [negb embedded_null existsb list_ascii_of_string Ascii.eqb Bool.eqb orb].
  unfold passable in Hpass.
  destruct (encodable w token); cbn [negb].
  - cbn in Hpass. apply negb_false_iff in Hpass. rewrite Hpass. reflexivity.
  - reflexivity.
Qed.

Lemma spawned_app (t1 t2 : trace) : spawned (t1 ++ t2) = spawned t1 ++ spawned t2.
Proof. unfold spawned. apply flat_map_app. Qed.

Lemma logged_app (t1 t2 : trace) : logged (t1 ++ t2) = logged t1 ++ logged t2.
Proof. unfold logged. apply flat_map_app. Qed.

Lemma environ_test (w : World) :
  existsb (String.eqb "SNYK_TOKEN") (environ w) = true <-> In "SNYK_TOKEN" (environ w).
Proof.
  rewrite existsb_exists. split.
  - intros [x [Hin Heq]]. apply String.eqb_eq in Heq. subst x. exact Hin.
  - intros Hin. exists "SNYK_TOKEN". split; [exact Hin | apply String.eqb_refl].
Qed.

Lemma file_flag_is_file_flag (path : string) : String.prefix "--file=" (file_flag path) = true.
Proof. unfold file_flag. simpl. destruct path; reflexivity. Qed.

Lemma file_flags_kept (paths : list string) (rest : list string) :
  filter (String.prefix "--file=") (map file_flag paths ++ rest)
  = map file_flag paths ++ filter (String.prefix "--file=") rest.
Proof.
  induction paths as [|p paths IH]; [reflexivity|].
  cbn [map app filter]. rewrite file_flag_is_file_flag, IH. reflexivity.
Qed.

Lemma upload_flags_no_file_flag (w : World) (pn tn : pyval) :
  filter (String.prefix "--file=") (upload_flags w pn tn) = [].
Proof.
  unfold upload_flags.
  destruct (is_not_None pn); [|reflexivity].
  destruct (is_not_None tn); reflexivity.
Qed.

Lemma upload_flags_are_flags (w : World) (pn tn : pyval) :
  Forall (fun a => String.prefix "--" a = true) (upload_flags w pn tn).
Proof.
  unfold upload_flags.
  destruct (is_not_None pn); [|constructor].
  destruct (is_not_None tn); repeat constructor.
Qed.

Lemma file_flags_are_flags (paths : list string) :
  Forall (fun a => String.prefix "--" a = true) (map file_flag paths).
Proof.
  induction paths as [|p paths IH]; constructor; [reflexivity | exact IH].
Qed.

(** Formatting the strings of a list one by one gives the strings back. *)
Lemma format_paths (w : World) (paths : list string) :
  map (fun file => ("--file=" ++ format w file)%string) (map PStr paths)
  = map file_flag paths.
Proof. rewrite map_map. reflexivity. Qed.

(** Once [command] is assigned, building the command cannot fail: it is the
    assigned words followed by the upload flags, and one line is logged. *)
Lemma build_command_assigned (w : World) (tool base : list string)
    (target pn tn : pyval) (tr : trace) :
  target_command w tool target = Some base ->
  build_command w tool target pn tn tr
  = (Ok (base ++ upload_flags w pn tn), tr ++ [Log INFO "Running Command - {command}"]).
Proof.
  intros Hbase.
  unfold build_command, append_report_flags, upload_flags, bind.
  rewrite Hbase.
  destruct (is_not_None pn); simpl.
  - destruct (is_not_None tn); simpl; rewrite <- !app_assoc; reflexivity.
  - rewrite app_nil_r. reflexivity.
Qed.

(** With [command] unassigned the first read of it raises. *)
Lemma build_command_unassigned (w : World) (tool : list string)
    (target pn tn : pyval) (tr : trace) :
  target_command w tool target = None ->
  build_command w tool target pn tn tr = (Raise UnboundLocalError, tr).
Proof.
  intros Hnone.
  unfold build_command, append_report_flags, bind.
  rewrite Hnone.
  destruct (is_not_None pn); reflexivity.
Qed.

Lemma target_command_other (w : World) (tool : list string) (target : pyval) :
  is_str_or_list target = false -> target_command w tool target = None.
Proof. destruct target; simpl; intros H; congruence. Qed.

Lemma log_returncode_line (r : CompletedProcess) (tr : trace) :
  log_returncode r tr
  = (Ok tt, tr ++ [Log (exit_code_level (returncode r)) (exit_code_message (returncode r))]).
Proof.
  unfold log_returncode, exit_code_level, exit_code_message.
  destruct (returncode r =? 0); [reflexivity|].
  destruct (returncode r =? 1); [reflexivity|].
  destruct (returncode r =? 2); [reflexivity|].
  destruct (returncode r =? 3); reflexivity.
Qed.

(** What a scan does from the spawned command on, whatever the exit code:
    one log line for the code, then the decoding of the captured output. *)
Lemma trigger_scan_spawned (w : World) (tool : list string) (name : string) (b : bool)
    (target pn tn : pyval) (base : list string) (r : CompletedProcess) (tr : trace) :
  target_command w tool target = Some base ->
  forallb (passable w) (base ++ upload_flags w pn tn) = true ->
  run_process w (base ++ upload_flags w pn tn) = Exited r ->
  trigger_scan w tool name b target pn tn tr
  = let before :=
      [Log INFO (banner (name ++ " Started")%string);
       Log INFO "Running Command - {command}";
       Spawn (base ++ upload_flags w pn tn);
       Log (exit_code_level (returncode r)) (exit_code_message (returncode r))] in
    match json_loads w (stdout r) with
    | Decoded scan_results =>
        (Ok scan_results,
         tr ++ before ++ [Log INFO (banner (name ++ " Ended")%string)])
    | Malformed =>
        (Raise JSONDecodeError,
         tr ++ before ++ [Log ERROR "Error parsing JSON output: {e}";
                          Log INFO (banner (name ++ " Ended")%string)])
    | TooDeep => (Raise RecursionError, tr ++ before)
    | TooLarge => (Raise ValueError, tr ++ before)
    end.
Proof.
  intros Hbase Hpass Hrun.
  unfold trigger_scan, try_except, bind, logger_info, emit.
  rewrite (build_command_assigned w tool base target pn tn _ Hbase).
  rewrite (subprocess_run_passed w true _ _ Hpass), Hrun.
  rewrite log_returncode_line, json_loads_call_result.
  destruct (json_loads w (stdout r)) as [doc| | |]; cbn.
  - unfold logger_info, emit. rewrite <- !app_assoc. reflexivity.
  - unfold logger_error, logger_info, emit, bind, raise. rewrite <- !app_assoc. reflexivity.
  - rewrite <- !app_assoc. reflexivity.
  - rewrite <- !app_assoc. reflexivity.
Qed.

(** When the process does not give back a result, for an executable that
    cannot be started or an output that is not text, the exception passes
    both handlers. *)
Lemma trigger_scan_not_started (w : World) (tool : list string) (name : string) (b : bool)
    (target pn tn : pyval) (base : list string) (tr : trace) :
  target_command w tool target = Some base ->
  forallb (passable w) (base ++ upload_flags w pn tn) = true ->
  run_process w (base ++ upload_flags w pn tn) = NotStarted ->
  trigger_scan w tool name b target pn tn tr
  = (Raise OSError,
     tr ++ [Log INFO (banner (name ++ " Started")%string);
            Log INFO "Running Command - {command}"]).
Proof.
  intros Hbase Hpass Hrun.
  unfold trigger_scan, try_except, bind, logger_info, emit.
  rewrite (build_command_assigned w tool base target pn tn _ Hbase).
  rewrite (subprocess_run_passed w true _ _ Hpass), Hrun.
  cbn. rewrite <- !app_assoc. reflexivity.
Qed.

Lemma trigger_scan_undecodable (w : World) (tool : list string) (name : string) (b : bool)
    (target pn tn : pyval) (base : list string) (code : Z) (tr : trace) :
  target_command w tool target = Some base ->
  forallb (passable w) (base ++ upload_flags w pn tn) = true ->
  run_process w (base ++ upload_flags w pn tn) = Undecodable code ->
  trigger_scan w tool name b target pn tn tr
  = (Raise UnicodeDecodeError,
     tr ++ [Log INFO (banner (name ++ " Started")%string);
            Log INFO "Running Command - {command}";
            Spawn (base ++ upload_flags w pn tn)]).
Proof.
  intros Hbase Hpass Hrun.
  unfold trigger_scan, try_except, bind, logger_info, emit.
  rewrite (build_command_assigned w tool base target pn tn _ Hbase).
  rewrite (subprocess_run_passed w true _ _ Hpass), Hrun.
  cbn. rewrite <- !app_assoc. reflexivity.
Qed.

(** A command with an argument that cannot be passed is refused before
    anything runs. *)
Lemma trigger_scan_refused (w : World) (tool : list string) (name : string) (b : bool)
    (target pn tn : pyval) (base : list string) (tr : trace) :
  target_command w tool target = Some base ->
  forallb (passable w) (base ++ upload_flags w pn tn) = false ->
  exists e,
    (e = UnicodeEncodeError \/ e = ValueError)
    /\ trigger_scan w tool name b target pn tn tr
       = (Raise e,
          tr ++ [Log INFO (banner (name ++ " Started")%string);
                 Log INFO "Running Command - {command}"]).
Proof.
  intros Hbase Hpass.
  destruct (arguments_not_passable w _ Hpass) as [e [Hargs He]].
  exists e. split; [exact He|].
  unfold trigger_scan, try_except, bind, logger_info, emit.
  rewrite (build_command_assigned w tool base target pn tn _ Hbase).
  unfold subprocess_run. rewrite Hargs. unfold raise.
  destruct He as [-> | ->]; cbn; rewrite <- !app_assoc; reflexivity.
Qed.

Lemma trigger_scan_unassigned (w : World) (tool : list string) (name : string) (b : bool)
    (target pn tn : pyval) (tr : trace) :
  is_str_or_list target = false ->
  trigger_scan w tool name b target pn tn tr
  = (Raise UnboundLocalError, tr ++ [Log INFO (banner (name ++ " Started")%string)]).
Proof.
  intros Hother.
  unfold trigger_scan, try_except, bind, logger_info, emit.
  rewrite (build_command_unassigned w tool target pn tn _
             (target_command_other w tool target Hother)).
  reflexivity.
Qed.

(* ================================================================== *)
(** * The gate decision *)
(* ================================================================== *)

(** C2: for every severity histogram, [evaluate_severity_summary] returns
    [True] exactly when the high count is zero, whatever the low and medium
    counts (and the scan time) are; so [{0,0,0}] passes, [{0,0,1}] fails,
    and counts of any size are decided by the high count alone. *)
Theorem gate_passes_iff_no_high (low medium high : nat) (scan_time : pyval) (tr : trace) :
  fst (evaluate_severity_summary (histogram low medium high scan_time) tr)
  = Ok (Nat.eqb high 0)
  /\ (forall low' medium' scan_time',
        fst (evaluate_severity_summary (histogram low' medium' high scan_time') tr)
        = fst (evaluate_severity_summary (histogram low medium high scan_time) tr))
  /\ fst (evaluate_severity_summary (histogram 0 0 0 scan_time) tr) = Ok true
  /\ fst (evaluate_severity_summary (histogram 0 0 1 scan_time) tr) = Ok false.
Proof.
  assert (verdict : forall l m t,
             fst (evaluate_severity_summary (histogram l m high t) tr)
             = Ok (Nat.eqb high 0)).
  { intros l m t. unfold evaluate_severity_summary, histogram, bind. cbn.
    destruct high as [|h]; reflexivity. }
  split; [apply verdict|]. split; [|split; reflexivity].
  intros l m t. rewrite !verdict. reflexivity.
Qed.

(* ================================================================== *)
(** * The scanner command *)
(* ================================================================== *)

Lemma file_set_command_of (w : World) (tool : list string) (files : list string)
    (pn tn : pyval) (tr : trace) :
  build_command w tool (PList (map PStr files)) pn tn tr
  = (Ok ((tool ++ ["--json"]) ++ map file_flag files ++ upload_flags w pn tn),
     tr ++ [Log INFO "Running Command - {command}"]).
Proof.
  rewrite (build_command_assigned w tool ((tool ++ ["--json"]) ++ map file_flag files)
             (PList (map PStr files)) pn tn tr).
  - rewrite <- app_assoc. reflexivity.
  - cbn [target_command]. rewrite format_paths. reflexivity.
Qed.

(** C6: for every list of file paths given as the target (the non-empty
    ones among them), the command built by the code analysis scan and by
    the dependency scan is the words of the tool and [--json], then one
    [--file=<path>] per path in the order of the list, then the upload
    flags if any: the [--file=] flags of the command are exactly those of
    the paths, and every argument after [--json] is a flag, none a bare
    path. *)
Theorem file_set_one_flag_per_path (w : World) (files : list string)
    (pn tn : pyval) (tr : trace) :
  let flags := map file_flag files ++ upload_flags w pn tn in
  (build_command w sast_tool (PList (map PStr files)) pn tn tr
   = (Ok (["snyk"; "code"; "test"; "--json"] ++ flags),
      tr ++ [Log INFO "Running Command - {command}"])
   /\ build_command w sca_tool (PList (map PStr files)) pn tn tr
      = (Ok (["snyk"; "test"; "--json"] ++ flags),
         tr ++ [Log INFO "Running Command - {command}"]))
  /\ filter (String.prefix "--file=") (["snyk"; "code"; "test"; "--json"] ++ flags)
     = map file_flag files
  /\ filter (String.prefix "--file=") (["snyk"; "test"; "--json"] ++ flags)
     = map file_flag files
  /\ Forall (fun a => String.prefix "--" a = true) flags.
Proof.
  cbv zeta. repeat split.
  - apply file_set_command_of.
  - apply file_set_command_of.
  - cbn [app filter String.prefix]. cbn.
    rewrite file_flags_kept, upload_flags_no_file_flag. apply app_nil_r.
  - cbn. rewrite file_flags_kept, upload_flags_no_file_flag. apply app_nil_r.
  - apply Forall_app. split.
    + apply file_flags_are_flags.
    + apply upload_flags_are_flags.
Qed.

(** C7: for a target that is a path or a list of files, with [base] the
    words the target alone gives: when [project_name] is set and
    [target_name] is not, the command is [base] followed by exactly
    [--report] and [--project-name=...]; when both are set it is [base]
    followed by the three flags; when [project_name] is not set it is
    [base] alone, whatever [target_name] is. *)
Theorem upload_flags_appended (w : World) (tool : list string) (target : pyval)
    (base : list string) (tr : trace) :
  target_command w tool target = Some base ->
  (forall pn, pn <> PNone ->
     fst (build_command w tool target pn PNone tr)
     = Ok (base ++ ["--report"; ("--project-name=" ++ format w pn)%string]))
  /\ (forall pn tn, pn <> PNone -> tn <> PNone ->
        fst (build_command w tool target pn tn tr)
        = Ok (base ++ ["--report"; ("--project-name=" ++ format w pn)%string;
                       ("--target-name=" ++ format w tn)%string]))
  /\ (forall tn, fst (build_command w tool target PNone tn tr) = Ok base).
Proof.
  intros Hbase.
  assert (set : forall v, v <> PNone -> is_not_None v = true).
  { intros v Hv. destruct v; try reflexivity. congruence. }
  repeat split.
  - intros pn Hpn.
    rewrite (build_command_assigned w tool base target pn PNone tr Hbase).
    unfold upload_flags. rewrite (set pn Hpn). reflexivity.
  - intros pn tn Hpn Htn.
    rewrite (build_command_assigned w tool base target pn tn tr Hbase).
    unfold upload_flags. rewrite (set pn Hpn), (set tn Htn). reflexivity.
  - intros tn.
    rewrite (build_command_assigned w tool base target PNone tn tr Hbase).
    unfold upload_flags. cbn. rewrite app_nil_r. reflexivity.
Qed.

Lemma upload_flags_appended_witness :
  target_command findings_world sast_tool (PStr ".")
  = Some ["snyk"; "code"; "test"; "--json"; "."]
  /\ fst (build_command findings_world sast_tool (PStr ".") (PStr "demo") PNone [])
     = Ok ["snyk"; "code"; "test"; "--json"; "."; "--report"; "--project-name=demo"]
  /\ fst (build_command findings_world sast_tool (PStr ".") (PStr "demo") (PStr "web") [])
     = Ok ["snyk"; "code"; "test"; "--json"; "."; "--report"; "--project-name=demo";
           "--target-name=web"]
  /\ fst (build_command findings_world sast_tool (PStr ".") PNone (PStr "web") [])
     = Ok ["snyk"; "code"; "test"; "--json"; "."].
Proof.
  pose proof (upload_flags_appended findings_world sast_tool (PStr ".")
                ["snyk"; "code"; "test"; "--json"; "."] [] eq_refl) as [H1 [H2 H3]].
  split; [reflexivity|]. split; [|split].
  - apply (H1 (PStr "demo")). discriminate.
  - apply (H2 (PStr "demo") (PStr "web")); discriminate.
  - apply (H3 (PStr "web")).
Defined.

(** C10: for a target that is neither a string nor a list, both scans fail
    with [UnboundLocalError], raised at the first read of the unassigned
    local [command]: they return nothing, they raise no [ValueError] (the
    validating [else] is commented out), and all they did before is log
    their opening banner, so no command was run. *)
Theorem unvalidated_target_unbound (w : World) (target pn tn : pyval) (tr : trace) :
  is_str_or_list target = false ->
  trigger_sast_scan w target pn tn tr
  = (Raise UnboundLocalError,
     tr ++ [Log INFO "----------------trigger_sast_scan Started-----------------"])
  /\ trigger_sca_scan w target pn tn tr
     = (Raise UnboundLocalError,
        tr ++ [Log INFO "----------------trigger_sca_scan Started-----------------"]).
Proof.
  intros Hother. split.
  - apply (trigger_scan_unassigned w sast_tool "trigger_sast_scan" false
             target pn tn tr Hother).
  - apply (trigger_scan_unassigned w sca_tool "trigger_sca_scan" true
             target pn tn tr Hother).
Qed.

Lemma unvalidated_target_unbound_witness :
  is_str_or_list (PInt 42) = false
  /\ trigger_sast_scan findings_world (PInt 42) PNone PNone []
     = (Raise UnboundLocalError,
        [Log INFO "----------------trigger_sast_scan Started-----------------"])
  /\ trigger_sca_scan findings_world (PDict []) (PStr "demo") PNone []
     = (Raise UnboundLocalError,
        [Log INFO "----------------trigger_sca_scan Started-----------------"]).
Proof.
  split; [reflexivity|]. split.
  - apply (unvalidated_target_unbound findings_world (PInt 42) PNone PNone [] eq_refl).
  - apply (unvalidated_target_unbound findings_world (PDict []) (PStr "demo") PNone []
             eq_refl).
Defined.

(* ================================================================== *)
(** * Exit codes of the scanner *)
(* ================================================================== *)

(** C3: the exit status of the scanner chooses the one line the scan logs
    for it and nothing else.  With status 1 the line is a warning, no error
    is reported, and the captured output goes to [json.loads], whose
    document is returned.  With status 2, 3 or any other status but 0, such
    as 7, the failed invocation is reported, as one line at error level, and
    the captured output goes to [json.loads] all the same.  In every case
    the scan ends as the decoding does: the document, [JSONDecodeError]
    logged and raised again, or the [RecursionError] or [ValueError] of a
    text that [json.loads] cannot take.  This holds for both
    scans, for every target that gives a command and every upload name,
    once the process has run and its output is text. *)
Theorem exit_code_logged_then_parsed (w : World) (target pn tn : pyval)
    (base : list string) (r : CompletedProcess) (tr : trace) :
  let command := base ++ upload_flags w pn tn in
  let ends (name : string) (line : event) : outcome pyval * trace :=
    let ran :=
      tr ++ [Log INFO (banner (name ++ " Started")%string);
             Log INFO "Running Command - {command}";
             Spawn command;
             line] in
    match json_loads w (stdout r) with
    | Decoded scan_results =>
        (Ok scan_results, ran ++ [Log INFO (banner (name ++ " Ended")%string)])
    | Malformed =>
        (Raise JSONDecodeError,
         ran ++ [Log ERROR "Error parsing JSON output: {e}";
                 Log INFO (banner (name ++ " Ended")%string)])
    | TooDeep => (Raise RecursionError, ran)
    | TooLarge => (Raise ValueError, ran)
    end in
  forall (scan : pyval -> pyval -> pyval -> M pyval) (name : string) (tool : list string),
    (scan = trigger_sast_scan w /\ name = "trigger_sast_scan" /\ tool = sast_tool)
    \/ (scan = trigger_sca_scan w /\ name = "trigger_sca_scan" /\ tool = sca_tool) ->
    target_command w tool target = Some base ->
    forallb (passable w) command = true ->
    run_process w command = Exited r ->
    (returncode r = 0 ->
     scan target pn tn tr
     = ends name (Log INFO "CLI scan completed successfully. No vulnerabilities found."))
    /\ (returncode r = 1 ->
        scan target pn tn tr
        = ends name (Log WARNING "CLI scan completed. Vulnerabilities found."))
    /\ (returncode r = 2 ->
        scan target pn tn tr
        = ends name (Log ERROR "CLI scan failed. Failure, try to re-run the command."))
    /\ (returncode r = 3 ->
        scan target pn tn tr
        = ends name (Log ERROR "CLI scan failed. No supported projects detected."))
    /\ (returncode r <> 0 -> returncode r <> 1 -> returncode r <> 2 -> returncode r <> 3 ->
        scan target pn tn tr
        = ends name
            (Log ERROR "CLI scan failed with unexpected error code: {result.returncode}")).
Proof.
  cbv zeta.
  assert (generic : forall tool name b,
             target_command w tool target = Some base ->
             forallb (passable w) (base ++ upload_flags w pn tn) = true ->
             run_process w (base ++ upload_flags w pn tn) = Exited r ->
             forall line,
               line = Log (exit_code_level (returncode r))
                          (exit_code_message (returncode r)) ->
               trigger_scan w tool name b target pn tn tr
               = match json_loads w (stdout r) with
                 | Decoded scan_results =>
                     (Ok scan_results,
                      (tr ++ [Log INFO (banner (name ++ " Started")%string);
                              Log INFO "Running Command - {command}";
                              Spawn (base ++ upload_flags w pn tn);
                              line])
                        ++ [Log INFO (banner (name ++ " Ended")%string)])
                 | Malformed =>
                     (Raise JSONDecodeError,
                      (tr ++ [Log INFO (banner (name ++ " Started")%string);
                              Log INFO "Running Command - {command}";
                              Spawn (base ++ upload_flags w pn tn);
                              line])
                        ++ [Log ERROR "Error parsing JSON output: {e}";
                            Log INFO (banner (name ++ " Ended")%string)])
                 | TooDeep =>
                     (Raise RecursionError,
                      tr ++ [Log INFO (banner (name ++ " Started")%string);
                             Log INFO "Running Command - {command}";
                             Spawn (base ++ upload_flags w pn tn);
                             line])
                 | TooLarge =>
                     (Raise ValueError,
                      tr ++ [Log INFO (banner (name ++ " Started")%string);
                             Log INFO "Running Command - {command}";
                             Spawn (base ++ upload_flags w pn tn);
                             line])
                 end).
  { intros tool name b Hbase Hpass Hrun line ->.
    rewrite (trigger_scan_spawned w tool name b target pn tn base r tr Hbase Hpass Hrun).
    cbv zeta.
    destruct (json_loads w (stdout r)); rewrite <- ?app_assoc; reflexivity. }
  intros scan name tool Hwhich Hbase Hpass Hrun.
  assert (Hscan : scan = trigger_scan w tool name false
                  \/ scan = trigger_scan w tool name true).
  { destruct Hwhich as [[-> [-> ->]] | [-> [-> ->]]]; [left | right]; reflexivity. }
  assert (Hgen : forall line,
             line = Log (exit_code_level (returncode r))
                        (exit_code_message (returncode r)) ->
             scan target pn tn tr
             = match json_loads w (stdout r) with
               | Decoded scan_results =>
                   (Ok scan_results,
                    (tr ++ [Log INFO (banner (name ++ " Started")%string);
                            Log INFO "Running Command - {command}";
                            Spawn (base ++ upload_flags w pn tn);
                            line])
                      ++ [Log INFO (banner (name ++ " Ended")%string)])
               | Malformed =>
                   (Raise JSONDecodeError,
                    (tr ++ [Log INFO (banner (name ++ " Started")%string);
                            Log INFO "Running Command - {command}";
                            Spawn (base ++ upload_flags w pn tn);
                            line])
                      ++ [Log ERROR "Error parsing JSON output: {e}";
                          Log INFO (banner (name ++ " Ended")%string)])
               | TooDeep =>
                   (Raise RecursionError,
                    tr ++ [Log INFO (banner (name ++ " Started")%string);
                           Log INFO "Running Command - {command}";
                           Spawn (base ++ upload_flags w pn tn);
                           line])
               | TooLarge =>
                   (Raise ValueError,
                    tr ++ [Log INFO (banner (name ++ " Started")%string);
                           Log INFO "Running Command - {command}";
                           Spawn (base ++ upload_flags w pn tn);
                           line])
               end).
  { intros line Hline.
    destruct Hscan as [-> | ->]; apply generic; assumption. }
  unfold exit_code_level, exit_code_message in Hgen.
  repeat split.
  - intros H. apply Hgen. rewrite H. reflexivity.
  - intros H. apply Hgen. rewrite H. reflexivity.
  - intros H. apply Hgen. rewrite H. reflexivity.
  - intros H. apply Hgen. rewrite H. reflexivity.
  - intros H0 H1 H2 H3. apply Hgen.
    destruct (Z.eqb_spec (returncode r) 0); [contradiction|].
    destruct (Z.eqb_spec (returncode r) 1); [contradiction|].
    destruct (Z.eqb_spec (returncode r) 2); [contradiction|].
    destruct (Z.eqb_spec (returncode r) 3); [contradiction|].
    reflexivity.
Qed.

Lemma exit_code_logged_then_parsed_witness :
  trigger_sast_scan findings_world (PStr ".") PNone PNone []
  = (Ok findings_value,
     [Log INFO "----------------trigger_sast_scan Started-----------------";
      Log INFO "Running Command - {command}";
      Spawn ["snyk"; "code"; "test"; "--json"; "."];
      Log WARNING "CLI scan completed. Vulnerabilities found.";
      Log INFO "----------------trigger_sast_scan Ended-----------------"])
  /\ trigger_sca_scan broken_scan_world (PList [PStr "a.py"]) PNone PNone []
     = (Raise JSONDecodeError,
        [Log INFO "----------------trigger_sca_scan Started-----------------";
         Log INFO "Running Command - {command}";
         Spawn ["snyk"; "test"; "--json"; "--file=a.py"];
         Log ERROR "CLI scan failed with unexpected error code: {result.returncode}";
         Log ERROR "Error parsing JSON output: {e}";
         Log INFO "----------------trigger_sca_scan Ended-----------------"])
  /\ trigger_sast_scan failed_scan_world (PStr ".") PNone PNone []
     = (Ok notes_value,
        [Log INFO "----------------trigger_sast_scan Started-----------------";
         Log INFO "Running Command - {command}";
         Spawn ["snyk"; "code"; "test"; "--json"; "."];
         Log ERROR "CLI scan failed. Failure, try to re-run the command.";
         Log INFO "----------------trigger_sast_scan Ended-----------------"]).
Proof.
  split; [|split].
  - apply (exit_code_logged_then_parsed findings_world (PStr ".") PNone PNone
             ["snyk"; "code"; "test"; "--json"; "."]
             {| returncode := 1; stdout := findings_text |} []
             (trigger_sast_scan findings_world) "trigger_sast_scan" sast_tool);
      try reflexivity.
    left. repeat split.
  - apply (exit_code_logged_then_parsed broken_scan_world (PList [PStr "a.py"]) PNone PNone
             ["snyk"; "test"; "--json"; "--file=a.py"]
             {| returncode := 7; stdout := "Segmentation fault" |} []
             (trigger_sca_scan broken_scan_world) "trigger_sca_scan" sca_tool);
      try reflexivity; try (intros H; discriminate H).
    right. repeat split.
  - apply (exit_code_logged_then_parsed failed_scan_world (PStr ".") PNone PNone
             ["snyk"; "code"; "test"; "--json"; "."]
             {| returncode := 2; stdout := notes_text |} []
             (trigger_sast_scan failed_scan_world) "trigger_sast_scan" sast_tool);
      try reflexivity.
    left. repeat split.
Defined.

(* ================================================================== *)
(** * The token check *)
(* ================================================================== *)

Lemma not_in_environ (w : World) :
  ~ In "SNYK_TOKEN" (environ w) ->
  existsb (String.eqb "SNYK_TOKEN") (environ w) = false.
Proof.
  intros Hout.
  destruct (existsb (String.eqb "SNYK_TOKEN") (environ w)) eqn:E; [|reflexivity].
  apply environ_test in E. contradiction.
Qed.

Lemma check_snyk_token_bound (w : World) (token : pyval) (tr : trace) :
  In "SNYK_TOKEN" (environ w) ->
  check_snyk_token w token tr
  = (Raise ValueError,
     tr ++ [Log INFO "----------------check_snyk_token Started-----------------";
            Log ERROR "SNYK_TOKEN environment variable not set."]).
Proof.
  intros Hin. apply environ_test in Hin.
  unfold check_snyk_token, try_except, bind, logger_info, emit.
  rewrite Hin. cbn. rewrite <- !app_assoc. reflexivity.
Qed.

Lemma check_snyk_token_runs (w : World) (token : string) (r : CompletedProcess)
    (tr : trace) :
  ~ In "SNYK_TOKEN" (environ w) ->
  passable w token = true ->
  run_process w ["snyk"; "auth"; token] = Exited r ->
  check_snyk_token w (PStr token) tr
  = if returncode r =? 0 then (Ok tt, tr ++ token_check_events token)
    else
      (Raise CalledProcessError,
       tr ++ [Log INFO "----------------check_snyk_token Started-----------------";
              Spawn ["snyk"; "auth"; token];
              Log ERROR "Failed to authenticate to Snyk: {e}";
              Log INFO "----------------check_snyk_token Ended-----------------"]).
Proof.
  intros Hout Hpass Hrun. apply not_in_environ in Hout.
  unfold check_snyk_token, try_except, bind, logger_info, emit.
  rewrite Hout. cbn [ret]. rewrite (run_auth w token _ Hpass), Hrun.
  unfold check_returncode.
  destruct (returncode r =? 0); cbn; rewrite <- !app_assoc; reflexivity.
Qed.

(** A token that cannot be passed as an argument ends the call before any
    process runs; the handler of the function does not catch it. *)
Lemma check_snyk_token_refused (w : World) (token : string) (tr : trace) :
  ~ In "SNYK_TOKEN" (environ w) ->
  passable w token = false ->
  check_snyk_token w (PStr token) tr
  = (Raise (if encodable w token then ValueError else UnicodeEncodeError),
     tr ++ [Log INFO "----------------check_snyk_token Started-----------------"]).
Proof.
  intros Hout Hpass. apply not_in_environ in Hout.
  unfold check_snyk_token, try_except, bind, logger_info, emit.
  rewrite Hout. cbn [ret]. rewrite (run_auth_refused w false token _ Hpass).
  destruct (encodable w token); reflexivity.
Qed.

(** C5: [check_snyk_token] raises [ValueError] when [SNYK_TOKEN] is bound in
    the environment, having done nothing but log two lines: no command is
    run.  When the variable is not bound it goes on to [snyk auth <token>]
    with the token it was given: a token that can be passed as an argument
    is run and the check ends as that command does; a token that cannot
    (it holds [NUL], or a character the file system encoding lacks) is
    refused by [subprocess.run] before any process runs. *)
Theorem token_check_inverted (w : World) (tr : trace) :
  (forall token, In "SNYK_TOKEN" (environ w) ->
     check_snyk_token w token tr
     = (Raise ValueError,
        tr ++ [Log INFO "----------------check_snyk_token Started-----------------";
               Log ERROR "SNYK_TOKEN environment variable not set."]))
  /\ (forall token r, ~ In "SNYK_TOKEN" (environ w) ->
        passable w token = true ->
        run_process w ["snyk"; "auth"; token] = Exited r ->
        check_snyk_token w (PStr token) tr
        = if returncode r =? 0 then
            (Ok tt,
             tr ++ [Log INFO "----------------check_snyk_token Started-----------------";
                    Spawn ["snyk"; "auth"; token];
                    Log INFO "Authenticated to Snyk successfully.";
                    Log INFO "----------------check_snyk_token Ended-----------------"])
          else
            (Raise CalledProcessError,
             tr ++ [Log INFO "----------------check_snyk_token Started-----------------";
                    Spawn ["snyk"; "auth"; token];
                    Log ERROR "Failed to authenticate to Snyk: {e}";
                    Log INFO "----------------check_snyk_token Ended-----------------"]))
  /\ (forall token, ~ In "SNYK_TOKEN" (environ w) ->
        passable w token = false ->
        check_snyk_token w (PStr token) tr
        = (Raise (if encodable w token then ValueError else UnicodeEncodeError),
           tr ++ [Log INFO "----------------check_snyk_token Started-----------------"])).
Proof.
  split; [|split].
  - intros token Hin. apply check_snyk_token_bound. exact Hin.
  - intros token r Hout Hpass Hrun.
    rewrite (check_snyk_token_runs w token r tr Hout Hpass Hrun). reflexivity.
  - intros token Hout Hpass. apply check_snyk_token_refused; assumption.
Qed.

Lemma token_check_inverted_witness :
  check_snyk_token token_world (PStr "t0ken") []
  = (Raise ValueError,
     [Log INFO "----------------check_snyk_token Started-----------------";
      Log ERROR "SNYK_TOKEN environment variable not set."])
  /\ check_snyk_token findings_world (PStr "t0ken") []
     = (Ok tt,
        [Log INFO "----------------check_snyk_token Started-----------------";
         Spawn ["snyk"; "auth"; "t0ken"];
         Log INFO "Authenticated to Snyk successfully.";
         Log INFO "----------------check_snyk_token Ended-----------------"])
  /\ check_snyk_token findings_world (PStr (String "000" "t0ken")) []
     = (Raise ValueError,
        [Log INFO "----------------check_snyk_token Started-----------------"]).
Proof.
  split; [|split].
  - apply (proj1 (token_check_inverted token_world []) (PStr "t0ken")).
    cbn. right. left. reflexivity.
  - apply (proj1 (proj2 (token_check_inverted findings_world [])) "t0ken"
             {| returncode := 0; stdout := "" |}).
    + cbn. intros [H | [H | H]]; try discriminate; exact H.
    + reflexivity.
    + reflexivity.
  - apply (proj2 (proj2 (token_check_inverted findings_world []))
             (String "000" "t0ken")).
    + cbn. intros [H | [H | H]]; try discriminate; exact H.
    + reflexivity.
Defined.

(* ================================================================== *)
(** * The severity summary *)
(* ================================================================== *)

Lemma bucket_low_iff (level : pyval) :
  bucket_of_level level = Low <-> level = PStr "note" \/ level = PStr "info".
Proof.
  destruct level as [| | | |s| |]; simpl;
    try (split; [discriminate | intros [H|H]; discriminate]).
  destruct (String.eqb_spec s "note") as [->|Hn].
  - split; auto.
  - destruct (String.eqb_spec s "info") as [->|Hi].
    + split; auto.
    + split.
      * destruct (String.eqb s "warning"); discriminate.
      * intros [H|H]; injection H as H; contradiction.
Qed.

Lemma bucket_medium_iff (level : pyval) :
  bucket_of_level level = Medium <-> level = PStr "warning".
Proof.
  destruct level as [| | | |s| |]; simpl; try (split; discriminate).
  destruct (String.eqb_spec s "note") as [->|Hn]; [split; discriminate|].
  destruct (String.eqb_spec s "info") as [->|Hi]; [split; discriminate|].
  destruct (String.eqb_spec s "warning") as [->|Hw].
  - split; reflexivity.
  - split; [discriminate|]. intros H. injection H as H. contradiction.
Qed.

Lemma count_bucket_cons (b : bucket) (r : dict) (rest : list dict) :
  tally b (r :: rest)
  = (if bucket_eqb (bucket_of_level (level_of r)) b then 1 else 0) + tally b rest.
Proof.
  unfold tally, count_bucket. cbn [filter].
  destruct (bucket_eqb (bucket_of_level (level_of r)) b); cbn [List.length]; lia.
Qed.

Lemma count_bucket_app (b : bucket) (r1 r2 : list dict) :
  tally b (r1 ++ r2) = tally b r1 + tally b r2.
Proof.
  unfold tally, count_bucket. rewrite filter_app, length_app. lia.
Qed.

Lemma buckets_partition (results : list dict) :
  (count_bucket Low results + count_bucket Medium results + count_bucket High results
   = List.length results)%nat.
Proof.
  unfold count_bucket.
  induction results as [|r rest IH]; [reflexivity|].
  cbn [filter List.length].
  destruct (bucket_of_level (level_of r)); cbn [bucket_eqb List.length]; lia.
Qed.

(** One pass of the inner loop's body adds one to the bucket of the
    level. *)
Lemma count_one (level : pyval) (l m h : Z) (tr : trace) :
  dict_incr (counts l m h) (severity_key level) tr
  = (Ok (match bucket_of_level level with
         | Low => counts (l + 1) m h
         | Medium => counts l (m + 1) h
         | High => counts l m (h + 1)
         end), tr).
Proof.
  unfold severity_key, bucket_of_level.
  destruct level as [| | | |s| |]; try reflexivity.
  cbn [py_eq_str].
  destruct (String.eqb s "note"); [reflexivity|].
  destruct (String.eqb s "info"); [reflexivity|].
  destruct (String.eqb s "warning"); reflexivity.
Qed.

Lemma counts_ext (l m h l' m' h' : Z) (tr : trace) :
  l = l' -> m = m' -> h = h' ->
  (Ok (counts l m h), tr) = (Ok (counts l' m' h'), tr).
Proof. intros -> -> ->. reflexivity. Qed.

(** The inner loop over the results of one run. *)
Lemma count_results (items : list pyval) :
  forall (results : list dict) (l m h : Z) (tr : trace),
    all_dicts items = Some results ->
    for_each items
      (fun severity_counts result =>
         level <- py_get result "level" (PStr "") ;;
         dict_incr severity_counts (severity_key level))
      (counts l m h) tr
    = (Ok (counts (l + tally Low results) (m + tally Medium results)
                  (h + tally High results)), tr).
Proof.
  induction items as [|item items IH]; intros results l m h tr Hshape.
  - injection Hshape as <-. cbn. unfold tally, count_bucket. cbn.
    rewrite !Z.add_0_r. reflexivity.
  - destruct item as [| | | | | |r]; try discriminate Hshape.
    cbn [all_dicts] in Hshape.
    destruct (all_dicts items) as [rest|] eqn:Hrest; [|discriminate Hshape].
    injection Hshape as <-.
    cbn [for_each]. unfold bind at 1. unfold bind at 1. cbn [py_get ret].
    fold (level_of r). rewrite count_one.
    rewrite !count_bucket_cons.
    destruct (bucket_of_level (level_of r)); cbn [bucket_eqb];
      rewrite (IH rest _ _ _ tr eq_refl); apply counts_ext; lia.
Qed.

(** The outer loop over the runs. *)
Lemma count_runs (runs : list pyval) :
  forall (results : list dict) (l m h : Z) (tr : trace),
    results_of_runs runs = Some results ->
    for_each runs
      (fun severity_counts run =>
         results <- py_get run "results" (PList []) ;;
         results <- iterate results ;;
         for_each results
           (fun severity_counts result =>
              level <- py_get result "level" (PStr "") ;;
              dict_incr severity_counts (severity_key level))
           severity_counts)
      (counts l m h) tr
    = (Ok (counts (l + tally Low results) (m + tally Medium results)
                  (h + tally High results)), tr).
Proof.
  induction runs as [|run runs IH]; intros results l m h tr Hshape.
  - injection Hshape as <-. cbn. unfold tally, count_bucket. cbn.
    rewrite !Z.add_0_r. reflexivity.
  - cbn [results_of_runs] in Hshape.
    destruct (results_of_run run) as [here|] eqn:Hhere; [|discriminate Hshape].
    destruct (results_of_runs runs) as [there|] eqn:Hthere; [|discriminate Hshape].
    injection Hshape as <-.
    destruct run as [| | | | | |r]; try discriminate Hhere.
    cbn [results_of_run] in Hhere.
    cbn [for_each]. unfold bind at 1. unfold bind at 1. cbn [py_get ret].
    destruct (dict_get r "results" (PList [])) as [| | | | |items|];
      try discriminate Hhere.
    unfold bind at 1. cbn [iterate py_iter lift_option ret].
    rewrite (count_results items here l m h tr Hhere).
    rewrite (IH there _ _ _ tr eq_refl).
    rewrite !count_bucket_app. apply counts_ext; lia.
Qed.

(** The value and the log of [summarize_severities] on a document of the
    expected shape. *)
Lemma summarize_severities_counts (d : dict) (runs : list pyval)
    (results : list dict) (tr : trace) :
  dict_get d "runs" (PList []) = PList runs ->
  results_of_runs runs = Some results ->
  summarize_severities (PDict d) tr
  = (Ok (histogram (count_bucket Low results) (count_bucket Medium results)
           (count_bucket High results) (dict_get d "scan_time" (PInt 0))),
     tr ++ [Log INFO "----------------summarize_severities Started-----------------";
            Log INFO "Severity summary: {severity_counts}";
            Log INFO "----------------summarize_severities Ended-----------------"]).
Proof.
  intros Hruns Hshape.
  unfold summarize_severities, try_except.
  unfold bind at 1. unfold logger_info at 1, emit.
  unfold bind at 1. cbn [py_get ret]. rewrite Hruns.
  unfold bind at 1. cbn [iterate py_iter lift_option ret].
  unfold bind at 1.
  change [("low", PInt 0); ("medium", PInt 0); ("high", PInt 0)] with (counts 0 0 0).
  rewrite (count_runs runs results 0 0 0 _ Hshape).
  cbn. rewrite <- !app_assoc. reflexivity.
Qed.

(** C1: for every scan document of the expected shape, with any number of
    runs and, over all runs, L results whose level is [note] or [info], M
    whose level is [warning] and H of any other level (a missing or empty
    one included), [summarize_severities] returns the histogram with low =
    L, medium = M and high = H, together with the scan time of the
    document; L + M + H is the number of results, and a document without
    runs gives the histogram of zeros. *)
Theorem summarize_counts_by_level (d : dict) (runs : list pyval)
    (results : list dict) (tr : trace) :
  dict_get d "runs" (PList []) = PList runs ->
  results_of_runs runs = Some results ->
  let L := count_bucket Low results in
  let M := count_bucket Medium results in
  let H := count_bucket High results in
  summarize_severities (PDict d) tr
  = (Ok (histogram L M H (dict_get d "scan_time" (PInt 0))),
     tr ++ [Log INFO "----------------summarize_severities Started-----------------";
            Log INFO "Severity summary: {severity_counts}";
            Log INFO "----------------summarize_severities Ended-----------------"])
  /\ (L + M + H = List.length results)%nat
  /\ (runs = [] -> L = 0%nat /\ M = 0%nat /\ H = 0%nat).
Proof.
  intros Hruns Hshape. cbv zeta. split; [|split].
  - apply (summarize_severities_counts d runs results tr Hruns Hshape).
  - apply buckets_partition.
  - intros ->. injection Hshape as <-. repeat split.
Qed.

Lemma summarize_counts_by_level_witness :
  summarize_severities findings_value []
  = (Ok (histogram 0 2 1 (PInt 0)),
     [Log INFO "----------------summarize_severities Started-----------------";
      Log INFO "Severity summary: {severity_counts}";
      Log INFO "----------------summarize_severities Ended-----------------"])
  /\ summarize_severities (PDict [("scan_time", PFloat 0.5)]) []
     = (Ok (histogram 0 0 0 (PFloat 0.5)),
        [Log INFO "----------------summarize_severities Started-----------------";
         Log INFO "Severity summary: {severity_counts}";
         Log INFO "----------------summarize_severities Ended-----------------"]).
Proof.
  split.
  - apply (summarize_counts_by_level
             [("runs", PList [PDict [("results",
                PList [PDict [("level", PStr "warning")];
                       PDict [("level", PStr "warning")];
                       PDict [("level", PStr "error")]])]])]
             [PDict [("results",
                PList [PDict [("level", PStr "warning")];
                       PDict [("level", PStr "warning")];
                       PDict [("level", PStr "error")]])]]
             [[("level", PStr "warning")]; [("level", PStr "warning")];
              [("level", PStr "error")]] [] eq_refl eq_refl).
  - apply (summarize_counts_by_level [("scan_time", PFloat 0.5)] [] [] [] eq_refl eq_refl).
Defined.

(* ================================================================== *)
(** * Runs of main *)
(* ================================================================== *)

(** Stepping through a sequence: rewrite the first computation by an
    equation, then take the branch. *)
Ltac step_with H := unfold bind at 1; rewrite H; cbv beta iota.
Ltac step := unfold bind at 1; cbv beta iota.

Lemma load_config_loaded (w : World) (file text : string) (config : pyval) (tr : trace) :
  read_text w file = Text text ->
  json_loads w text = Decoded config ->
  load_config w file tr
  = (Ok config, tr ++ [Log INFO "Configuration loaded from {config_file}."]).
Proof.
  intros Hread Hloads.
  unfold load_config, try_except, bind, read_file, json_loads_call.
  rewrite Hread. cbn [ret]. rewrite Hloads. reflexivity.
Qed.

Lemma check_snyk_installed_yes (w : World) (tr : trace) :
  tool_installed w = true ->
  check_snyk_installed w tr = (Ok tt, tr ++ tool_check_events).
Proof.
  unfold tool_installed. intros Htool.
  destruct (run_process w ["snyk"; "--version"]) as [r|code|] eqn:Hrun;
    try discriminate.
  unfold check_snyk_installed, try_except, check_returncode, bind.
  cbn [logger_info emit]. rewrite run_version, Hrun. rewrite Htool.
  cbn. rewrite <- !app_assoc. reflexivity.
Qed.

(** A failed tool check raises an [Exception] and has run nothing but,
    at most, [snyk --version]. *)
Lemma check_snyk_installed_no (w : World) (tr : trace) :
  tool_installed w = false ->
  exists e more,
    check_snyk_installed w tr = (Raise e, tr ++ more)
    /\ is_Exception e = true
    /\ (spawned more = [] \/ spawned more = [["snyk"; "--version"]]).
Proof.
  unfold tool_installed. intros Htool.
  unfold check_snyk_installed, try_except, check_returncode, bind.
  cbn [logger_info emit]. rewrite run_version.
  destruct (run_process w ["snyk"; "--version"]) as [r|code|] eqn:Hrun.
  - rewrite Htool. cbn.
    eexists; eexists. split; [rewrite <- !app_assoc; reflexivity|].
    split; [reflexivity|]. right. reflexivity.
  - cbn. eexists; eexists. split; [rewrite <- !app_assoc; reflexivity|].
    split; [reflexivity|]. right. reflexivity.
  - cbn. eexists; eexists. split; [reflexivity|].
    split; [reflexivity|]. left. reflexivity.
Qed.

Lemma check_snyk_token_accepted (w : World) (token : string) (tr : trace) :
  ~ In "SNYK_TOKEN" (environ w) ->
  auth_accepted w token = true ->
  check_snyk_token w (PStr token) tr = (Ok tt, tr ++ token_check_events token).
Proof.
  unfold auth_accepted. intros Hout Hauth.
  apply andb_prop in Hauth. destruct Hauth as [Hpass Hauth].
  destruct (run_process w ["snyk"; "auth"; token]) as [r|code|] eqn:Hrun;
    [| |discriminate].
  - rewrite (check_snyk_token_runs w token r tr Hout Hpass Hrun), Hauth. reflexivity.
  - apply not_in_environ in Hout.
    unfold check_snyk_token, try_except, bind, logger_info, emit.
    rewrite Hout. cbn [ret]. rewrite (run_auth w token _ Hpass), Hrun.
    unfold check_returncode. cbn [returncode]. rewrite Hauth.
    cbn. rewrite <- !app_assoc. reflexivity.
Qed.

(** The start of [main], up to the tool check. *)
Lemma main_startup (w : World) (cfg : dict) (tr : trace) :
  loaded_config w = Some cfg ->
  (logger_info (banner "Main started") ;;
   (if negb (path_exists w "outputs") then
      if mkdir_ok w "outputs" then emit (Mkdir "outputs") else raise OSError
    else ret tt) ;;
   logger_info "Arguments: {args}" ;;
   load_config w "config.json") tr
  = (Ok (PDict cfg), tr ++ startup_events w).
Proof.
  unfold loaded_config, startup_events. intros Hcfg.
  destruct (read_text w "config.json") as [text| |] eqn:Hread;
    try (destruct (negb (path_exists w "outputs") && negb (mkdir_ok w "outputs"));
         discriminate).
  destruct (json_loads w text) as [config| | |] eqn:Hloads;
    try (destruct (negb (path_exists w "outputs") && negb (mkdir_ok w "outputs"));
         discriminate).
  assert (Hconfig : config = PDict cfg).
  { destruct (negb (path_exists w "outputs") && negb (mkdir_ok w "outputs"));
      [discriminate|].
    destruct config; try discriminate. injection Hcfg as ->. reflexivity. }
  subst config.
  unfold bind, logger_info, emit.
  destruct (path_exists w "outputs"); cbn [negb andb] in *.
  - cbn [ret]. rewrite (load_config_loaded w "config.json" text (PDict cfg) _ Hread Hloads).
    rewrite <- !app_assoc. reflexivity.
  - destruct (mkdir_ok w "outputs"); [|discriminate]. cbn [emit].
    rewrite (load_config_loaded w "config.json" text (PDict cfg) _ Hread Hloads).
    rewrite <- !app_assoc. reflexivity.
Qed.

Lemma bind_assoc4 {A B} (a b c : M unit) (d : M A) (k : A -> M B) (tr : trace) :
  (a ;; b ;; c ;; x <- d ;; k x) tr = (x <- (a ;; b ;; c ;; d) ;; k x) tr.
Proof.
  unfold bind.
  destruct (a tr) as [[u|e] t1]; [|reflexivity].
  destruct (b t1) as [[u'|e] t2]; [|reflexivity].
  destruct (c t2) as [[u''|e] t3]; reflexivity.
Qed.

(** The five reads of the configuration. *)
Ltac read_config := do 5 (unfold bind at 1; cbn [py_get ret]).

(** After a successful setup [main] is the push block, if asked for, and
    the closing banner. *)
Lemma main_after_setup (w : World) (args : Args) (cfg : dict) (token : string)
    (tr : trace) :
  loaded_config w = Some cfg ->
  tool_installed w = true ->
  ~ In "SNYK_TOKEN" (environ w) ->
  dict_get cfg "auth_token" PNone = PStr token ->
  auth_accepted w token = true ->
  main w args tr
  = ((if scan_for_push args
      then scan_for_push_block w args (dict_get cfg "target" PNone)
             (dict_get cfg "project_path" PNone)
      else ret tt) ;;
     logger_info (banner "Main Ended")) (tr ++ setup_events w token).
Proof.
  intros Hcfg Htool Henv Htoken Hauth.
  unfold main. rewrite bind_assoc4.
  step_with (main_startup w cfg tr Hcfg).
  read_config. rewrite Htoken.
  unfold bind at 1. unfold try_except at 1. unfold bind at 1.
  rewrite (check_snyk_installed_yes w _ Htool). cbv beta iota. cbn [ret negb].
  unfold bind at 1. unfold try_except at 1. unfold bind at 1.
  rewrite (check_snyk_token_accepted w token _ Henv Hauth). cbv beta iota. cbn [ret negb].
  unfold setup_events. rewrite <- !app_assoc. reflexivity.
Qed.

(** A failed tool check ends [main] at once, normally. *)
Lemma main_tool_missing (w : World) (args : Args) (cfg : dict) (tr : trace) :
  loaded_config w = Some cfg ->
  tool_installed w = false ->
  exists more,
    main w args tr = (Ok tt, tr ++ startup_events w ++ more)
    /\ (spawned more = [] \/ spawned more = [["snyk"; "--version"]]).
Proof.
  intros Hcfg Htool.
  unfold main. rewrite bind_assoc4.
  step_with (main_startup w cfg tr Hcfg).
  read_config.
  destruct (check_snyk_installed_no w (tr ++ startup_events w) Htool)
    as [e [more [Hcheck [Hexc Hspawn]]]].
  unfold bind at 1. unfold try_except at 1. unfold bind at 1.
  rewrite Hcheck. cbv beta iota. rewrite Hexc.
  unfold bind at 1. cbn [logger_error emit ret negb].
  exists (more ++ [Log ERROR "Snyk CLI check failed: {e}"]).
  split; [rewrite <- !app_assoc; reflexivity|].
  rewrite spawned_app. cbn. rewrite app_nil_r. exact Hspawn.
Qed.

(** So does the [ValueError] of the token check. *)
Lemma main_token_bound (w : World) (args : Args) (cfg : dict) (tr : trace) :
  loaded_config w = Some cfg ->
  tool_installed w = true ->
  In "SNYK_TOKEN" (environ w) ->
  main w args tr
  = (Ok tt,
     tr ++ startup_events w ++ tool_check_events
        ++ [Log INFO "----------------check_snyk_token Started-----------------";
            Log ERROR "SNYK_TOKEN environment variable not set.";
            Log ERROR "Authentication failed: {e}"]).
Proof.
  intros Hcfg Htool Henv.
  unfold main. rewrite bind_assoc4.
  step_with (main_startup w cfg tr Hcfg).
  read_config.
  unfold bind at 1. unfold try_except at 1. unfold bind at 1.
  rewrite (check_snyk_installed_yes w _ Htool). cbv beta iota. cbn [ret negb].
  unfold bind at 1. unfold try_except at 1. unfold bind at 1.
  rewrite (check_snyk_token_bound w _ _ Henv). cbv beta iota.
  cbn [is_ValueError]. unfold bind at 1. cbn [logger_error emit ret negb].
  rewrite <- !app_assoc. reflexivity.
Qed.

(** A token check that raises: [main] ends at once, normally when the
    exception is a [ValueError], with the exception otherwise. *)
Lemma main_token_check_raises (w : World) (args : Args) (cfg : dict) (tr : trace)
    (e : exn) (more : trace) :
  loaded_config w = Some cfg ->
  tool_installed w = true ->
  check_snyk_token w (dict_get cfg "auth_token" PNone)
    (tr ++ startup_events w ++ tool_check_events)
  = (Raise e, (tr ++ startup_events w ++ tool_check_events) ++ more) ->
  main w args tr
  = if is_ValueError e then
      (Ok tt,
       tr ++ startup_events w ++ tool_check_events ++ more
          ++ [Log ERROR "Authentication failed: {e}"])
    else (Raise e, tr ++ startup_events w ++ tool_check_events ++ more).
Proof.
  intros Hcfg Htool Hcheck.
  unfold main. rewrite bind_assoc4.
  step_with (main_startup w cfg tr Hcfg).
  read_config.
  unfold bind at 1. unfold try_except at 1. unfold bind at 1.
  rewrite (check_snyk_installed_yes w _ Htool). cbv beta iota. cbn [ret negb].
  unfold bind at 1. unfold try_except at 1. unfold bind at 1.
  rewrite <- (app_assoc tr). rewrite Hcheck. cbv beta iota.
  destruct (is_ValueError e).
  - unfold bind at 1. cbn [logger_error emit ret negb].
    rewrite <- !app_assoc. reflexivity.
  - rewrite <- !app_assoc. reflexivity.
Qed.

(** A token that cannot be passed to [snyk auth]: the [ValueError] is
    caught and [main] returns. *)
Lemma main_token_refused (w : World) (args : Args) (cfg : dict) (token : string)
    (tr : trace) :
  loaded_config w = Some cfg ->
  tool_installed w = true ->
  ~ In "SNYK_TOKEN" (environ w) ->
  dict_get cfg "auth_token" PNone = PStr token ->
  passable w token = false ->
  main w args tr
  = (Ok tt,
     tr ++ startup_events w ++ tool_check_events
        ++ [Log INFO "----------------check_snyk_token Started-----------------";
            Log ERROR "Authentication failed: {e}"]).
Proof.
  intros Hcfg Htool Henv Htoken Hpass.
  pose proof (check_snyk_token_refused w token
                (tr ++ startup_events w ++ tool_check_events) Henv Hpass) as Hcheck.
  rewrite <- Htoken in Hcheck.
  rewrite (main_token_check_raises w args cfg tr _ _ Hcfg Htool Hcheck).
  destruct (encodable w token); reflexivity.
Qed.

(** An authentication command that ends with another status than 0: the
    [CalledProcessError] is not caught. *)
Lemma main_auth_rejected (w : World) (args : Args) (cfg : dict) (token : string)
    (r : CompletedProcess) (tr : trace) :
  loaded_config w = Some cfg ->
  tool_installed w = true ->
  ~ In "SNYK_TOKEN" (environ w) ->
  dict_get cfg "auth_token" PNone = PStr token ->
  passable w token = true ->
  run_process w ["snyk"; "auth"; token] = Exited r ->
  returncode r <> 0 ->
  main w args tr
  = (Raise CalledProcessError,
     tr ++ startup_events w ++ tool_check_events
        ++ [Log INFO "----------------check_snyk_token Started-----------------";
            Spawn ["snyk"; "auth"; token];
            Log ERROR "Failed to authenticate to Snyk: {e}";
            Log INFO "----------------check_snyk_token Ended-----------------"]).
Proof.
  intros Hcfg Htool Henv Htoken Hpass Hrun Hcode.
  pose proof (check_snyk_token_runs w token r
                (tr ++ startup_events w ++ tool_check_events) Henv Hpass Hrun) as Hcheck.
  apply Z.eqb_neq in Hcode. rewrite Hcode in Hcheck.
  rewrite <- Htoken in Hcheck.
  rewrite (main_token_check_raises w args cfg tr _ _ Hcfg Htool Hcheck).
  reflexivity.
Qed.

Lemma evaluate_histogram (low medium high : nat) (scan_time : pyval) (tr : trace) :
  exists more,
    evaluate_severity_summary (histogram low medium high scan_time) tr
    = (Ok (Nat.eqb high 0), tr ++ more)
    /\ spawned more = [].
Proof.
  unfold evaluate_severity_summary, histogram, bind. cbn.
  destruct high as [|h]; cbn; eexists; (split; [rewrite <- !app_assoc; reflexivity|]);
    reflexivity.
Qed.

Lemma save_results_written (w : World) (results : pyval) (path : string) (tr : trace) :
  can_write w path = true ->
  save_results_to_json w results path tr
  = (Ok tt,
     tr ++ [Log INFO "----------------save_results_to_json Started-----------------";
            WriteJson path results;
            Log INFO "Scan results saved to {file_path}.";
            Log INFO "----------------save_results_to_json Ended-----------------"]).
Proof.
  intros Hwrite.
  unfold save_results_to_json, try_except, bind, logger_info, emit.
  rewrite Hwrite. rewrite <- !app_assoc. reflexivity.
Qed.

(** The block under [if scan_results:] for a document of the expected
    shape: the verdict of the gate, and no command run. *)
Lemma report_and_gate_decides (w : World) (d : dict) (runs : list pyval)
    (results : list dict) (execution_time : pyval) (tr : trace) :
  d <> [] ->
  dict_get d "runs" (PList []) = PList runs ->
  results_of_runs runs = Some results ->
  can_write w "./outputs/scan_results.json" = true ->
  can_write w "./outputs/severity_summary.json" = true ->
  exists more,
    report_and_gate w (PDict d) execution_time tr
    = (if Nat.eqb (count_bucket High results) 0 then Ok tt else Raise (SystemExit 1),
       tr ++ more)
    /\ spawned more = [].
Proof.
  intros Hnonempty Hruns Hshape Hw1 Hw2.
  unfold report_and_gate.
  assert (Htruthy : truthy (PDict d) = true) by (destruct d; [contradiction|reflexivity]).
  rewrite Htruthy.
  step_with (summarize_severities_counts d runs results tr Hruns Hshape).
  unfold bind at 1. rewrite save_results_written by exact Hw1. cbv beta iota.
  unfold bind at 1. rewrite save_results_written by exact Hw2. cbv beta iota.
  unfold bind at 1.
  match goal with
  | |- context [evaluate_severity_summary (histogram ?l ?m ?h ?t) ?tr0] =>
      destruct (evaluate_histogram l m h t tr0) as [more [Heval Hspawn]]
  end.
  rewrite Heval. cbv beta iota.
  destruct (Nat.eqb (count_bucket High results) 0); cbn [negb raise ret];
    eexists; (split; [rewrite <- !app_assoc; reflexivity|]);
    rewrite !spawned_app, Hspawn; reflexivity.
Qed.

(** The push block with [--report]: the call leaves [target] out. *)
Lemma push_block_report (w : World) (args : Args) (target project_path : pyval)
    (tr : trace) :
  report args = true ->
  scan_for_push_block w args target project_path tr = (Raise TypeError, tr ++ [ClockRead]).
Proof.
  intros Hreport. unfold scan_for_push_block. rewrite Hreport. reflexivity.
Qed.

(** The push block without [--report], from the spawned scan on. *)
Lemma push_block_scanned (w : World) (args : Args) (target project_path : pyval)
    (base : list string) (r : CompletedProcess) (tr : trace) :
  report args = false ->
  target_command w sast_tool target = Some base ->
  forallb (passable w) base = true ->
  run_process w base = Exited r ->
  match json_loads w (stdout r) with
  | Decoded scan_results =>
      exists execution_time more,
        scan_for_push_block w args target project_path tr
        = report_and_gate w scan_results execution_time (tr ++ more)
        /\ spawned more = [base]
  | Malformed =>
      exists more,
        scan_for_push_block w args target project_path tr
        = (Raise JSONDecodeError, tr ++ more)
        /\ spawned more = [base]
  | TooDeep =>
      exists more,
        scan_for_push_block w args target project_path tr
        = (Raise RecursionError, tr ++ more)
        /\ spawned more = [base]
  | TooLarge =>
      exists more,
        scan_for_push_block w args target project_path tr
        = (Raise ValueError, tr ++ more)
        /\ spawned more = [base]
  end.
Proof.
  intros Hreport Hbase Hpass Hrun.
  assert (Hrun' : run_process w (base ++ upload_flags w PNone PNone) = Exited r).
  { cbn. rewrite app_nil_r. exact Hrun. }
  assert (Hpass' : forallb (passable w) (base ++ upload_flags w PNone PNone) = true).
  { cbn. rewrite app_nil_r. exact Hpass. }
  pose proof (trigger_scan_spawned w sast_tool "trigger_sast_scan" false
                target PNone PNone base r (tr ++ [ClockRead]) Hbase Hpass' Hrun') as Hscan.
  cbv zeta in Hscan. cbn [upload_flags is_not_None] in Hscan.
  rewrite app_nil_r in Hscan.
  unfold scan_for_push_block. rewrite Hreport. cbn [negb call_scan].
  unfold trigger_sast_scan. fold sast_tool.
  destruct (json_loads w (stdout r)) as [scan_results| | |].
  - unfold bind at 1. unfold bind at 1. unfold time_now at 1.
    unfold bind at 1. rewrite Hscan.
    unfold bind at 1. unfold time_now at 1.
    unfold bind at 1. cbn [logger_info emit ret fst snd].
    eexists; eexists. split; [rewrite <- !app_assoc; reflexivity|].
    reflexivity.
  - unfold bind at 1. unfold bind at 1. unfold time_now at 1.
    unfold bind at 1. rewrite Hscan.
    eexists. split; [rewrite <- !app_assoc; reflexivity|]. reflexivity.
  - unfold bind at 1. unfold bind at 1. unfold time_now at 1.
    unfold bind at 1. rewrite Hscan.
    eexists. split; [rewrite <- !app_assoc; reflexivity|]. reflexivity.
  - unfold bind at 1. unfold bind at 1. unfold time_now at 1.
    unfold bind at 1. rewrite Hscan.
    eexists. split; [rewrite <- !app_assoc; reflexivity|]. reflexivity.
Qed.

(** ** Runs that never reach the scanner *)

Lemma scanless_ret {A} (a : A) : scanless (ret a).
Proof. intros tr. exists []. split; [symmetry; apply app_nil_r | constructor]. Qed.

Lemma scanless_raise {A} (e : exn) : scanless (@raise A e).
Proof. intros tr. exists []. split; [symmetry; apply app_nil_r | constructor]. Qed.

Lemma scanless_emit (e : event) : setup_event e -> scanless (emit e).
Proof. intros He tr. exists [e]. split; [reflexivity | constructor; [exact He | constructor]]. Qed.

Lemma scanless_lift_option {A} (o : option A) (e : exn) : scanless (lift_option o e).
Proof. destruct o; [apply scanless_ret | apply scanless_raise]. Qed.

Lemma scanless_bind {A B} (m : M A) (k : A -> M B) :
  scanless m -> (forall a, scanless (k a)) -> scanless (bind m k).
Proof.
  intros Hm Hk tr. unfold bind.
  destruct (Hm tr) as [more1 [E1 F1]].
  destruct (m tr) as [[a|e] tr1]; cbn [snd] in E1; subst tr1.
  - destruct (Hk a (tr ++ more1)) as [more2 [E2 F2]].
    exists (more1 ++ more2). split.
    + rewrite E2. symmetry. apply app_assoc.
    + apply Forall_app. split; assumption.
  - exists more1. split; [reflexivity | exact F1].
Qed.

Lemma scanless_try_except {A} (body : M A) (catches : exn -> bool)
    (handler : exn -> M A) :
  scanless body -> (forall e, scanless (handler e)) ->
  scanless (try_except body catches handler).
Proof.
  intros Hb Hh tr. unfold try_except.
  destruct (Hb tr) as [more1 [E1 F1]].
  destruct (body tr) as [[a|e] tr1]; cbn [snd] in E1; subst tr1.
  - exists more1. split; [reflexivity | exact F1].
  - destruct (catches e).
    + destruct (Hh e (tr ++ more1)) as [more2 [E2 F2]].
      exists (more1 ++ more2). split.
      * rewrite E2. symmetry. apply app_assoc.
      * apply Forall_app. split; assumption.
    + exists more1. split; [reflexivity | exact F1].
Qed.

Lemma scanless_log (l : level) (message : string) : scanless (emit (Log l message)).
Proof. apply scanless_emit. exact I. Qed.

Lemma scanless_py_get (obj : pyval) (key : string) (default : pyval) :
  scanless (py_get obj key default).
Proof. destruct obj; first [apply scanless_ret | apply scanless_raise]. Qed.

Lemma scanless_subprocess_run (w : World) (text : bool) (args : list pyval) :
  (forall c, arguments w args = inr c -> setup_command c) ->
  scanless (subprocess_run w text args).
Proof.
  intros Hc tr. unfold subprocess_run, bind.
  destruct (arguments w args) as [e|c]; cbn [ret raise].
  - exists []. split; [symmetry; apply app_nil_r | constructor].
  - destruct (run_process w c) as [r|code|]; cbn [ret raise emit snd].
    + exists [Spawn c]. split; [reflexivity|].
      constructor; [apply Hc; reflexivity | constructor].
    + exists [Spawn c]. split; [destruct text; reflexivity|].
      constructor; [apply Hc; reflexivity | constructor].
    + exists []. split; [symmetry; apply app_nil_r | constructor].
Qed.

Lemma scanless_json_loads_call (w : World) (text : string) :
  scanless (json_loads_call w text).
Proof.
  unfold json_loads_call.
  destruct (json_loads w text); [apply scanless_ret | apply scanless_raise ..].
Qed.

Lemma scanless_read_file (w : World) (path : string) : scanless (read_file w path).
Proof.
  unfold read_file.
  destruct (read_text w path); [apply scanless_ret | apply scanless_raise ..].
Qed.

Lemma scanless_check_returncode (r : CompletedProcess) : scanless (check_returncode r).
Proof.
  unfold check_returncode.
  destruct (returncode r =? 0); [apply scanless_ret | apply scanless_raise].
Qed.

Ltac scanless_step :=
  first
    [ apply scanless_ret
    | apply scanless_raise
    | apply scanless_log
    | apply scanless_lift_option
    | apply scanless_py_get
    | apply scanless_check_returncode
    | apply scanless_json_loads_call
    | apply scanless_read_file
    | apply scanless_bind; [|intro]
    | apply scanless_try_except; [|intro] ].

Lemma scanless_check_snyk_installed (w : World) : scanless (check_snyk_installed w).
Proof.
  unfold check_snyk_installed, logger_info, logger_error.
  apply scanless_try_except; [|intro; repeat scanless_step].
  apply scanless_bind; [apply scanless_log | intro].
  apply scanless_bind; [|intro; repeat scanless_step].
  apply scanless_subprocess_run.
  intros c Hc. destruct (arguments_given w _ _ Hc) as [Hmap _].
  destruct c as [|c1 [|c2 [|c3 c]]]; try discriminate Hmap.
  injection Hmap as <- <-. left. reflexivity.
Qed.

Lemma scanless_check_snyk_token (w : World) (token : pyval) :
  scanless (check_snyk_token w token).
Proof.
  unfold check_snyk_token, logger_info, logger_error.
  apply scanless_try_except; [|intro; repeat scanless_step].
  apply scanless_bind; [apply scanless_log | intro].
  apply scanless_bind.
  { destruct (existsb (String.eqb "SNYK_TOKEN") (environ w)); repeat scanless_step. }
  intro. apply scanless_bind; [|intro; repeat scanless_step].
  apply scanless_subprocess_run.
  intros c Hc. destruct (arguments_given w _ _ Hc) as [Hmap _].
  destruct c as [|c1 [|c2 [|c3 [|c4 c]]]]; try discriminate Hmap.
  injection Hmap as <- <- _. right. eexists. reflexivity.
Qed.

Lemma scanless_load_config (w : World) (file : string) : scanless (load_config w file).
Proof. unfold load_config, logger_info, logger_error. repeat scanless_step. Qed.

(** Without [--scan-for-push], [main] neither scans nor resolves a change
    set, whatever the machine answers. *)
Lemma scanless_main (w : World) (args : Args) :
  scan_for_push args = false -> scanless (main w args).
Proof.
  intros Hpush. unfold main, logger_info, logger_error. rewrite Hpush.
  apply scanless_bind; [apply scanless_log | intro].
  apply scanless_bind.
  { destruct (negb (path_exists w "outputs")); [|apply scanless_ret].
    destruct (mkdir_ok w "outputs"); [apply scanless_emit; exact I | apply scanless_raise]. }
  intro. apply scanless_bind; [apply scanless_log | intro].
  apply scanless_bind; [apply scanless_load_config | intro config].
  do 5 (apply scanless_bind; [apply scanless_py_get | intro]).
  apply scanless_bind.
  { apply scanless_try_except; [|intro; repeat scanless_step].
    apply scanless_bind; [apply scanless_check_snyk_installed | intro; apply scanless_ret]. }
  intro installed. destruct (negb installed); [apply scanless_ret|].
  apply scanless_bind.
  { apply scanless_try_except; [|intro; repeat scanless_step].
    apply scanless_bind; [apply scanless_check_snyk_token | intro; apply scanless_ret]. }
  intro authenticated. destruct (negb authenticated); [apply scanless_ret|].
  repeat scanless_step.
Qed.

Lemma setup_of_sample (files : list (string * string)) (decoded : list (string * pyval))
    (scan : process) (text : string) (cfg : dict) :
  lookup_text files "config.json" = Some text ->
  lookup_text decoded text = Some (PDict cfg) ->
  dict_get cfg "auth_token" PNone = PStr "t0ken" ->
  setup_succeeds (sample_world ["PATH"; "HOME"] files decoded scan) cfg.
Proof.
  intros Hfile Hdecoded Htoken.
  unfold setup_succeeds, loaded_config, tool_installed, auth_accepted.
  cbn [sample_world path_exists mkdir_ok read_text json_loads run_process environ
       negb andb].
  unfold read_from, decode_from.
  rewrite Hfile, Hdecoded. split; [reflexivity|]. split; [reflexivity|]. split.
  - cbn. intros [H|[H|H]]; try discriminate; exact H.
  - exists "t0ken". split; [exact Htoken | reflexivity].
Qed.

Lemma setup_spawns (w : World) (token : string) :
  spawned (setup_events w token) = [["snyk"; "--version"]; ["snyk"; "auth"; token]].
Proof.
  unfold setup_events, startup_events. rewrite !spawned_app.
  destruct (path_exists w "outputs"); reflexivity.
Qed.

Lemma main_setup_then (w : World) (args : Args) (cfg : dict) (tr : trace) :
  setup_succeeds w cfg ->
  main w args tr
  = ((if scan_for_push args
      then scan_for_push_block w args (dict_get cfg "target" PNone)
             (dict_get cfg "project_path" PNone)
      else ret tt) ;;
     logger_info (banner "Main Ended"))
      (tr ++ setup_events w (format w (dict_get cfg "auth_token" PNone))).
Proof.
  intros [Hcfg [Htool [Henv [token [Htoken Hauth]]]]].
  rewrite Htoken. cbn [format].
  apply (main_after_setup w args cfg token tr Hcfg Htool Henv Htoken Hauth).
Qed.

(* ================================================================== *)
(** * Push mode with report upload *)
(* ================================================================== *)

(** C4 does not hold of the code: in push mode with [--report], after a
    setup that goes through, [main] stops with the [TypeError] of a call
    that gives [target] no value.  The scan never starts, the only
    commands run are those of the setup, and the process ends with status
    1. *)
Theorem push_with_report_never_scans (w : World) (args : Args) (cfg : dict) (tr : trace) :
  setup_succeeds w cfg ->
  scan_for_push args = true ->
  report args = true ->
  let token := format w (dict_get cfg "auth_token" PNone) in
  main w args tr = (Raise TypeError, tr ++ setup_events w token ++ [ClockRead])
  /\ spawned (setup_events w token ++ [ClockRead])
     = [["snyk"; "--version"]; ["snyk"; "auth"; token]]
  /\ exit_status (fst (main w args tr)) = 1.
Proof.
  intros Hsetup Hpush Hreport. cbv zeta.
  assert (Hmain : main w args tr
                  = (Raise TypeError,
                     tr ++ setup_events w (format w (dict_get cfg "auth_token" PNone))
                        ++ [ClockRead])).
  { rewrite (main_setup_then w args cfg tr Hsetup), Hpush.
    unfold bind at 1. rewrite push_block_report by exact Hreport.
    rewrite <- app_assoc. reflexivity. }
  split; [exact Hmain|]. split.
  - rewrite spawned_app, setup_spawns. reflexivity.
  - rewrite Hmain. reflexivity.
Qed.

Lemma push_with_report_never_scans_witness :
  fst (run (main findings_world report_args)) = Raise TypeError
  /\ spawned (snd (run (main findings_world report_args)))
     = [["snyk"; "--version"]; ["snyk"; "auth"; "t0ken"]]
  /\ exit_status (fst (run (main findings_world report_args))) = 1.
Proof.
  pose proof (push_with_report_never_scans findings_world report_args
                [("auth_token", PStr "t0ken"); ("target", PStr ".")] []
                (setup_of_sample sample_files sample_decoded _ config_text _
                   eq_refl eq_refl eq_refl)
                eq_refl eq_refl) as [Hmain [Hspawn Hexit]].
  unfold run. rewrite Hmain. split; [reflexivity|]. split; [|reflexivity].
  exact Hspawn.
Defined.

(* ================================================================== *)
(** * The exit status *)
(* ================================================================== *)

(** C8, as stated, fails: a scan whose output does not decode ends the
    process with status 1 although the gate was never evaluated, and so
    does an authentication that is rejected, in a run that asks for no
    scan; 1 is also the status of a gate that fails, so the status does
    not tell a failed gate from an error. *)
Lemma exit_1_without_gate_failure :
  fst (run (main broken_scan_world push_args)) = Raise JSONDecodeError
  /\ exit_status (fst (run (main broken_scan_world push_args))) = 1
  /\ ~ In (Log ERROR "High severity issues found. Pipeline will fail.")
          (snd (run (main broken_scan_world push_args)))
  /\ fst (run (main refused_auth_world pr_args)) = Raise CalledProcessError
  /\ exit_status (fst (run (main refused_auth_world pr_args))) = 1
  /\ fst (run (main findings_world push_args)) = Raise (SystemExit 1)
  /\ exit_status (fst (run (main findings_world push_args))) = 1.
Proof.
  split; [vm_compute; reflexivity|]. split; [vm_compute; reflexivity|].
  split; [|repeat split; vm_compute; reflexivity].
  intros H. vm_compute in H.
  repeat (destruct H as [H|H]; [discriminate H|]). exact H.
Qed.

(** C8, amended: once the configuration is loaded, the exit status is 0
    when the tool check fails (early return), when the token check raises
    a [ValueError], because [SNYK_TOKEN] is in the environment or because
    the token cannot be passed to the command (early return), and, after a
    setup that succeeds, when no push scan is asked for and when the gate
    passes; it is 1 when the gate fails on a high severity finding.  The
    status 1 is not distinguished: an exception that leaves [main] ends the
    process with status 1 as well, as does a scan whose output is not JSON
    and an authentication command that ends with another status than 0. *)
Theorem exit_status_of_main (w : World) (args : Args) (cfg : dict) (tr : trace) :
  loaded_config w = Some cfg ->
  (tool_installed w = false ->
   fst (main w args tr) = Ok tt /\ exit_status (fst (main w args tr)) = 0)
  /\ (tool_installed w = true -> In "SNYK_TOKEN" (environ w) ->
      fst (main w args tr) = Ok tt /\ exit_status (fst (main w args tr)) = 0)
  /\ (forall token,
        tool_installed w = true -> ~ In "SNYK_TOKEN" (environ w) ->
        dict_get cfg "auth_token" PNone = PStr token ->
        passable w token = false ->
        fst (main w args tr) = Ok tt /\ exit_status (fst (main w args tr)) = 0)
  /\ (setup_succeeds w cfg -> scan_for_push args = false ->
      fst (main w args tr) = Ok tt /\ exit_status (fst (main w args tr)) = 0)
  /\ (forall r d runs results,
        setup_succeeds w cfg -> scan_for_push args = true -> report args = false ->
        push_scan_result w cfg = Some r ->
        json_loads w (stdout r) = Decoded (PDict d) ->
        d <> [] ->
        dict_get d "runs" (PList []) = PList runs ->
        results_of_runs runs = Some results ->
        can_write w "./outputs/scan_results.json" = true ->
        can_write w "./outputs/severity_summary.json" = true ->
        fst (main w args tr)
        = (if Nat.eqb (count_bucket High results) 0 then Ok tt else Raise (SystemExit 1))
        /\ exit_status (fst (main w args tr))
           = (if Nat.eqb (count_bucket High results) 0 then 0 else 1))
  /\ (forall r,
        setup_succeeds w cfg -> scan_for_push args = true -> report args = false ->
        push_scan_result w cfg = Some r ->
        json_loads w (stdout r) = Malformed ->
        fst (main w args tr) = Raise JSONDecodeError
        /\ exit_status (fst (main w args tr)) = 1)
  /\ (forall token r,
        tool_installed w = true -> ~ In "SNYK_TOKEN" (environ w) ->
        dict_get cfg "auth_token" PNone = PStr token ->
        passable w token = true ->
        run_process w ["snyk"; "auth"; token] = Exited r ->
        returncode r <> 0 ->
        fst (main w args tr) = Raise CalledProcessError
        /\ exit_status (fst (main w args tr)) = 1).
Proof.
  intros Hcfg. split; [|split; [|split; [|split; [|split; [|split]]]]].
  - intros Htool.
    destruct (main_tool_missing w args cfg tr Hcfg Htool) as [more [Hmain _]].
    rewrite Hmain. split; reflexivity.
  - intros Htool Henv.
    rewrite (main_token_bound w args cfg tr Hcfg Htool Henv). split; reflexivity.
  - intros token Htool Henv Htoken Hpass.
    rewrite (main_token_refused w args cfg token tr Hcfg Htool Henv Htoken Hpass).
    split; reflexivity.
  - intros Hsetup Hpush.
    rewrite (main_setup_then w args cfg tr Hsetup), Hpush. split; reflexivity.
  - intros r d runs results Hsetup Hpush Hreport Hscan Hdoc Hd Hruns Hshape Hw1 Hw2.
    unfold push_scan_result in Hscan.
    destruct (target_command w sast_tool (dict_get cfg "target" PNone))
      as [base|] eqn:Hbase; [|discriminate Hscan].
    destruct (forallb (passable w) base) eqn:Hpass; [|discriminate Hscan].
    destruct (run_process w base) as [r'|code|] eqn:Hrun; try discriminate Hscan.
    injection Hscan as ->.
    pose proof (push_block_scanned w args (dict_get cfg "target" PNone)
                  (dict_get cfg "project_path" PNone) base r
                  (tr ++ setup_events w (format w (dict_get cfg "auth_token" PNone)))
                  Hreport Hbase Hpass Hrun) as Hblock.
    rewrite Hdoc in Hblock. destruct Hblock as [et [more [Hblock _]]].
    destruct (report_and_gate_decides w d runs results et
                ((tr ++ setup_events w (format w (dict_get cfg "auth_token" PNone)))
                   ++ more) Hd Hruns Hshape Hw1 Hw2) as [more' [Hgate _]].
    assert (Hfst : fst (main w args tr)
                   = if Nat.eqb (count_bucket High results) 0
                     then Ok tt else Raise (SystemExit 1)).
    { rewrite (main_setup_then w args cfg tr Hsetup), Hpush.
      unfold bind at 1. rewrite Hblock, Hgate.
      destruct (Nat.eqb (count_bucket High results) 0); reflexivity. }
    rewrite Hfst.
    destruct (Nat.eqb (count_bucket High results) 0); split; reflexivity.
  - intros r Hsetup Hpush Hreport Hscan Hdoc.
    unfold push_scan_result in Hscan.
    destruct (target_command w sast_tool (dict_get cfg "target" PNone))
      as [base|] eqn:Hbase; [|discriminate Hscan].
    destruct (forallb (passable w) base) eqn:Hpass; [|discriminate Hscan].
    destruct (run_process w base) as [r'|code|] eqn:Hrun; try discriminate Hscan.
    injection Hscan as ->.
    pose proof (push_block_scanned w args (dict_get cfg "target" PNone)
                  (dict_get cfg "project_path" PNone) base r
                  (tr ++ setup_events w (format w (dict_get cfg "auth_token" PNone)))
                  Hreport Hbase Hpass Hrun) as Hblock.
    rewrite Hdoc in Hblock. destruct Hblock as [more [Hblock _]].
    assert (Hfst : fst (main w args tr) = Raise JSONDecodeError).
    { rewrite (main_setup_then w args cfg tr Hsetup), Hpush.
      unfold bind at 1. rewrite Hblock. reflexivity. }
    rewrite Hfst. split; reflexivity.
  - intros token r Htool Henv Htoken Hpass Hrun Hcode.
    rewrite (main_auth_rejected w args cfg token r tr Hcfg Htool Henv Htoken Hpass
               Hrun Hcode).
    split; reflexivity.
Qed.

Lemma exit_status_of_main_witness :
  exit_status (fst (run (main no_tool_world push_args))) = 0
  /\ exit_status (fst (run (main token_world push_args))) = 0
  /\ exit_status (fst (run (main nul_token_world push_args))) = 0
  /\ exit_status (fst (run (main findings_world pr_args))) = 0
  /\ exit_status (fst (run (main notes_world push_args))) = 0
  /\ exit_status (fst (run (main findings_world push_args))) = 1
  /\ exit_status (fst (run (main broken_scan_world push_args))) = 1
  /\ exit_status (fst (run (main refused_auth_world pr_args))) = 1.
Proof.
  assert (Hsetup : forall scan,
             setup_succeeds (sample_world ["PATH"; "HOME"] sample_files sample_decoded scan)
               [("auth_token", PStr "t0ken"); ("target", PStr ".")]).
  { intros scan. apply (setup_of_sample sample_files sample_decoded scan config_text);
      reflexivity. }
  pose proof (exit_status_of_main no_tool_world push_args
                [("auth_token", PStr "t0ken"); ("target", PStr ".")] [] eq_refl)
    as [H1 _].
  pose proof (exit_status_of_main token_world push_args
                [("auth_token", PStr "t0ken"); ("target", PStr ".")] [] eq_refl)
    as [_ [H2 _]].
  pose proof (exit_status_of_main nul_token_world push_args
                [("auth_token", PStr nul_token); ("target", PStr ".")] [] eq_refl)
    as [_ [_ [H3 _]]].
  pose proof (exit_status_of_main findings_world pr_args
                [("auth_token", PStr "t0ken"); ("target", PStr ".")] [] eq_refl)
    as [_ [_ [_ [H4 _]]]].
  pose proof (exit_status_of_main notes_world push_args
                [("auth_token", PStr "t0ken"); ("target", PStr ".")] [] eq_refl)
    as [_ [_ [_ [_ [H5 _]]]]].
  pose proof (exit_status_of_main findings_world push_args
                [("auth_token", PStr "t0ken"); ("target", PStr ".")] [] eq_refl)
    as [_ [_ [_ [_ [H6 _]]]]].
  pose proof (exit_status_of_main broken_scan_world push_args
                [("auth_token", PStr "t0ken"); ("target", PStr ".")] [] eq_refl)
    as [_ [_ [_ [_ [_ [H7 _]]]]]].
  pose proof (exit_status_of_main refused_auth_world pr_args
                [("auth_token", PStr "t0ken"); ("target", PStr ".")] [] eq_refl)
    as [_ [_ [_ [_ [_ [_ H8]]]]]].
  assert (Henv : ~ In "SNYK_TOKEN" ["PATH"; "HOME"]).
  { intros [H|[H|H]]; try discriminate; exact H. }
  split; [|split; [|split; [|split; [|split; [|split; [|split]]]]]].
  - apply H1. reflexivity.
  - apply H2; [reflexivity | cbn; right; left; reflexivity].
  - apply (H3 nul_token); first [reflexivity | exact Henv].
  - apply H4; [apply Hsetup | reflexivity].
  - apply (H5 {| returncode := 1; stdout := notes_text |}
             [("runs", PList [PDict [("results", PList [PDict [("level", PStr "note")]])]])]
             [PDict [("results", PList [PDict [("level", PStr "note")]])]]
             [[("level", PStr "note")]]);
      first [apply Hsetup | reflexivity | discriminate].
  - apply (H6 {| returncode := 1; stdout := findings_text |}
             [("runs", PList [PDict [("results",
                PList [PDict [("level", PStr "warning")];
                       PDict [("level", PStr "warning")];
                       PDict [("level", PStr "error")]])]])]
             [PDict [("results",
                PList [PDict [("level", PStr "warning")];
                       PDict [("level", PStr "warning")];
                       PDict [("level", PStr "error")]])]]
             [[("level", PStr "warning")]; [("level", PStr "warning")];
              [("level", PStr "error")]]);
      first [apply Hsetup | reflexivity | discriminate].
  - apply (H7 {| returncode := 7; stdout := "Segmentation fault" |});
      first [apply Hsetup | reflexivity].
  - apply (H8 "t0ken" {| returncode := 2; stdout := "" |});
      first [reflexivity | exact Henv | discriminate].
Defined.

(* ================================================================== *)
(** * Pull request mode *)
(* ================================================================== *)

Lemma setup_events_only (more : trace) :
  Forall setup_event more ->
  Forall setup_command (spawned more) /\ (forall repo, ~ In (OpenRepo repo) more).
Proof.
  induction 1 as [|e more He _ [IHs IHg]]; [split; [constructor | intros repo []]|].
  split.
  - destruct e; cbn in *; try exact IHs. constructor; assumption.
  - intros repo [Heq|Hin]; [subst e; exact He | exact (IHg repo Hin)].
Qed.

(** No command of the setup is a scan. *)
Lemma setup_command_no_scan (c : list string) :
  setup_command c ->
  (forall rest, c <> "snyk" :: "code" :: "test" :: "--json" :: rest)
  /\ (forall rest, c <> "snyk" :: "test" :: "--json" :: rest).
Proof.
  intros [-> | [token ->]]; split; intros rest H; discriminate H.
Qed.

(** The answers of GitPython play no part in a run of [main]. *)
Lemma main_ignores_git (w w' : World) (args : Args) :
  same_but_git w w' -> main w' args = main w args.
Proof.
  destruct w, w'. unfold same_but_git. cbn.
  intros [<- [<- [<- [<- [<- [<- [<- [<- [<- <-]]]]]]]]].
  reflexivity.
Qed.

(** C9: a run in pull request mode (every run without [--scan-for-push])
    performs no scan, whatever the change set, so also when no file has
    changed: the only commands it can run are [snyk --version] and
    [snyk auth <token>], neither scan is invoked, with or without a file
    list, and GitPython is never asked.  And in every run, with
    [--scan-for-push] too, what the change-set resolver would answer
    changes nothing: the list it would return never reaches the scanner. *)
Theorem pr_mode_never_scans (w : World) (args : Args) :
  (scan_for_push args = false ->
   Forall setup_command (spawned (snd (run (main w args))))
   /\ (forall rest,
         ~ In ("snyk" :: "code" :: "test" :: "--json" :: rest)
              (spawned (snd (run (main w args))))
         /\ ~ In ("snyk" :: "test" :: "--json" :: rest)
                 (spawned (snd (run (main w args)))))
   /\ (forall repo, ~ In (OpenRepo repo) (snd (run (main w args)))))
  /\ (forall w', same_but_git w w' -> run (main w' args) = run (main w args)).
Proof.
  split.
  - intros Hpush.
    destruct (scanless_main w args Hpush []) as [more [Hmore Hevents]].
    unfold run. rewrite Hmore. cbn [app].
    destruct (setup_events_only more Hevents) as [Hsetup Hrepo].
    split; [exact Hsetup|]. split; [|exact Hrepo].
    intros rest. rewrite Forall_forall in Hsetup.
    split; intros Hin; apply Hsetup in Hin;
      destruct (setup_command_no_scan _ Hin) as [H1 H2];
      [exact (H1 rest eq_refl) | exact (H2 rest eq_refl)].
  - intros w' Hsame. unfold run. rewrite (main_ignores_git w w' args Hsame).
    reflexivity.
Qed.

Lemma pr_mode_never_scans_witness :
  scan_for_pr pr_args = true
  /\ git_diff findings_world "./" "main" "feature" = Gives []
  /\ Forall setup_command (spawned (snd (run (main findings_world pr_args))))
  /\ ~ In ["snyk"; "code"; "test"; "--json"]
          (spawned (snd (run (main findings_world pr_args))))
  /\ (forall repo, ~ In (OpenRepo repo) (snd (run (main findings_world pr_args))))
  /\ run (main one_change_world pr_push_args) = run (main findings_world pr_push_args).
Proof.
  split; [reflexivity|]. split; [reflexivity|].
  pose proof (pr_mode_never_scans findings_world pr_args) as [Hmain _].
  destruct (Hmain eq_refl) as [H1 [H2 H3]].
  split; [exact H1|]. split; [exact (proj1 (H2 []))|]. split; [exact H3|].
  apply (proj2 (pr_mode_never_scans findings_world pr_push_args) one_change_world).
  repeat split.
Defined.

(* ================================================================== *)
(** * Further properties: what a computation stays within *)
(* ================================================================== *)

Section Within.

Variable P : event -> Prop.
Variable Q : exn -> Prop.

Lemma within_ret {A} (a : A) : stays_within P Q (ret a).
Proof.
  intros tr. exists []. split; [symmetry; apply app_nil_r|].
  split; [constructor | discriminate].
Qed.

Lemma within_raise {A} (e : exn) : Q e -> stays_within P Q (@raise A e).
Proof.
  intros He tr. exists []. split; [symmetry; apply app_nil_r|].
  split; [constructor|]. intros e' H. injection H as <-. exact He.
Qed.

Lemma within_emit (e : event) : P e -> stays_within P Q (emit e).
Proof.
  intros He tr. exists [e]. split; [reflexivity|].
  split; [constructor; [exact He | constructor] | discriminate].
Qed.

Lemma within_lift_option {A} (o : option A) (e : exn) :
  Q e -> stays_within P Q (lift_option o e).
Proof. intros He. destruct o; [apply within_ret | apply within_raise; exact He]. Qed.

Lemma within_bind {A B} (m : M A) (k : A -> M B) :
  stays_within P Q m -> (forall a, stays_within P Q (k a)) ->
  stays_within P Q (bind m k).
Proof.
  intros Hm Hk tr. unfold bind.
  destruct (Hm tr) as [more1 [E1 [F1 R1]]].
  destruct (m tr) as [[a|e] tr1]; cbn [fst snd] in E1, R1; subst tr1.
  - destruct (Hk a (tr ++ more1)) as [more2 [E2 [F2 R2]]].
    exists (more1 ++ more2). split; [rewrite E2; symmetry; apply app_assoc|].
    split; [apply Forall_app; split; assumption | exact R2].
  - exists more1. split; [reflexivity|]. split; [exact F1|].
    intros e' H. injection H as <-. apply R1. reflexivity.
Qed.

(** [try ... except]: the handler runs on what the body can raise and the
    clause catches; what the clause lets through must be allowed. *)
Lemma within_try_except {A} (Q' : exn -> Prop) (body : M A) (catches : exn -> bool)
    (handler : exn -> M A) :
  stays_within P Q' body ->
  (forall e, Q' e -> catches e = true -> stays_within P Q (handler e)) ->
  (forall e, Q' e -> catches e = false -> Q e) ->
  stays_within P Q (try_except body catches handler).
Proof.
  intros Hb Hh Hpass tr. unfold try_except.
  destruct (Hb tr) as [more1 [E1 [F1 R1]]].
  destruct (body tr) as [[a|e] tr1]; cbn [fst snd] in E1, R1; subst tr1.
  - exists more1. split; [reflexivity|]. split; [exact F1 | discriminate].
  - destruct (catches e) eqn:Hc.
    + destruct (Hh e (R1 e eq_refl) Hc (tr ++ more1)) as [more2 [E2 [F2 R2]]].
      exists (more1 ++ more2). split; [rewrite E2; symmetry; apply app_assoc|].
      split; [apply Forall_app; split; assumption | exact R2].
    + exists more1. split; [reflexivity|]. split; [exact F1|].
      intros e' H. injection H as <-. apply (Hpass e (R1 e eq_refl) Hc).
Qed.

Lemma within_for_each {A S} (items : list A) (body : S -> A -> M S) :
  (forall s x, stays_within P Q (body s x)) ->
  forall s, stays_within P Q (for_each items body s).
Proof.
  intros Hbody. induction items as [|x rest IH]; intros s; cbn [for_each].
  - apply within_ret.
  - apply within_bind; [apply Hbody | intros s'; apply IH].
Qed.

End Within.

Lemma within_weaken {A} (P P' : event -> Prop) (Q Q' : exn -> Prop) (m : M A) :
  (forall e, P e -> P' e) -> (forall e, Q e -> Q' e) ->
  stays_within P Q m -> stays_within P' Q' m.
Proof.
  intros HP HQ Hm tr. destruct (Hm tr) as [more [E [F R]]].
  exists more. split; [exact E|]. split.
  - apply (Forall_impl _ HP F).
  - intros e He. apply HQ, R, He.
Qed.

Lemma within_py_get (P : event -> Prop) (Q : exn -> Prop)
    (obj : pyval) (key : string) (default : pyval) :
  Q AttributeError -> stays_within P Q (py_get obj key default).
Proof.
  intros HQ. destruct obj; first [apply within_ret | apply within_raise; exact HQ].
Qed.

(** What the conversion of the arguments can raise. *)
Lemma arguments_raise (w : World) (args : list pyval) (e : exn) :
  arguments w args = inl e ->
  e = TypeError \/ e = UnicodeEncodeError \/ e = ValueError.
Proof.
  induction args as [|a args IH]; cbn; [discriminate|].
  destruct a; cbn; try (intros H; injection H as <-; left; reflexivity).
  destruct (encodable w s); cbn;
    [|intros H; injection H as <-; right; left; reflexivity].
  destruct (embedded_null s); [intros H; injection H as <-; right; right; reflexivity|].
  destruct (arguments w args) as [e'|c']; [|discriminate].
  intros H. injection H as <-. apply IH. reflexivity.
Qed.

Lemma within_subprocess_run (P : event -> Prop) (Q : exn -> Prop)
    (w : World) (text : bool) (args : list pyval) :
  (forall c, arguments w args = inr c -> P (Spawn c)) ->
  (forall e, arguments w args = inl e -> Q e) ->
  Q OSError -> Q UnicodeDecodeError ->
  stays_within P Q (subprocess_run w text args).
Proof.
  intros Hc Ha HO HU tr. unfold subprocess_run, bind.
  destruct (arguments w args) as [e|c]; cbn [ret raise].
  - exists []. split; [symmetry; apply app_nil_r|]. split; [constructor|].
    intros e' H. injection H as <-. apply Ha. reflexivity.
  - destruct (run_process w c) as [r|code|]; cbn [ret raise emit fst snd].
    + exists [Spawn c]. split; [reflexivity|].
      split; [constructor; [apply Hc; reflexivity | constructor] | discriminate].
    + exists [Spawn c]. split; [destruct text; reflexivity|].
      split; [constructor; [apply Hc; reflexivity | constructor]|].
      destruct text; cbn; [|discriminate].
      intros e H. injection H as <-. exact HU.
    + exists []. split; [symmetry; apply app_nil_r|]. split; [constructor|].
      intros e H. injection H as <-. exact HO.
Qed.

Lemma within_json_loads_call (P : event -> Prop) (Q : exn -> Prop)
    (w : World) (text : string) :
  Q JSONDecodeError -> Q RecursionError -> Q ValueError ->
  stays_within P Q (json_loads_call w text).
Proof.
  intros HJ HR HV. unfold json_loads_call.
  destruct (json_loads w text);
    [ apply within_ret | apply within_raise; exact HJ | apply within_raise; exact HR
    | apply within_raise; exact HV ].
Qed.

Lemma within_read_file (P : event -> Prop) (Q : exn -> Prop)
    (w : World) (path : string) :
  Q UnicodeDecodeError -> Q OSError ->
  stays_within P Q (read_file w path).
Proof.
  intros HU HO. unfold read_file.
  destruct (read_text w path);
    [apply within_ret | apply within_raise; exact HU | apply within_raise; exact HO].
Qed.

(** The conversion of the arguments raises an [Exception]. *)
Lemma arguments_raise_Exception (w : World) (args : list pyval) (e : exn) :
  arguments w args = inl e -> is_Exception e = true.
Proof.
  intros H. destruct (arguments_raise w args e H) as [-> | [-> | ->]]; reflexivity.
Qed.

Lemma main_exn_Exception (e : exn) : is_Exception e = true -> main_exn e.
Proof. intros H. right. exact H. Qed.

(** One step of a proof that a part of [main] stays within what [main]
    may do. *)
Ltac main_step :=
  first
    [ apply within_ret
    | apply within_raise; apply main_exn_Exception; reflexivity
    | apply within_emit; exact I
    | apply within_lift_option; apply main_exn_Exception; reflexivity
    | apply within_py_get; apply main_exn_Exception; reflexivity
    | apply within_json_loads_call; apply main_exn_Exception; reflexivity
    | apply within_read_file; apply main_exn_Exception; reflexivity
    | apply within_bind; [|intro] ].

(** A handler that logs and raises the exception again. *)
Ltac reraising :=
  apply (within_try_except main_event main_exn main_exn);
  [ | intros ? ? ?; repeat main_step; apply within_raise; assumption
    | intros ? ? ?; assumption ].

Lemma main_may_check_returncode (r : CompletedProcess) :
  stays_within main_event main_exn (check_returncode r).
Proof. unfold check_returncode. destruct (returncode r =? 0); main_step. Qed.

Lemma main_may_check_snyk_installed (w : World) :
  stays_within main_event main_exn (check_snyk_installed w).
Proof.
  unfold check_snyk_installed, logger_info, logger_error. reraising.
  apply within_bind; [main_step | intro].
  apply within_bind.
  - apply within_subprocess_run; try (apply main_exn_Exception; reflexivity).
    + intros c Hc. destruct (arguments_given w _ _ Hc) as [Hmap _].
      destruct c as [|c1 [|c2 [|c3 c]]]; try discriminate Hmap.
      injection Hmap as <- <-. left. left. reflexivity.
    + intros e He. apply main_exn_Exception.
      exact (arguments_raise_Exception w _ e He).
  - intro r. apply within_bind; [apply main_may_check_returncode | intro].
    repeat main_step.
Qed.

Lemma main_may_check_snyk_token (w : World) (token : pyval) :
  stays_within main_event main_exn (check_snyk_token w token).
Proof.
  unfold check_snyk_token, logger_info, logger_error. reraising.
  apply within_bind; [main_step | intro].
  apply within_bind.
  { destruct (existsb (String.eqb "SNYK_TOKEN") (environ w)); repeat main_step. }
  intro. apply within_bind.
  - apply within_subprocess_run; try (apply main_exn_Exception; reflexivity).
    + intros c Hc. destruct (arguments_given w _ _ Hc) as [Hmap _].
      destruct c as [|c1 [|c2 [|c3 [|c4 c]]]]; try discriminate Hmap.
      injection Hmap as <- <- _. left. right. eexists. reflexivity.
    + intros e He. apply main_exn_Exception.
      exact (arguments_raise_Exception w _ e He).
  - intro r. apply within_bind; [apply main_may_check_returncode | intro].
    repeat main_step.
Qed.

Lemma main_may_load_config (w : World) (file : string) :
  stays_within main_event main_exn (load_config w file).
Proof. unfold load_config, logger_info, logger_error. reraising. repeat main_step. Qed.

(** The block under [if scan_results:] does the same for any set of
    events that holds the log lines and the writes of the two output
    files. *)
Section GateWithin.

Variable P : event -> Prop.
Hypothesis P_log : forall l message, P (Log l message).
Hypothesis P_write :
  forall path document,
    path = "./outputs/scan_results.json" \/ path = "./outputs/severity_summary.json" ->
    P (WriteJson path document).

Ltac gate_step :=
  first
    [ apply within_ret
    | apply within_raise; apply main_exn_Exception; reflexivity
    | apply within_emit; apply P_log
    | apply within_lift_option; apply main_exn_Exception; reflexivity
    | apply within_py_get; apply main_exn_Exception; reflexivity
    | apply within_bind; [|intro] ].

Ltac gate_reraising :=
  apply (within_try_except P main_exn main_exn);
  [ | intros ? ? ?; repeat gate_step; apply within_raise; assumption
    | intros ? ? ?; assumption ].

Lemma gate_may_dict_incr (counts : dict) (key : string) :
  stays_within P main_exn (dict_incr counts key).
Proof.
  unfold dict_incr. destruct (dict_mem counts key); repeat gate_step.
Qed.

Lemma gate_may_summarize (scan_results : pyval) :
  stays_within P main_exn (summarize_severities scan_results).
Proof.
  unfold summarize_severities, logger_info, logger_error, iterate. gate_reraising.
  apply within_bind; [gate_step | intro].
  apply within_bind; [gate_step | intro runs].
  apply within_bind; [gate_step | intro items].
  apply within_bind; [|intro; repeat gate_step].
  apply within_for_each. intros s run.
  apply within_bind; [gate_step | intro results].
  apply within_bind; [gate_step | intro results'].
  apply within_for_each. intros s' result.
  apply within_bind; [gate_step | intro level].
  apply gate_may_dict_incr.
Qed.

Lemma gate_may_save (w : World) (results : pyval) (path : string) :
  path = "./outputs/scan_results.json" \/ path = "./outputs/severity_summary.json" ->
  stays_within P main_exn (save_results_to_json w results path).
Proof.
  intros Hpath. unfold save_results_to_json, logger_info, logger_error. gate_reraising.
  apply within_bind; [gate_step | intro].
  apply within_bind; [|intro; repeat gate_step].
  destruct (can_write w path); [apply within_emit, P_write, Hpath | gate_step].
Qed.

Lemma gate_may_evaluate (summary : pyval) :
  stays_within P main_exn (evaluate_severity_summary summary).
Proof.
  unfold evaluate_severity_summary, logger_info, logger_error.
  apply within_bind; [gate_step | intro].
  apply within_bind; [gate_step | intro high].
  apply within_bind; [gate_step | intro positive].
  destruct positive; repeat gate_step.
Qed.

Lemma gate_may_report_and_gate (w : World) (scan_results execution_time : pyval) :
  stays_within P main_exn (report_and_gate w scan_results execution_time).
Proof.
  unfold report_and_gate. destruct (truthy scan_results); [|gate_step].
  apply within_bind; [apply gate_may_summarize | intro summary].
  apply within_bind; [apply gate_may_save; left; reflexivity | intro].
  apply within_bind; [apply gate_may_save; right; reflexivity | intro].
  apply within_bind; [apply gate_may_evaluate | intro passed].
  destruct (negb passed); [|gate_step].
  apply within_raise. left. reflexivity.
Qed.

End GateWithin.

Lemma main_may_report_and_gate (w : World) (scan_results execution_time : pyval) :
  stays_within main_event main_exn (report_and_gate w scan_results execution_time).
Proof.
  apply gate_may_report_and_gate.
  - intros l message. exact I.
  - intros path document Hpath. exact Hpath.
Qed.

(* ================================================================== *)
(** * Further properties of the scans *)
(* ================================================================== *)

Lemma target_command_words (w : World) (tool base : list string) (target : pyval) :
  target_command w tool target = Some base ->
  exists rest, base = tool ++ "--json" :: rest.
Proof.
  destruct target; cbn [target_command]; intros H; try discriminate H;
    injection H as <-.
  - eexists. reflexivity.
  - eexists. rewrite <- app_assoc. reflexivity.
Qed.

Lemma target_command_assigned (w : World) (tool : list string) (target : pyval) :
  is_str_or_list target = true -> exists base, target_command w tool target = Some base.
Proof. destruct target; cbn; intros H; try discriminate H; eexists; reflexivity. Qed.

(** The ways a scan can go: it ends before any process runs, or it runs
    one command. *)
Lemma trigger_scan_cases (w : World) (tool : list string) (name : string) (b : bool)
    (target pn tn : pyval) (tr : trace) :
  (exists e more,
     trigger_scan w tool name b target pn tn tr = (Raise e, tr ++ more)
     /\ (e = UnboundLocalError \/ e = UnicodeEncodeError \/ e = ValueError
         \/ e = OSError)
     /\ Forall is_log more)
  \/ (exists o rest before after,
        trigger_scan w tool name b target pn tn tr
        = (o, tr ++ before ++ Spawn (tool ++ "--json" :: rest) :: after)
        /\ (o = Raise UnicodeDecodeError \/ o = Raise JSONDecodeError
            \/ o = Raise RecursionError \/ o = Raise ValueError
            \/ exists scan_results, o = Ok scan_results)
        /\ Forall is_log before /\ Forall is_log after).
Proof.
  destruct (is_str_or_list target) eqn:Hkind.
  - destruct (target_command_assigned w tool target Hkind) as [base Hbase].
    destruct (target_command_words w tool base target Hbase) as [rest Hrest].
    destruct (forallb (passable w) (base ++ upload_flags w pn tn)) eqn:Hpass.
    + destruct (run_process w (base ++ upload_flags w pn tn)) as [r|code|] eqn:Hrun.
      * right.
        rewrite (trigger_scan_spawned w tool name b target pn tn base r tr
                   Hbase Hpass Hrun).
        cbv zeta. subst base. rewrite <- app_assoc. cbn [app].
        destruct (json_loads w (stdout r)) as [doc| | |].
        -- exists (Ok doc), (rest ++ upload_flags w pn tn).
           exists [Log INFO (banner (name ++ " Started")%string);
                   Log INFO "Running Command - {command}"].
           exists [Log (exit_code_level (returncode r)) (exit_code_message (returncode r));
                   Log INFO (banner (name ++ " Ended")%string)].
           split; [reflexivity|].
           split; [right; right; right; right; eexists; reflexivity|].
           split; repeat constructor.
        -- exists (Raise JSONDecodeError), (rest ++ upload_flags w pn tn).
           exists [Log INFO (banner (name ++ " Started")%string);
                   Log INFO "Running Command - {command}"].
           exists [Log (exit_code_level (returncode r)) (exit_code_message (returncode r));
                   Log ERROR "Error parsing JSON output: {e}";
                   Log INFO (banner (name ++ " Ended")%string)].
           split; [reflexivity|]. split; [right; left; reflexivity|].
           split; repeat constructor.
        -- exists (Raise RecursionError), (rest ++ upload_flags w pn tn).
           exists [Log INFO (banner (name ++ " Started")%string);
                   Log INFO "Running Command - {command}"].
           exists [Log (exit_code_level (returncode r))
                       (exit_code_message (returncode r))].
           split; [reflexivity|]. split; [right; right; left; reflexivity|].
           split; repeat constructor.
        -- exists (Raise ValueError), (rest ++ upload_flags w pn tn).
           exists [Log INFO (banner (name ++ " Started")%string);
                   Log INFO "Running Command - {command}"].
           exists [Log (exit_code_level (returncode r))
                       (exit_code_message (returncode r))].
           split; [reflexivity|]. split; [right; right; right; left; reflexivity|].
           split; repeat constructor.
      * right.
        rewrite (trigger_scan_undecodable w tool name b target pn tn base code tr
                   Hbase Hpass Hrun).
        subst base. rewrite <- app_assoc. cbn [app].
        exists (Raise UnicodeDecodeError), (rest ++ upload_flags w pn tn).
        exists [Log INFO (banner (name ++ " Started")%string);
                Log INFO "Running Command - {command}"].
        exists [].
        split; [reflexivity|]. split; [left; reflexivity|].
        split; repeat constructor.
      * left.
        rewrite (trigger_scan_not_started w tool name b target pn tn base tr
                   Hbase Hpass Hrun).
        exists OSError. eexists. split; [reflexivity|].
        split; [right; right; right; reflexivity|].
        repeat constructor.
    + left.
      destruct (trigger_scan_refused w tool name b target pn tn base tr Hbase Hpass)
        as [e [He Heq]].
      rewrite Heq. exists e. eexists. split; [reflexivity|].
      split; [destruct He as [-> | ->]; tauto|].
      repeat constructor.
  - left. rewrite (trigger_scan_unassigned w tool name b target pn tn tr Hkind).
    exists UnboundLocalError. eexists. split; [reflexivity|].
    split; [left; reflexivity|]. repeat constructor.
Qed.

Lemma spawned_logs (more : trace) : Forall is_log more -> spawned more = [].
Proof.
  induction 1 as [|e more He _ IH]; [reflexivity|].
  destruct e; try contradiction. exact IH.
Qed.

Lemma scan_stays_within (w : World) (tool : list string) (name : string) (b : bool)
    (target pn tn : pyval) :
  stays_within (scan_event tool) scan_exn (trigger_scan w tool name b target pn tn).
Proof.
  assert (logs : forall l, Forall is_log l -> Forall (scan_event tool) l).
  { intros l. apply Forall_impl. intros e He. destruct e; try contradiction. exact I. }
  intros tr.
  destruct (trigger_scan_cases w tool name b target pn tn tr)
    as [[e [more [Heq [He Hlogs]]]] | [o [rest [before [after [Heq [Ho [Hb Ha]]]]]]]];
    rewrite Heq; cbn [fst snd].
  - exists more. split; [reflexivity|]. split; [apply logs, Hlogs|].
    intros e' H. injection H as <-. unfold scan_exn. tauto.
  - eexists. split; [reflexivity|]. split.
    + apply Forall_app. split; [apply logs, Hb|].
      constructor; [eexists; reflexivity | apply logs, Ha].
    + intros e' H.
      destruct Ho as [-> | [-> | [-> | [-> | [doc ->]]]]]; [| | | |discriminate H];
        injection H as <-; unfold scan_exn; tauto.
Qed.

(* ================================================================== *)
(** * Further properties of main, on every path *)
(* ================================================================== *)

Lemma main_may_time_now (w : World) : stays_within main_event main_exn (time_now w).
Proof.
  intros tr. exists [ClockRead]. split; [reflexivity|].
  split; [repeat constructor | discriminate].
Qed.

Lemma main_may_sast_scan (w : World) (target pn tn : pyval) :
  stays_within main_event main_exn (trigger_sast_scan w target pn tn).
Proof.
  apply (within_weaken (scan_event sast_tool) main_event scan_exn main_exn).
  - intros e He. destruct e; try contradiction; [exact I | right; exact He].
  - intros e He. right.
    destruct He as [-> | [-> | [-> | [-> | [-> | [-> | ->]]]]]]; reflexivity.
  - apply scan_stays_within.
Qed.

Lemma main_may_push_block (w : World) (args : Args) (target project_path : pyval) :
  stays_within main_event main_exn (scan_for_push_block w args target project_path).
Proof.
  unfold scan_for_push_block.
  apply within_bind; [|intro; apply main_may_report_and_gate].
  destruct (negb (report args)).
  - apply within_bind; [apply main_may_time_now | intro].
    apply within_bind; [apply main_may_sast_scan | intro].
    apply within_bind; [apply main_may_time_now | intro].
    unfold logger_info. repeat main_step.
  - apply within_bind; [apply main_may_time_now | intro].
    apply within_bind; [cbn [call_scan]; main_step | intro].
    apply within_bind; [apply main_may_time_now | intro].
    unfold logger_info. repeat main_step.
Qed.

(** Whatever the machine answers and whatever the arguments, [main] stays
    within [main_event] and [main_exn]. *)
Lemma main_stays_within (w : World) (args : Args) :
  stays_within main_event main_exn (main w args).
Proof.
  unfold main, logger_info, logger_error.
  apply within_bind; [main_step | intro].
  apply within_bind.
  { destruct (negb (path_exists w "outputs")); [|main_step].
    destruct (mkdir_ok w "outputs"); [apply within_emit; reflexivity | main_step]. }
  intro. apply within_bind; [main_step | intro].
  apply within_bind; [apply main_may_load_config | intro config].
  do 5 (apply within_bind; [main_step | intro]).
  apply within_bind.
  { apply (within_try_except main_event main_exn main_exn).
    - apply within_bind; [apply main_may_check_snyk_installed | intro; main_step].
    - intros e _ _. repeat main_step.
    - intros e He _. exact He. }
  intro installed. destruct (negb installed); [main_step|].
  apply within_bind.
  { apply (within_try_except main_event main_exn main_exn).
    - apply within_bind; [apply main_may_check_snyk_token | intro; main_step].
    - intros e _ _. repeat main_step.
    - intros e He _. exact He. }
  intro authenticated. destruct (negb authenticated); [main_step|].
  apply within_bind; [|intro; main_step].
  destruct (scan_for_push args); [apply main_may_push_block | main_step].
Qed.


Lemma main_events_projected (more : trace) :
  Forall main_event more ->
  Forall (fun c => setup_command c \/ scan_command sast_tool c) (spawned more)
  /\ (forall repo, ~ In (OpenRepo repo) more)
  /\ Forall (fun f => fst f = "./outputs/scan_results.json"
                      \/ fst f = "./outputs/severity_summary.json") (written more).
Proof.
  induction 1 as [|e more He _ [IHs [IHg IHw]]].
  - split; [constructor|]. split; [intros repo []| constructor].
  - split; [|split].
    + destruct e; cbn in *; try exact IHs. constructor; assumption.
    + intros repo [Heq|Hin]; [subst e; exact He | exact (IHg repo Hin)].
    + destruct e; cbn in *; try exact IHw. constructor; assumption.
Qed.

(** X10: on every path, the only commands [main] runs are [snyk --version],
    [snyk auth <token>] and the code analysis scan [snyk code test --json
    ...]; it never runs the dependency scan [snyk test ...], never opens a
    repository, and writes no file but the two of the [outputs]
    directory. *)
Theorem main_reach (w : World) (args : Args) :
  Forall (fun c => setup_command c \/ scan_command sast_tool c)
    (spawned (snd (run (main w args))))
  /\ (forall rest, ~ In ("snyk" :: "test" :: rest) (spawned (snd (run (main w args)))))
  /\ (forall repo, ~ In (OpenRepo repo) (snd (run (main w args))))
  /\ Forall (fun f => fst f = "./outputs/scan_results.json"
                      \/ fst f = "./outputs/severity_summary.json")
       (written (snd (run (main w args)))).
Proof.
  destruct (main_stays_within w args []) as [more [Hmore [Hevents _]]].
  unfold run. rewrite Hmore. cbn [app].
  destruct (main_events_projected more Hevents) as [Hs [Hg Hw]].
  split; [exact Hs|]. split; [|split; [exact Hg | exact Hw]].
  intros rest Hin.
  rewrite Forall_forall in Hs.
  destruct (Hs _ Hin) as [[H|[token H]]|[tail H]]; discriminate H.
Qed.

(* ================================================================== *)
(** * Further properties of the tool check and of the scans *)
(* ================================================================== *)

(** X1: [check_snyk_installed] returns when [snyk --version] ends with
    status 0 and has printed text; when it ends with another status the
    check logs that the CLI is not installed and raises
    [CalledProcessError].  The handler waits for nothing else: when the
    executable cannot be started the [OSError], and when what the command
    printed is not text the [UnicodeDecodeError], pass it, and neither the
    "not installed" line nor the closing banner is logged. *)
Theorem tool_check_outcomes (w : World) (tr : trace) :
  match run_process w ["snyk"; "--version"] with
  | Exited r =>
      if returncode r =? 0 then
        check_snyk_installed w tr
        = (Ok tt,
           tr ++ [Log INFO "----------------check_snyk_installed started-----------------";
                  Spawn ["snyk"; "--version"];
                  Log INFO "Snyk CLI is installed: {result.stdout.strip()}";
                  Log INFO "----------------check_snyk_installed Ended-----------------"])
      else
        check_snyk_installed w tr
        = (Raise CalledProcessError,
           tr ++ [Log INFO "----------------check_snyk_installed started-----------------";
                  Spawn ["snyk"; "--version"];
                  Log ERROR "Snyk CLI is not installed. Please install it from https://snyk.io/docs/snyk-cli-installation/";
                  Log INFO "----------------check_snyk_installed Ended-----------------"])
  | Undecodable _ =>
      check_snyk_installed w tr
      = (Raise UnicodeDecodeError,
         tr ++ [Log INFO "----------------check_snyk_installed started-----------------";
                Spawn ["snyk"; "--version"]])
  | NotStarted =>
      check_snyk_installed w tr
      = (Raise OSError,
         tr ++ [Log INFO "----------------check_snyk_installed started-----------------"])
  end.
Proof.
  unfold check_snyk_installed, try_except, check_returncode, bind.
  cbn [logger_info emit]. rewrite run_version.
  destruct (run_process w ["snyk"; "--version"]) as [r|code|].
  - destruct (returncode r =? 0); cbn; rewrite <- !app_assoc; reflexivity.
  - cbn. rewrite <- !app_assoc. reflexivity.
  - reflexivity.
Qed.

Lemma scan_outcomes_of (w : World) (tool : list string) (name : string) (b : bool)
    (target pn tn : pyval) (tr : trace) :
  (forall e, fst (trigger_scan w tool name b target pn tn tr) = Raise e -> scan_exn e)
  /\ exists more,
       snd (trigger_scan w tool name b target pn tn tr) = tr ++ more
       /\ (spawned more = [] \/ exists rest, spawned more = [tool ++ "--json" :: rest])
       /\ ((exists scan_results,
              fst (trigger_scan w tool name b target pn tn tr) = Ok scan_results) ->
           spawned more <> []).
Proof.
  destruct (trigger_scan_cases w tool name b target pn tn tr)
    as [[e [more [Heq [He Hlogs]]]] | [o [rest [before [after [Heq [Ho [Hb Ha]]]]]]]];
    rewrite Heq; cbn [fst snd].
  - split.
    + intros e' H. injection H as <-. unfold scan_exn. tauto.
    + exists more. split; [reflexivity|]. split; [left; apply spawned_logs, Hlogs|].
      intros [doc H]. discriminate H.
  - assert (Hspawn : spawned (before ++ Spawn (tool ++ "--json" :: rest) :: after)
                     = [tool ++ "--json" :: rest]).
    { rewrite spawned_app, (spawned_logs before Hb). cbn [spawned flat_map app].
      fold (spawned after). rewrite (spawned_logs after Ha). reflexivity. }
    split.
    + intros e' H.
      destruct Ho as [-> | [-> | [-> | [-> | [doc ->]]]]]; [| | | |discriminate H];
        injection H as <-; unfold scan_exn; tauto.
    + eexists. split; [reflexivity|]. rewrite Hspawn.
      split; [right; eexists; reflexivity|]. intros _. discriminate.
Qed.

(** X2: each of the two scans returns a document or raises one of seven
    exceptions: [UnboundLocalError] for a target that is neither a string
    nor a list, [UnicodeEncodeError] or [ValueError] for an argument that
    cannot be passed to the command (a character the file system encoding
    lacks, a [NUL]), [OSError] for an executable that cannot be started,
    [UnicodeDecodeError] for an output that is not text, [JSONDecodeError],
    [RecursionError] or again [ValueError] for an output that [json.loads]
    refuses; never the
    [CalledProcessError] its first handler waits for.  It runs at most one
    command, which starts with the words of its tool and [--json], and it
    has run exactly that one when it returns. *)
Theorem scan_outcomes (w : World) (target pn tn : pyval) (tr : trace) :
  ((forall e, fst (trigger_sast_scan w target pn tn tr) = Raise e -> scan_exn e)
   /\ exists more,
        snd (trigger_sast_scan w target pn tn tr) = tr ++ more
        /\ (spawned more = []
            \/ exists rest, spawned more = [["snyk"; "code"; "test"] ++ "--json" :: rest])
        /\ ((exists scan_results,
               fst (trigger_sast_scan w target pn tn tr) = Ok scan_results) ->
            spawned more <> []))
  /\ ((forall e, fst (trigger_sca_scan w target pn tn tr) = Raise e -> scan_exn e)
      /\ exists more,
           snd (trigger_sca_scan w target pn tn tr) = tr ++ more
           /\ (spawned more = []
               \/ exists rest, spawned more = [["snyk"; "test"] ++ "--json" :: rest])
           /\ ((exists scan_results,
                  fst (trigger_sca_scan w target pn tn tr) = Ok scan_results) ->
               spawned more <> [])).
Proof.
  split.
  - apply (scan_outcomes_of w ["snyk"; "code"; "test"] "trigger_sast_scan" false).
  - apply (scan_outcomes_of w ["snyk"; "test"] "trigger_sca_scan" true).
Qed.

(** X3: for a target that is a string, the command of either scan is the
    words of the tool, [--json], the string itself as the one path
    argument, then the upload flags if any; unless the path itself looks
    like one, the command has no [--file=] flag. *)
Theorem whole_project_command (w : World) (path : string) (pn tn : pyval) (tr : trace) :
  build_command w sast_tool (PStr path) pn tn tr
  = (Ok (["snyk"; "code"; "test"; "--json"; path] ++ upload_flags w pn tn),
     tr ++ [Log INFO "Running Command - {command}"])
  /\ build_command w sca_tool (PStr path) pn tn tr
     = (Ok (["snyk"; "test"; "--json"; path] ++ upload_flags w pn tn),
        tr ++ [Log INFO "Running Command - {command}"])
  /\ (String.prefix "--file=" path = false ->
      filter (String.prefix "--file=")
        (["snyk"; "code"; "test"; "--json"; path] ++ upload_flags w pn tn) = []
      /\ filter (String.prefix "--file=")
           (["snyk"; "test"; "--json"; path] ++ upload_flags w pn tn) = []).
Proof.
  split; [|split].
  - apply (build_command_assigned w sast_tool ["snyk"; "code"; "test"; "--json"; path]).
    reflexivity.
  - apply (build_command_assigned w sca_tool ["snyk"; "test"; "--json"; path]).
    reflexivity.
  - intros Hpath. cbn [app filter]. cbn. rewrite Hpath.
    split; apply upload_flags_no_file_flag.
Qed.

Lemma whole_project_command_witness :
  fst (build_command findings_world sast_tool (PStr "src") (PStr "demo") PNone [])
  = Ok ["snyk"; "code"; "test"; "--json"; "src"; "--report"; "--project-name=demo"]
  /\ filter (String.prefix "--file=")
       (["snyk"; "code"; "test"; "--json"; "src"]
          ++ upload_flags findings_world (PStr "demo") PNone) = [].
Proof.
  pose proof (whole_project_command findings_world "src" (PStr "demo") PNone [])
    as [Hsast [_ Hflags]].
  split.
  - rewrite Hsast. reflexivity.
  - apply (proj1 (Hflags eq_refl)).
Defined.

(** X4: for every target and every pair of names, the two scans build the
    same command but for the word [code]: the code analysis command is
    that of the dependency scan with [code] put after [snyk], and one
    fails to build exactly when the other does, with the same error. *)
Theorem scans_differ_by_code (w : World) (target pn tn : pyval) (tr : trace) :
  fst (build_command w sast_tool target pn tn tr)
  = match fst (build_command w sca_tool target pn tn tr) with
    | Ok command => Ok ("snyk" :: "code" :: tl command)
    | Raise e => Raise e
    end.
Proof.
  destruct (is_str_or_list target) eqn:Hkind.
  - destruct target; try discriminate Hkind.
    + rewrite (build_command_assigned w sast_tool ["snyk"; "code"; "test"; "--json"; s]
                 (PStr s) pn tn tr eq_refl).
      rewrite (build_command_assigned w sca_tool ["snyk"; "test"; "--json"; s]
                 (PStr s) pn tn tr eq_refl).
      reflexivity.
    + rewrite (build_command_assigned w sast_tool _ (PList items) pn tn tr eq_refl).
      rewrite (build_command_assigned w sca_tool _ (PList items) pn tn tr eq_refl).
      reflexivity.
  - rewrite (build_command_unassigned w sast_tool target pn tn tr
               (target_command_other w sast_tool target Hkind)).
    rewrite (build_command_unassigned w sca_tool target pn tn tr
               (target_command_other w sca_tool target Hkind)).
    reflexivity.
Qed.

(* ================================================================== *)
(** * Further properties of the summary and of the gate *)
(* ================================================================== *)

Lemma dict_get_missing (d : dict) (key : string) (default : pyval) :
  dict_mem d key = false -> dict_get d key default = default.
Proof.
  induction d as [|[k v] rest IH]; cbn; [reflexivity|].
  destruct (String.eqb k key); [discriminate | exact IH].
Qed.

(** X5: the gate on any value: a summary without the key [high] passes; an
    integer [high] passes exactly when it is not positive; a [high] that is
    a string or [None] is a [TypeError]; and a summary that is not a
    dictionary is an [AttributeError]. *)
Theorem gate_on_any_summary (tr : trace) :
  (forall d, dict_mem d "high" = false ->
     fst (evaluate_severity_summary (PDict d) tr) = Ok true)
  /\ (forall d z, dict_get d "high" (PInt 0) = PInt z ->
        fst (evaluate_severity_summary (PDict d) tr) = Ok (z <=? 0))
  /\ (forall d, (dict_get d "high" (PInt 0) = PNone
                 \/ exists s, dict_get d "high" (PInt 0) = PStr s) ->
        fst (evaluate_severity_summary (PDict d) tr) = Raise TypeError)
  /\ (forall v, (forall d, v <> PDict d) ->
        fst (evaluate_severity_summary v tr) = Raise AttributeError).
Proof.
  assert (Hint : forall d z, dict_get d "high" (PInt 0) = PInt z ->
                   fst (evaluate_severity_summary (PDict d) tr) = Ok (z <=? 0)).
  { intros d z Hz. unfold evaluate_severity_summary, bind. cbn. rewrite Hz. cbn.
    destruct (Z.ltb_spec 0 z); destruct (Z.leb_spec z 0); try lia; reflexivity. }
  split; [|split; [exact Hint|split]].
  - intros d Hmem. rewrite (Hint d 0); [reflexivity|].
    apply dict_get_missing, Hmem.
  - intros d [Hn | [s Hs]]; unfold evaluate_severity_summary, bind; cbn;
      [rewrite Hn | rewrite Hs]; reflexivity.
  - intros v Hv. destruct v; try reflexivity. destruct (Hv entries eq_refl).
Qed.

Lemma gate_on_any_summary_witness :
  fst (evaluate_severity_summary (PDict [("low", PInt 3)]) []) = Ok true
  /\ fst (evaluate_severity_summary (PDict [("high", PInt (-2))]) []) = Ok true
  /\ fst (evaluate_severity_summary (PDict [("high", PStr "1")]) []) = Raise TypeError
  /\ fst (evaluate_severity_summary (PList []) []) = Raise AttributeError.
Proof.
  pose proof (gate_on_any_summary []) as [H1 [H2 [H3 H4]]].
  split; [apply H1; reflexivity|].
  split; [apply (H2 [("high", PInt (-2))] (-2)); reflexivity|].
  split; [apply H3; right; exists "1"; reflexivity|].
  apply H4. intros d H. discriminate H.
Defined.

Lemma no_high_iff (results : list dict) :
  count_bucket High results = 0%nat
  <-> forall r, In r results -> bucket_of_level (level_of r) <> High.
Proof.
  unfold count_bucket. induction results as [|r rest IH]; cbn [filter].
  - split; [intros _ r [] | reflexivity].
  - destruct (bucket_of_level (level_of r)) eqn:Hb; cbn [bucket_eqb].
    + rewrite IH. split.
      * intros H x [<-|Hin]; [rewrite Hb; discriminate | apply H, Hin].
      * intros H x Hin. apply H. right. exact Hin.
    + rewrite IH. split.
      * intros H x [<-|Hin]; [rewrite Hb; discriminate | apply H, Hin].
      * intros H x Hin. apply H. right. exact Hin.
    + split; [discriminate|]. intros H. exfalso.
      apply (H r); [left; reflexivity | exact Hb].
Qed.

Lemma not_high_iff (level : pyval) :
  bucket_of_level level <> High
  <-> level = PStr "note" \/ level = PStr "info" \/ level = PStr "warning".
Proof.
  rewrite <- bucket_medium_iff, <- or_assoc, <- bucket_low_iff.
  destruct (bucket_of_level level); split; intros H;
    try tauto; try (intros H'; discriminate H'); try (destruct H; discriminate).
Qed.

(** X6: summary and gate together fail closed: for a scan document of the
    expected shape, the gate applied to the summary passes exactly when
    every result of every run has level [note], [info] or [warning]; a
    single result with another level, or with none, fails it. *)
Theorem gate_of_document (d : dict) (runs : list pyval) (results : list dict)
    (tr : trace) :
  dict_get d "runs" (PList []) = PList runs ->
  results_of_runs runs = Some results ->
  exists summary tr',
    summarize_severities (PDict d) tr = (Ok summary, tr')
    /\ (fst (evaluate_severity_summary summary tr') = Ok true
        \/ fst (evaluate_severity_summary summary tr') = Ok false)
    /\ (fst (evaluate_severity_summary summary tr') = Ok true
        <-> forall r, In r results ->
              level_of r = PStr "note" \/ level_of r = PStr "info"
              \/ level_of r = PStr "warning").
Proof.
  intros Hruns Hshape.
  rewrite (summarize_severities_counts d runs results tr Hruns Hshape).
  eexists. eexists. split; [reflexivity|].
  match goal with
  | |- context [evaluate_severity_summary (histogram ?l ?m ?h ?t) ?tr0] =>
      destruct (evaluate_histogram l m h t tr0) as [more [Heval _]]
  end.
  rewrite Heval. cbn [fst]. split.
  - destruct (Nat.eqb (count_bucket High results) 0); [left | right]; reflexivity.
  - split.
    + intros H. injection H as H. apply Nat.eqb_eq in H.
      intros r Hin. apply not_high_iff. apply (proj1 (no_high_iff results) H r Hin).
    + intros H. f_equal. apply Nat.eqb_eq. apply no_high_iff.
      intros r Hin. apply not_high_iff, H, Hin.
Qed.

Lemma gate_of_document_witness :
  exists summary tr',
    summarize_severities notes_value [] = (Ok summary, tr')
    /\ fst (evaluate_severity_summary summary tr') = Ok true.
Proof.
  destruct (gate_of_document
              [("runs", PList [PDict [("results", PList [PDict [("level", PStr "note")]])]])]
              [PDict [("results", PList [PDict [("level", PStr "note")]])]]
              [[("level", PStr "note")]] [] eq_refl eq_refl)
    as [summary [tr' [Hsum [_ Hiff]]]].
  exists summary, tr'. split; [exact Hsum|].
  apply Hiff. intros r [<-|[]]. left. reflexivity.
Defined.

Lemma for_each_app {A S} (first rest : list A) (body : S -> A -> M S) (s : S)
    (tr : trace) :
  for_each (first ++ rest) body s tr
  = (s' <- for_each first body s ;; for_each rest body s') tr.
Proof.
  revert s tr. induction first as [|x first IH]; intros s tr; [reflexivity|].
  cbn [app for_each]. unfold bind.
  destruct (body s x tr) as [[s1|e] tr1]; [|reflexivity].
  rewrite IH. reflexivity.
Qed.

(** The inner loop, on any list: it counts, or stops at the first item
    that is not a dictionary. *)
Lemma inner_loop_cases (items : list pyval) :
  forall (l m h : Z) (tr : trace),
    (exists l' m' h',
       l <= l' /\ m <= m' /\ h <= h'
       /\ for_each items count_result (counts l m h) tr = (Ok (counts l' m' h'), tr))
    \/ for_each items count_result (counts l m h) tr = (Raise AttributeError, tr).
Proof.
  induction items as [|item items IH]; intros l m h tr.
  - left. exists l, m, h. repeat split; try lia.
  - cbn [for_each]. unfold bind. unfold count_result at 1 3.
    destruct item as [| | | | | |r]; try (right; reflexivity).
    unfold bind. cbn [py_get ret]. rewrite !count_one.
    destruct (bucket_of_level (dict_get r "level" (PStr "")));
      match goal with
      | |- context [for_each items count_result (counts ?a ?b ?c) tr] =>
          destruct (IH a b c tr) as [[l' [m' [h' [Hl [Hm [Hh Heq]]]]]] | Heq]
      end;
      first [ right; exact Heq
            | left; exists l', m', h'; repeat split; try lia; exact Heq ].
Qed.

(** The outer loop, on any list. *)
Lemma outer_loop_cases (runs : list pyval) :
  forall (l m h : Z) (tr : trace),
    (exists l' m' h',
       l <= l' /\ m <= m' /\ h <= h'
       /\ for_each runs count_run (counts l m h) tr = (Ok (counts l' m' h'), tr))
    \/ exists e,
         (e = AttributeError \/ e = TypeError)
         /\ for_each runs count_run (counts l m h) tr = (Raise e, tr).
Proof.
  induction runs as [|run runs IH]; intros l m h tr.
  - left. exists l, m, h. repeat split; try lia.
  - cbn [for_each]. unfold bind. unfold count_run at 1 3.
    destruct run as [| | | | | |r];
      try (right; exists AttributeError; split; [left|]; reflexivity).
    unfold bind. cbn [py_get ret]. unfold iterate.
    destruct (py_iter (dict_get r "results" (PList []))) as [items|];
      cbn [lift_option ret raise];
      [|right; exists TypeError; split; [right|]; reflexivity].
    destruct (inner_loop_cases items l m h tr)
      as [[l1 [m1 [h1 [Hl [Hm [Hh Heq]]]]]] | Heq]; rewrite Heq.
    + destruct (IH l1 m1 h1 tr)
        as [[l' [m' [h' [Hl' [Hm' [Hh' Heq']]]]]] | [e [He Heq']]].
      * left. exists l', m', h'. repeat split; try lia. exact Heq'.
      * right. exists e. split; [exact He | exact Heq'].
    + right. exists AttributeError. split; [left|]; reflexivity.
Qed.

(** X7: whatever value it is given, [summarize_severities] does one of two
    things: it returns a dictionary with exactly the keys [low], [medium],
    [high] and [scan_time], the three counts being integers that are not
    negative, having logged three lines; or it logs its error line and
    raises [AttributeError] or [TypeError].  It raises no other error (no
    [KeyError] from the counters), and all it does to the outside is
    log. *)
Theorem summarize_outcomes (scan_results : pyval) (tr : trace) :
  (exists l m h scan_time,
     0 <= l /\ 0 <= m /\ 0 <= h
     /\ summarize_severities scan_results tr
        = (Ok (PDict [("low", PInt l); ("medium", PInt m); ("high", PInt h);
                      ("scan_time", scan_time)]),
           tr ++ [Log INFO "----------------summarize_severities Started-----------------";
                  Log INFO "Severity summary: {severity_counts}";
                  Log INFO "----------------summarize_severities Ended-----------------"]))
  \/ exists e,
       (e = AttributeError \/ e = TypeError)
       /\ summarize_severities scan_results tr
          = (Raise e,
             tr ++ [Log INFO "----------------summarize_severities Started-----------------";
                    Log ERROR "Error summarizing severities: {e}";
                    Log INFO "----------------summarize_severities Ended-----------------"]).
Proof.
  remember (summarize_severities scan_results tr) as result eqn:Hres.
  unfold summarize_severities, try_except in Hres.
  unfold bind at 1 in Hres. unfold logger_info at 1, emit in Hres.
  unfold bind at 1 in Hres.
  destruct scan_results as [| | | | | |d];
    try (right; exists AttributeError; split; [left; reflexivity|];
         subst result; cbn; rewrite <- ?app_assoc; reflexivity).
  cbn [py_get ret] in Hres. unfold bind at 1 in Hres. unfold iterate at 1 in Hres.
  destruct (py_iter (dict_get d "runs" (PList []))) as [runs|];
    cbn [lift_option ret raise] in Hres.
  2:{ right. exists TypeError. split; [right; reflexivity|].
      subst result. cbn. rewrite <- ?app_assoc. reflexivity. }
  unfold bind at 1 in Hres.
  change [("low", PInt 0); ("medium", PInt 0); ("high", PInt 0)]
    with (counts 0 0 0) in Hres.
  fold count_result in Hres. fold count_run in Hres.
  match type of Hres with
  | context [for_each runs count_run (counts 0 0 0) ?tr0] =>
      destruct (outer_loop_cases runs 0 0 0 tr0)
        as [[l [m [h [Hl [Hm [Hh Heq]]]]]] | [e [He Heq]]]
  end; rewrite Heq in Hres.
  - left. exists l, m, h, (dict_get d "scan_time" (PInt 0)).
    split; [exact Hl|]. split; [exact Hm|]. split; [exact Hh|].
    subst result. cbn. rewrite <- ?app_assoc. reflexivity.
  - right. exists e. split; [exact He|].
    subst result. destruct He as [-> | ->]; cbn; rewrite <- ?app_assoc; reflexivity.
Qed.

Lemma loop_stops (good rest : list pyval) (bad : pyval) (results : list dict)
    (e : exn) (tr : trace) :
  results_of_runs good = Some results ->
  (forall c t, count_run c bad t = (Raise e, t)) ->
  for_each (good ++ bad :: rest) count_run (counts 0 0 0) tr = (Raise e, tr).
Proof.
  intros Hgood Hbad.
  pose proof (count_runs good results 0 0 0 tr Hgood) as Hloop.
  fold count_result in Hloop. fold count_run in Hloop.
  rewrite for_each_app. unfold bind. rewrite Hloop.
  cbn [for_each]. unfold bind. rewrite Hbad. reflexivity.
Qed.

Lemma summarize_loop_raises (d : dict) (runs : list pyval) (e : exn) (tr : trace) :
  dict_get d "runs" (PList []) = PList runs ->
  (forall t, for_each runs count_run (counts 0 0 0) t = (Raise e, t)) ->
  is_Exception e = true ->
  summarize_severities (PDict d) tr
  = (Raise e,
     tr ++ [Log INFO "----------------summarize_severities Started-----------------";
            Log ERROR "Error summarizing severities: {e}";
            Log INFO "----------------summarize_severities Ended-----------------"]).
Proof.
  intros Hruns Hloop He.
  unfold summarize_severities, try_except.
  unfold bind at 1. unfold logger_info at 1, emit.
  unfold bind at 1. cbn [py_get ret]. rewrite Hruns.
  unfold bind at 1. cbn [iterate py_iter lift_option ret].
  unfold bind at 1.
  change [("low", PInt 0); ("medium", PInt 0); ("high", PInt 0)] with (counts 0 0 0).
  fold count_result. fold count_run. rewrite Hloop. rewrite He.
  cbn. rewrite <- ?app_assoc. reflexivity.
Qed.

(** X8: which documents [summarize_severities] refuses, all with its error
    line logged and the exception raised again: a document that is not a
    dictionary ([AttributeError]); a [runs] that cannot be iterated, such
    as [null] or a number ([TypeError]), where a missing [runs] counts as
    no runs; a run that is not a dictionary ([AttributeError]); and a run
    whose [results] cannot be iterated ([TypeError]).  The runs before the
    offending one do not matter: nothing is returned. *)
Theorem summarize_malformed (tr : trace) :
  let refused (e : exn) : outcome pyval * trace :=
    (Raise e,
     tr ++ [Log INFO "----------------summarize_severities Started-----------------";
            Log ERROR "Error summarizing severities: {e}";
            Log INFO "----------------summarize_severities Ended-----------------"]) in
  (forall v, (forall d, v <> PDict d) ->
     summarize_severities v tr = refused AttributeError)
  /\ (forall d, py_iter (dict_get d "runs" (PList [])) = None ->
        summarize_severities (PDict d) tr = refused TypeError)
  /\ (forall d good bad rest results,
        dict_get d "runs" (PList []) = PList (good ++ bad :: rest) ->
        results_of_runs good = Some results ->
        (forall r, bad <> PDict r) ->
        summarize_severities (PDict d) tr = refused AttributeError)
  /\ (forall d good r rest results,
        dict_get d "runs" (PList []) = PList (good ++ PDict r :: rest) ->
        results_of_runs good = Some results ->
        py_iter (dict_get r "results" (PList [])) = None ->
        summarize_severities (PDict d) tr = refused TypeError).
Proof.
  cbv zeta. split; [|split; [|split]].
  - intros v Hv. destruct v; try (cbn; rewrite <- ?app_assoc; reflexivity).
    destruct (Hv entries eq_refl).
  - intros d Hiter.
    unfold summarize_severities, try_except.
    unfold bind at 1. unfold logger_info at 1, emit.
    unfold bind at 1. cbn [py_get ret]. unfold bind at 1. unfold iterate at 1.
    rewrite Hiter. cbn. rewrite <- ?app_assoc. reflexivity.
  - intros d good bad rest results Hruns Hgood Hbad.
    apply (summarize_loop_raises d (good ++ bad :: rest) AttributeError tr Hruns);
      [|reflexivity].
    intros t. apply (loop_stops good rest bad results AttributeError t Hgood).
    intros c t'. destruct bad; try reflexivity. destruct (Hbad entries eq_refl).
  - intros d good r rest results Hruns Hgood Hiter.
    apply (summarize_loop_raises d (good ++ PDict r :: rest) TypeError tr Hruns);
      [|reflexivity].
    intros t. apply (loop_stops good rest (PDict r) results TypeError t Hgood).
    intros c t'. unfold count_run, bind. cbn [py_get ret]. unfold iterate.
    rewrite Hiter. reflexivity.
Qed.

Lemma summarize_malformed_witness :
  fst (summarize_severities (PList [PInt 1]) []) = Raise AttributeError
  /\ fst (summarize_severities (PDict [("runs", PNone)]) []) = Raise TypeError
  /\ fst (summarize_severities
            (PDict [("runs", PList [PDict [("results", PList [])]; PStr "run"])]) [])
     = Raise AttributeError
  /\ fst (summarize_severities
            (PDict [("runs", PList [PDict [("results", PInt 3)]])]) [])
     = Raise TypeError.
Proof.
  pose proof (summarize_malformed []) as [Ha [Hb [Hc Hd]]].
  split; [rewrite Ha; [reflexivity | intros d H; discriminate H]|].
  split; [rewrite Hb; reflexivity|].
  split.
  - rewrite (Hc [("runs", PList [PDict [("results", PList [])]; PStr "run"])]
               [PDict [("results", PList [])]] (PStr "run") [] [] eq_refl eq_refl);
      [reflexivity | intros r H; discriminate H].
  - rewrite (Hd [("runs", PList [PDict [("results", PInt 3)]])]
               [] [("results", PInt 3)] [] [] eq_refl eq_refl eq_refl).
    reflexivity.
Defined.

(* ================================================================== *)
(** * Further properties of main, case by case *)
(* ================================================================== *)

Lemma quiet_spawned (more : trace) : Forall quiet_event more -> spawned more = [].
Proof.
  induction 1 as [|e more He _ IH]; [reflexivity|].
  destruct e; try contradiction; exact IH.
Qed.


Lemma written_app (t1 t2 : trace) : written (t1 ++ t2) = written t1 ++ written t2.
Proof. unfold written. apply flat_map_app. Qed.

Lemma startup_events_quiet (w : World) : Forall quiet_event (startup_events w).
Proof.
  unfold startup_events. destruct (path_exists w "outputs"); repeat constructor.
Qed.

(** [load_config], case by case. *)
Lemma load_config_cases (w : World) (file : string) (tr : trace) :
  load_config w file tr
  = match read_text w file with
    | Text text =>
        match json_loads w text with
        | Decoded config =>
            (Ok config, tr ++ [Log INFO "Configuration loaded from {config_file}."])
        | Malformed =>
            (Raise JSONDecodeError,
             tr ++ [Log ERROR "Error loading configuration from {config_file}: {e}"])
        | TooDeep =>
            (Raise RecursionError,
             tr ++ [Log ERROR "Error loading configuration from {config_file}: {e}"])
        | TooLarge =>
            (Raise ValueError,
             tr ++ [Log ERROR "Error loading configuration from {config_file}: {e}"])
        end
    | NotText =>
        (Raise UnicodeDecodeError,
         tr ++ [Log ERROR "Error loading configuration from {config_file}: {e}"])
    | Unreadable =>
        (Raise OSError,
         tr ++ [Log ERROR "Error loading configuration from {config_file}: {e}"])
    end.
Proof.
  unfold load_config, try_except, bind, read_file, json_loads_call.
  destruct (read_text w file) as [text| |]; try reflexivity.
  cbn [ret]. destruct (json_loads w text); reflexivity.
Qed.

(** The start of [main] when the configuration does not load to a
    dictionary: an exception, or a value that is not a dictionary. *)
Lemma startup_fails (w : World) (tr : trace) :
  loaded_config w = None ->
  (exists e more,
     (logger_info (banner "Main started") ;;
      (if negb (path_exists w "outputs") then
         if mkdir_ok w "outputs" then emit (Mkdir "outputs") else raise OSError
       else ret tt) ;;
      logger_info "Arguments: {args}" ;;
      load_config w "config.json") tr = (Raise e, tr ++ more)
     /\ config_exn e
     /\ Forall quiet_event more)
  \/ (exists v more,
        (logger_info (banner "Main started") ;;
         (if negb (path_exists w "outputs") then
            if mkdir_ok w "outputs" then emit (Mkdir "outputs") else raise OSError
          else ret tt) ;;
         logger_info "Arguments: {args}" ;;
         load_config w "config.json") tr = (Ok v, tr ++ more)
        /\ (forall d, v <> PDict d)
        /\ Forall quiet_event more).
Proof.
  unfold loaded_config. intros Hcfg.
  unfold bind, logger_info, emit.
  assert (Hload : forall t,
             (exists e,
                config_exn e
                /\ load_config w "config.json" t
                   = (Raise e,
                      t ++ [Log ERROR "Error loading configuration from {config_file}: {e}"]))
             \/ (exists v,
                   load_config w "config.json" t
                   = (Ok v, t ++ [Log INFO "Configuration loaded from {config_file}."])
                   /\ match v with
                      | PDict cfg =>
                          read_text w "config.json" <> Unreadable
                          /\ exists text, read_text w "config.json" = Text text
                                          /\ json_loads w text = Decoded (PDict cfg)
                      | _ => True
                      end)).
  { intros t. rewrite load_config_cases. unfold config_exn.
    destruct (read_text w "config.json") as [text| |] eqn:Hread.
    - destruct (json_loads w text) as [config| | |] eqn:Hloads.
      + right. exists config. split; [reflexivity|].
        destruct config; try exact I.
        split; [discriminate|]. exists text. split; [reflexivity | exact Hloads].
      + left. exists JSONDecodeError. split; [tauto | reflexivity].
      + left. exists RecursionError. split; [tauto | reflexivity].
      + left. exists ValueError. split; [tauto | reflexivity].
    - left. exists UnicodeDecodeError. split; [tauto | reflexivity].
    - left. exists OSError. split; [tauto | reflexivity]. }
  assert (Hnot : forall v,
             negb (path_exists w "outputs") && negb (mkdir_ok w "outputs") = false ->
             match v with
             | PDict cfg =>
                 read_text w "config.json" <> Unreadable
                 /\ exists text, read_text w "config.json" = Text text
                                 /\ json_loads w text = Decoded (PDict cfg)
             | _ => True
             end ->
             forall d, v <> PDict d).
  { intros v Hdir Hv d ->. destruct Hv as [_ [text [Hread Hloads]]].
    rewrite Hdir, Hread, Hloads in Hcfg. discriminate Hcfg. }
  destruct (path_exists w "outputs") eqn:Hexists; cbn [negb andb] in *.
  - cbn [ret].
    destruct (Hload ((tr ++ [Log INFO (banner "Main started")])
                       ++ [Log INFO "Arguments: {args}"]))
      as [[e [He Heq]] | [v [Heq Hv]]]; rewrite Heq.
    + left. exists e. eexists. split; [rewrite <- ?app_assoc; reflexivity|].
      split; [exact He | repeat constructor].
    + right. exists v. eexists. split; [rewrite <- ?app_assoc; reflexivity|].
      split; [exact (Hnot v eq_refl Hv) | repeat constructor].
  - destruct (mkdir_ok w "outputs") eqn:Hmkdir; cbn [negb andb] in *.
    + cbn [emit].
      destruct (Hload (((tr ++ [Log INFO (banner "Main started")]) ++ [Mkdir "outputs"])
                         ++ [Log INFO "Arguments: {args}"]))
        as [[e [He Heq]] | [v [Heq Hv]]]; rewrite Heq.
      * left. exists e. eexists. split; [rewrite <- ?app_assoc; reflexivity|].
        split; [exact He | repeat constructor].
      * right. exists v. eexists. split; [rewrite <- ?app_assoc; reflexivity|].
        split; [exact (Hnot v eq_refl Hv) | repeat constructor].
    + left. exists OSError. eexists. cbn.
      split; [reflexivity|].
      split; [left; reflexivity | repeat constructor].
Qed.

Lemma main_config_fails (w : World) (args : Args) (tr : trace) :
  loaded_config w = None ->
  exists e more,
    main w args tr = (Raise e, tr ++ more)
    /\ (config_exn e \/ e = AttributeError)
    /\ Forall quiet_event more.
Proof.
  intros Hcfg. unfold main. rewrite bind_assoc4.
  destruct (startup_fails w tr Hcfg)
    as [[e [more [Heq [He Hquiet]]]] | [v [more [Heq [Hv Hquiet]]]]].
  - unfold bind at 1. rewrite Heq.
    exists e, more. split; [reflexivity|]. split; [tauto | exact Hquiet].
  - unfold bind at 1. rewrite Heq. cbv beta iota.
    exists AttributeError, more.
    split; [|split; [tauto | exact Hquiet]].
    destruct v; try reflexivity. destruct (Hv entries eq_refl).
Qed.



(** [check_snyk_token] on a token that is not a string. *)
Lemma check_snyk_token_not_string (w : World) (token : pyval) (tr : trace) :
  ~ In "SNYK_TOKEN" (environ w) ->
  (forall s, token <> PStr s) ->
  check_snyk_token w token tr
  = (Raise TypeError,
     tr ++ [Log INFO "----------------check_snyk_token Started-----------------"]).
Proof.
  intros Hout Htoken. apply not_in_environ in Hout.
  unfold check_snyk_token, try_except, bind, logger_info, emit.
  rewrite Hout. cbn [ret].
  assert (Hrun : forall t,
             subprocess_run w false [PStr "snyk"; PStr "auth"; token] t
             = (Raise TypeError, t)).
  { intros t. unfold subprocess_run. cbn [arguments argument].
    replace (encodable w "snyk") with true by reflexivity.
    replace (encodable w "auth") with true by reflexivity.
    cbn [negb embedded_null existsb list_ascii_of_string Ascii.eqb Bool.eqb orb].
    destruct token; try reflexivity. destruct (Htoken s eq_refl). }
  rewrite Hrun. reflexivity.
Qed.

Lemma check_snyk_token_not_started (w : World) (token : string) (tr : trace) :
  ~ In "SNYK_TOKEN" (environ w) ->
  passable w token = true ->
  run_process w ["snyk"; "auth"; token] = NotStarted ->
  check_snyk_token w (PStr token) tr
  = (Raise OSError,
     tr ++ [Log INFO "----------------check_snyk_token Started-----------------"]).
Proof.
  intros Hout Hpass Hrun. apply not_in_environ in Hout.
  unfold check_snyk_token, try_except, bind, logger_info, emit.
  rewrite Hout. cbn [ret]. rewrite (run_auth w token _ Hpass), Hrun.
  reflexivity.
Qed.

(** The authentication command ran and ended with another status than 0,
    whatever it printed. *)
Lemma check_snyk_token_rejected (w : World) (token : string) (code : Z) (tr : trace) :
  ~ In "SNYK_TOKEN" (environ w) ->
  passable w token = true ->
  exit_code (run_process w ["snyk"; "auth"; token]) = Some code ->
  code <> 0 ->
  check_snyk_token w (PStr token) tr
  = (Raise CalledProcessError,
     tr ++ [Log INFO "----------------check_snyk_token Started-----------------";
            Spawn ["snyk"; "auth"; token];
            Log ERROR "Failed to authenticate to Snyk: {e}";
            Log INFO "----------------check_snyk_token Ended-----------------"]).
Proof.
  intros Hout Hpass Hrun Hcode. apply not_in_environ in Hout.
  apply Z.eqb_neq in Hcode.
  unfold check_snyk_token, try_except, bind, logger_info, emit.
  rewrite Hout. cbn [ret]. rewrite (run_auth w token _ Hpass).
  unfold check_returncode.
  destruct (run_process w ["snyk"; "auth"; token]) as [r|c|]; cbn in Hrun;
    try discriminate Hrun; injection Hrun as Hrun;
    cbn [returncode]; rewrite Hrun, Hcode; cbn; rewrite <- !app_assoc; reflexivity.
Qed.

(** X12: of the ways the authentication can fail once the configuration
    is loaded, the tool found and [SNYK_TOKEN] not in the environment,
    [main] handles one.  A token that is not a string (a configuration
    without [auth_token]) ends [main] with [TypeError], an [auth] command
    that cannot be started with [OSError], and one that ends with another
    status than 0 with [CalledProcessError]: none is caught by [except
    ValueError], the process ends with status 1.  A token that cannot be
    passed as an argument (it holds [NUL], or a character the file system
    encoding lacks) makes [subprocess.run] raise a [ValueError]: that one
    is caught, [main] logs that the authentication failed and returns, and
    the process ends with status 0.  In no case is a scan run. *)
Theorem auth_failures_escape (w : World) (args : Args) (cfg : dict) (tr : trace) :
  loaded_config w = Some cfg ->
  tool_installed w = true ->
  ~ In "SNYK_TOKEN" (environ w) ->
  ((forall s, dict_get cfg "auth_token" PNone <> PStr s) ->
   fst (main w args tr) = Raise TypeError
   /\ spawned (snd (main w args tr)) = spawned tr ++ [["snyk"; "--version"]]
   /\ exit_status (fst (main w args tr)) = 1)
  /\ (forall token,
        dict_get cfg "auth_token" PNone = PStr token ->
        passable w token = true ->
        run_process w ["snyk"; "auth"; token] = NotStarted ->
        fst (main w args tr) = Raise OSError
        /\ spawned (snd (main w args tr)) = spawned tr ++ [["snyk"; "--version"]]
        /\ exit_status (fst (main w args tr)) = 1)
  /\ (forall token code,
        dict_get cfg "auth_token" PNone = PStr token ->
        passable w token = true ->
        exit_code (run_process w ["snyk"; "auth"; token]) = Some code ->
        code <> 0 ->
        fst (main w args tr) = Raise CalledProcessError
        /\ spawned (snd (main w args tr))
           = spawned tr ++ [["snyk"; "--version"]; ["snyk"; "auth"; token]]
        /\ exit_status (fst (main w args tr)) = 1)
  /\ (forall token,
        dict_get cfg "auth_token" PNone = PStr token ->
        passable w token = false ->
        main w args tr
        = (Ok tt,
           tr ++ startup_events w ++ tool_check_events
              ++ [Log INFO "----------------check_snyk_token Started-----------------";
                  Log ERROR "Authentication failed: {e}"])
        /\ spawned (snd (main w args tr)) = spawned tr ++ [["snyk"; "--version"]]
        /\ exit_status (fst (main w args tr)) = 0).
Proof.
  intros Hcfg Htool Henv.
  assert (Hquiet : spawned (startup_events w) = []).
  { apply quiet_spawned, startup_events_quiet. }
  split; [|split; [|split]].
  - intros Htoken.
    rewrite (main_token_check_raises w args cfg tr TypeError
               [Log INFO "----------------check_snyk_token Started-----------------"]
               Hcfg Htool
               (check_snyk_token_not_string w _ _ Henv Htoken)).
    cbn [is_ValueError]. split; [reflexivity|]. split; [|reflexivity].
    cbn [snd]. rewrite !spawned_app, Hquiet. reflexivity.
  - intros token Htoken Hpass Hrun.
    rewrite (main_token_check_raises w args cfg tr OSError
               [Log INFO "----------------check_snyk_token Started-----------------"]
               Hcfg Htool).
    + cbn [is_ValueError]. split; [reflexivity|]. split; [|reflexivity].
      cbn [snd]. rewrite !spawned_app, Hquiet. reflexivity.
    + rewrite Htoken. apply (check_snyk_token_not_started w token _ Henv Hpass Hrun).
  - intros token code Htoken Hpass Hrun Hcode.
    rewrite (main_token_check_raises w args cfg tr CalledProcessError
               [Log INFO "----------------check_snyk_token Started-----------------";
                Spawn ["snyk"; "auth"; token];
                Log ERROR "Failed to authenticate to Snyk: {e}";
                Log INFO "----------------check_snyk_token Ended-----------------"]
               Hcfg Htool).
    + cbn [is_ValueError]. split; [reflexivity|]. split; [|reflexivity].
      cbn [snd]. rewrite !spawned_app, Hquiet. reflexivity.
    + rewrite Htoken.
      apply (check_snyk_token_rejected w token code _ Henv Hpass Hrun Hcode).
  - intros token Htoken Hpass.
    rewrite (main_token_refused w args cfg token tr Hcfg Htool Henv Htoken Hpass).
    split; [reflexivity|]. split; [|reflexivity].
    cbn [snd]. rewrite !spawned_app, Hquiet. reflexivity.
Qed.

Lemma auth_failures_escape_witness :
  (fst (main refused_auth_world push_args []) = Raise CalledProcessError
   /\ spawned (snd (main refused_auth_world push_args []))
      = [["snyk"; "--version"]; ["snyk"; "auth"; "t0ken"]]
   /\ exit_status (fst (main refused_auth_world push_args [])) = 1)
  /\ (fst (main nul_token_world push_args []) = Ok tt
      /\ spawned (snd (main nul_token_world push_args [])) = [["snyk"; "--version"]]
      /\ exit_status (fst (main nul_token_world push_args [])) = 0).
Proof.
  assert (Hout : ~ In "SNYK_TOKEN" ["PATH"; "HOME"]).
  { cbn. intros [H|[H|H]]; try discriminate; exact H. }
  split.
  - pose proof (auth_failures_escape refused_auth_world push_args
                  [("auth_token", PStr "t0ken"); ("target", PStr ".")] []
                  eq_refl eq_refl Hout) as [_ [_ [Hrefused _]]].
    apply (Hrefused "t0ken" 2 eq_refl eq_refl eq_refl).
    discriminate.
  - pose proof (auth_failures_escape nul_token_world push_args
                  [("auth_token", PStr nul_token); ("target", PStr ".")] []
                  eq_refl eq_refl Hout) as [_ [_ [_ Hnul]]].
    destruct (Hnul nul_token eq_refl eq_refl) as [Hmain [Hspawn Hexit]].
    split; [rewrite Hmain; reflexivity|]. split; [exact Hspawn | exact Hexit].
Defined.

(** What [push_scan_result] gives is the result of the command of the
    target, which could be passed and ran. *)
Lemma push_scan_result_inv (w : World) (cfg : dict) (r : CompletedProcess) :
  push_scan_result w cfg = Some r ->
  exists base,
    target_command w sast_tool (dict_get cfg "target" PNone) = Some base
    /\ forallb (passable w) base = true
    /\ run_process w base = Exited r.
Proof.
  unfold push_scan_result. intros Hscan.
  destruct (target_command w sast_tool (dict_get cfg "target" PNone))
    as [base|]; [|discriminate Hscan].
  destruct (forallb (passable w) base) eqn:Hpass; [|discriminate Hscan].
  destruct (run_process w base) as [r'|code|] eqn:Hrun; try discriminate Hscan.
  injection Hscan as ->. exists base.
  split; [reflexivity|]. split; [exact Hpass | exact Hrun].
Qed.

Lemma setup_written (w : World) (token : string) : written (setup_events w token) = [].
Proof.
  unfold setup_events, startup_events. rewrite !written_app.
  destruct (path_exists w "outputs"); reflexivity.
Qed.

(** The push block without [--report], for a scan whose output decodes:
    the events of the scan, then the block under [if scan_results:]. *)
Lemma push_block_trace (w : World) (args : Args) (target project_path : pyval)
    (base : list string) (r : CompletedProcess) (scan_results : pyval) (tr : trace) :
  report args = false ->
  target_command w sast_tool target = Some base ->
  forallb (passable w) base = true ->
  run_process w base = Exited r ->
  json_loads w (stdout r) = Decoded scan_results ->
  exists execution_time,
    scan_for_push_block w args target project_path tr
    = report_and_gate w scan_results (PFloat execution_time)
        (tr ++ scan_block_events base r).
Proof.
  intros Hreport Hbase Hpass Hrun Hdoc.
  assert (Hrun' : run_process w (base ++ upload_flags w PNone PNone) = Exited r).
  { cbn. rewrite app_nil_r. exact Hrun. }
  assert (Hpass' : forallb (passable w) (base ++ upload_flags w PNone PNone) = true).
  { cbn. rewrite app_nil_r. exact Hpass. }
  pose proof (trigger_scan_spawned w sast_tool "trigger_sast_scan" false
                target PNone PNone base r (tr ++ [ClockRead]) Hbase Hpass' Hrun') as Hscan.
  cbv zeta in Hscan. cbn [upload_flags is_not_None] in Hscan.
  rewrite app_nil_r, Hdoc in Hscan.
  unfold scan_for_push_block. rewrite Hreport. cbn [negb call_scan].
  unfold trigger_sast_scan. fold sast_tool.
  unfold bind at 1. unfold bind at 1. unfold time_now at 1.
  unfold bind at 1. rewrite Hscan.
  unfold bind at 1. unfold time_now at 1.
  unfold bind at 1. cbn [logger_info emit ret fst snd].
  eexists. unfold scan_block_events. rewrite <- !app_assoc. reflexivity.
Qed.


Lemma evaluate_histogram_trace (low medium high : nat) (scan_time : pyval)
    (tr : trace) :
  evaluate_severity_summary (histogram low medium high scan_time) tr
  = (Ok (Nat.eqb high 0),
     tr ++ [Log INFO "----------------evaluate_severity_summary Started-----------------";
            (if Nat.eqb high 0
             then Log INFO "No high severity issues found. Pipeline will pass."
             else Log ERROR "High severity issues found. Pipeline will fail.");
            Log INFO "----------------evaluate_severity_summary Ended-----------------"]).
Proof.
  unfold evaluate_severity_summary, histogram, bind. cbn.
  destruct high as [|h]; cbn; rewrite <- !app_assoc; reflexivity.
Qed.

(** The block under [if scan_results:] for a document of the expected
    shape: both files are written, then the verdict. *)
Lemma report_and_gate_writes (w : World) (d : dict) (runs : list pyval)
    (results : list dict) (execution_time : pyval) (tr : trace) :
  d <> [] ->
  dict_get d "runs" (PList []) = PList runs ->
  results_of_runs runs = Some results ->
  can_write w "./outputs/scan_results.json" = true ->
  can_write w "./outputs/severity_summary.json" = true ->
  exists more,
    report_and_gate w (PDict d) execution_time tr
    = (if Nat.eqb (count_bucket High results) 0 then Ok tt else Raise (SystemExit 1),
       tr ++ more)
    /\ written more
       = [("./outputs/scan_results.json", PDict d);
          ("./outputs/severity_summary.json",
           scan_summary execution_time
             (histogram (count_bucket Low results) (count_bucket Medium results)
                (count_bucket High results) (dict_get d "scan_time" (PInt 0))))].
Proof.
  intros Hnonempty Hruns Hshape Hw1 Hw2.
  unfold report_and_gate.
  assert (Htruthy : truthy (PDict d) = true) by (destruct d; [contradiction|reflexivity]).
  rewrite Htruthy.
  step_with (summarize_severities_counts d runs results tr Hruns Hshape).
  unfold bind at 1. rewrite save_results_written by exact Hw1. cbv beta iota.
  unfold bind at 1. rewrite save_results_written by exact Hw2. cbv beta iota.
  unfold bind at 1. rewrite evaluate_histogram_trace. cbv beta iota.
  destruct (Nat.eqb (count_bucket High results) 0); cbn [negb raise ret];
    eexists; (split; [rewrite <- !app_assoc; reflexivity|]); reflexivity.
Qed.

(** X13: in a push scan whose output is a non-empty document of the
    expected shape, both artifacts are written before the verdict counts:
    whether the gate passes or fails, the run has written the scan results
    and then the summary, which holds the execution time and the histogram
    of the results, and nothing else. *)
Theorem artifacts_before_verdict (w : World) (args : Args) (cfg : dict)
    (r : CompletedProcess) (d : dict) (runs : list pyval) (results : list dict)
    (tr : trace) :
  setup_succeeds w cfg ->
  scan_for_push args = true ->
  report args = false ->
  push_scan_result w cfg = Some r ->
  json_loads w (stdout r) = Decoded (PDict d) ->
  d <> [] ->
  dict_get d "runs" (PList []) = PList runs ->
  results_of_runs runs = Some results ->
  can_write w "./outputs/scan_results.json" = true ->
  can_write w "./outputs/severity_summary.json" = true ->
  exists execution_time,
    written (snd (main w args tr))
    = written tr
      ++ [("./outputs/scan_results.json", PDict d);
          ("./outputs/severity_summary.json",
           scan_summary (PFloat execution_time)
             (histogram (count_bucket Low results) (count_bucket Medium results)
                (count_bucket High results) (dict_get d "scan_time" (PInt 0))))].
Proof.
  intros Hsetup Hpush Hreport Hscan Hdoc Hd Hruns Hshape Hw1 Hw2.
  destruct (push_scan_result_inv w cfg r Hscan) as [base [Hbase [Hpass Hrun]]].
  rewrite (main_setup_then w args cfg tr Hsetup), Hpush.
  destruct (push_block_trace w args (dict_get cfg "target" PNone)
              (dict_get cfg "project_path" PNone) base r (PDict d)
              (tr ++ setup_events w (format w (dict_get cfg "auth_token" PNone)))
              Hreport Hbase Hpass Hrun Hdoc) as [et Hblock].
  destruct (report_and_gate_writes w d runs results (PFloat et)
              ((tr ++ setup_events w (format w (dict_get cfg "auth_token" PNone)))
                 ++ scan_block_events base r) Hd Hruns Hshape Hw1 Hw2)
    as [more [Hgate Hwritten]].
  exists et. unfold bind at 1. rewrite Hblock, Hgate.
  destruct (Nat.eqb (count_bucket High results) 0); cbn [snd logger_info emit];
    rewrite !written_app, setup_written, Hwritten; cbn [written flat_map app];
    rewrite ?app_nil_r; reflexivity.
Qed.

Lemma artifacts_before_verdict_witness :
  exists execution_time,
    written (snd (main findings_world push_args []))
    = [("./outputs/scan_results.json", findings_value);
       ("./outputs/severity_summary.json",
        scan_summary (PFloat execution_time) (histogram 0 2 1 (PInt 0)))].
Proof.
  apply (artifacts_before_verdict findings_world push_args
           [("auth_token", PStr "t0ken"); ("target", PStr ".")]
           {| returncode := 1; stdout := findings_text |}
           [("runs", PList [PDict [("results",
              PList [PDict [("level", PStr "warning")];
                     PDict [("level", PStr "warning")];
                     PDict [("level", PStr "error")]])]])]
           [PDict [("results",
              PList [PDict [("level", PStr "warning")];
                     PDict [("level", PStr "warning")];
                     PDict [("level", PStr "error")]])]]
           [[("level", PStr "warning")]; [("level", PStr "warning")];
            [("level", PStr "error")]] []);
    first [ apply (setup_of_sample sample_files sample_decoded _ config_text);
            reflexivity
          | reflexivity | discriminate ].
Defined.

(** X14: a scan whose command could be passed and ran, and whose output
    decodes to a value Python takes as false (an empty object or list,
    [null], [0], an empty string), skips the block under
    [if scan_results:]: [main] returns normally and the process ends with
    status 0, although a scan was run; nothing is summarized, nothing
    written and the gate is never asked. *)
Theorem empty_output_passes (w : World) (args : Args) (cfg : dict)
    (base : list string) (r : CompletedProcess) (scan_results : pyval) (tr : trace) :
  setup_succeeds w cfg ->
  scan_for_push args = true ->
  report args = false ->
  target_command w sast_tool (dict_get cfg "target" PNone) = Some base ->
  forallb (passable w) base = true ->
  run_process w base = Exited r ->
  json_loads w (stdout r) = Decoded scan_results ->
  truthy scan_results = false ->
  main w args tr
  = (Ok tt,
     tr ++ setup_events w (format w (dict_get cfg "auth_token" PNone))
        ++ scan_block_events base r
        ++ [Log INFO "----------------Main Ended-----------------"])
  /\ written (snd (main w args tr)) = written tr
  /\ exit_status (fst (main w args tr)) = 0.
Proof.
  intros Hsetup Hpush Hreport Hbase Hpass Hrun Hdoc Hfalse.
  assert (Hmain : main w args tr
                  = (Ok tt,
                     tr ++ setup_events w (format w (dict_get cfg "auth_token" PNone))
                        ++ scan_block_events base r
                        ++ [Log INFO "----------------Main Ended-----------------"])).
  { rewrite (main_setup_then w args cfg tr Hsetup), Hpush.
    destruct (push_block_trace w args (dict_get cfg "target" PNone)
                (dict_get cfg "project_path" PNone) base r scan_results
                (tr ++ setup_events w (format w (dict_get cfg "auth_token" PNone)))
                Hreport Hbase Hpass Hrun Hdoc) as [et Hblock].
    unfold bind at 1. rewrite Hblock. unfold report_and_gate. rewrite Hfalse.
    cbn [ret]. unfold logger_info, emit. rewrite <- !app_assoc. reflexivity. }
  split; [exact Hmain|]. rewrite Hmain. cbn [fst snd]. split; [|reflexivity].
  rewrite !written_app, setup_written. cbn. rewrite app_nil_r. reflexivity.
Qed.

Lemma empty_output_passes_witness :
  fst (main empty_output_world push_args []) = Ok tt
  /\ spawned (snd (main empty_output_world push_args []))
     = [["snyk"; "--version"]; ["snyk"; "auth"; "t0ken"];
        ["snyk"; "code"; "test"; "--json"; "."]]
  /\ written (snd (main empty_output_world push_args [])) = []
  /\ exit_status (fst (main empty_output_world push_args [])) = 0.
Proof.
  destruct (empty_output_passes empty_output_world push_args
              [("auth_token", PStr "t0ken"); ("target", PStr ".")]
              ["snyk"; "code"; "test"; "--json"; "."]
              {| returncode := 0; stdout := empty_object_text |} (PDict []) [])
    as [Hmain [Hwritten Hexit]];
    try reflexivity.
  { apply (setup_of_sample sample_files _ _ config_text); reflexivity. }
  split; [rewrite Hmain; reflexivity|].
  split; [rewrite Hmain; reflexivity|].
  split; [exact Hwritten | exact Hexit].
Defined.



(** X16: a configuration whose [target] is neither a string nor a list, a
    missing [target] among them, passes the whole setup and then crashes
    the push scan: [main] ends with [UnboundLocalError] after both setup
    commands, without running a scan, and the process ends with status
    1. *)
Theorem bad_target_crashes (w : World) (args : Args) (cfg : dict) (tr : trace) :
  setup_succeeds w cfg ->
  scan_for_push args = true ->
  report args = false ->
  is_str_or_list (dict_get cfg "target" PNone) = false ->
  main w args tr
  = (Raise UnboundLocalError,
     tr ++ setup_events w (format w (dict_get cfg "auth_token" PNone))
        ++ [ClockRead;
            Log INFO "----------------trigger_sast_scan Started-----------------"])
  /\ spawned (snd (main w args tr))
     = spawned tr ++ [["snyk"; "--version"];
                      ["snyk"; "auth"; format w (dict_get cfg "auth_token" PNone)]]
  /\ exit_status (fst (main w args tr)) = 1.
Proof.
  intros Hsetup Hpush Hreport Htarget.
  assert (Hmain : main w args tr
                  = (Raise UnboundLocalError,
                     tr ++ setup_events w (format w (dict_get cfg "auth_token" PNone))
                        ++ [ClockRead;
                            Log INFO "----------------trigger_sast_scan Started-----------------"])).
  { rewrite (main_setup_then w args cfg tr Hsetup), Hpush.
    unfold bind at 1. unfold scan_for_push_block. rewrite Hreport.
    cbn [negb call_scan]. unfold bind at 1. unfold bind at 1. unfold time_now at 1.
    unfold bind at 1. unfold trigger_sast_scan.
    rewrite (trigger_scan_unassigned w ["snyk"; "code"; "test"] "trigger_sast_scan"
               false _ PNone PNone _ Htarget).
    rewrite <- !app_assoc. reflexivity. }
  split; [exact Hmain|]. rewrite Hmain. cbn [fst snd]. split; [|reflexivity].
  rewrite !spawned_app, setup_spawns. cbn. reflexivity.
Qed.

Lemma bad_target_crashes_witness :
  fst (main no_target_world push_args []) = Raise UnboundLocalError
  /\ spawned (snd (main no_target_world push_args []))
     = [["snyk"; "--version"]; ["snyk"; "auth"; "t0ken"]]
  /\ exit_status (fst (main no_target_world push_args [])) = 1.
Proof.
  destruct (bad_target_crashes no_target_world push_args
              [("auth_token", PStr "t0ken")] []) as [Hmain [Hspawn Hexit]];
    try reflexivity.
  { apply (setup_of_sample _ _ _ no_target_text); reflexivity. }
  split; [rewrite Hmain; reflexivity|]. split; [exact Hspawn | exact Hexit].
Defined.

(* ================================================================== *)
(** * The order of the commands of main *)
(* ================================================================== *)

Lemma gate_spawned (more : trace) : Forall gate_event more -> spawned more = [].
Proof.
  induction 1 as [|e more He _ IH]; [reflexivity|].
  destruct e; try contradiction; exact IH.
Qed.

Lemma report_and_gate_spawns_nothing (w : World) (scan_results execution_time : pyval)
    (tr : trace) :
  exists more,
    snd (report_and_gate w scan_results execution_time tr) = tr ++ more
    /\ spawned more = [].
Proof.
  destruct (gate_may_report_and_gate gate_event
              (fun l message => I) (fun path document _ => I)
              w scan_results execution_time tr) as [more [Heq [Hevents _]]].
  exists more. split; [exact Heq | apply gate_spawned, Hevents].
Qed.

(** The push block runs at most one command, a code analysis scan. *)
Lemma push_block_spawns (w : World) (args : Args) (target project_path : pyval)
    (tr : trace) :
  exists more,
    snd (scan_for_push_block w args target project_path tr) = tr ++ more
    /\ (spawned more = []
        \/ exists rest, spawned more = [["snyk"; "code"; "test"; "--json"] ++ rest]).
Proof.
  destruct (report args) eqn:Hreport.
  - rewrite (push_block_report w args target project_path tr Hreport).
    exists [ClockRead]. split; [reflexivity | left; reflexivity].
  - unfold scan_for_push_block. rewrite Hreport. cbn [negb call_scan].
    unfold bind at 1. unfold bind at 1. unfold time_now at 1.
    unfold bind at 1. unfold trigger_sast_scan.
    destruct (trigger_scan_cases w ["snyk"; "code"; "test"] "trigger_sast_scan" false
                target PNone PNone (tr ++ [ClockRead]))
      as [[e [more [Heq [He Hlogs]]]] | [o [rest [before [after [Heq [Ho [Hb Ha]]]]]]]];
      rewrite Heq.
    + exists ([ClockRead] ++ more). cbn [snd].
      split; [rewrite <- app_assoc; reflexivity|].
      left. rewrite spawned_app, (spawned_logs more Hlogs). reflexivity.
    + assert (Hone : spawned ([ClockRead] ++ before
                                ++ Spawn (["snyk"; "code"; "test"] ++ "--json" :: rest)
                                :: after)
                     = [["snyk"; "code"; "test"; "--json"] ++ rest]).
      { rewrite !spawned_app, (spawned_logs before Hb). cbn [spawned flat_map app].
        fold (spawned after). rewrite (spawned_logs after Ha). reflexivity. }
      destruct Ho as [-> | [-> | [-> | [-> | [scan_results ->]]]]].
      * eexists. cbn [snd]. split; [rewrite <- app_assoc; reflexivity|].
        right. exists rest. exact Hone.
      * eexists. cbn [snd]. split; [rewrite <- app_assoc; reflexivity|].
        right. exists rest. exact Hone.
      * eexists. cbn [snd]. split; [rewrite <- app_assoc; reflexivity|].
        right. exists rest. exact Hone.
      * eexists. cbn [snd]. split; [rewrite <- app_assoc; reflexivity|].
        right. exists rest. exact Hone.
      * unfold bind at 1. unfold time_now at 1.
        unfold bind at 1. cbn [logger_info emit ret fst snd].
        match goal with
        | |- context [report_and_gate w ?doc ?et ?tr0] =>
            destruct (report_and_gate_spawns_nothing w doc et tr0)
              as [more [Hgate Hquiet]]
        end.
        rewrite Hgate.
        exists (([ClockRead] ++ before
                   ++ Spawn (["snyk"; "code"; "test"] ++ "--json" :: rest) :: after)
                  ++ [ClockRead;
                      Log INFO "Snyk scan execution time: {execution_time:.2f} seconds"]
                  ++ more).
        split; [rewrite <- !app_assoc; reflexivity|].
        right. exists rest. rewrite spawned_app, Hone, spawned_app, Hquiet. reflexivity.
Qed.

Lemma string_or_not (v : pyval) : (exists s, v = PStr s) \/ (forall s, v <> PStr s).
Proof.
  destruct v; try (right; intros s' H; discriminate H). left. eexists. reflexivity.
Qed.

(** X17: on every path, the commands [main] has run are the first zero,
    one, two or three of: [snyk --version], [snyk auth <token>], and one
    code analysis scan.  So the scan is never run before both checks have
    passed, no check is run twice, and at most one scan is run. *)
Theorem commands_in_order (w : World) (args : Args) :
  exists token rest n,
    spawned (snd (run (main w args))) = firstn n (main_commands token rest).
Proof.
  unfold run.
  assert (Hquiet : spawned (startup_events w) = []).
  { apply quiet_spawned, startup_events_quiet. }
  destruct (loaded_config w) as [cfg|] eqn:Hcfg.
  2:{ destruct (main_config_fails w args [] Hcfg) as [e [more [Heq [_ Hq]]]].
      exists "", [], 0%nat. rewrite Heq. cbn [snd app firstn].
      apply quiet_spawned, Hq. }
  destruct (tool_installed w) eqn:Htool.
  2:{ destruct (main_tool_missing w args cfg [] Hcfg Htool) as [more [Heq Hspawn]].
      rewrite Heq. cbn [snd app]. rewrite spawned_app, Hquiet. cbn [app].
      destruct Hspawn as [-> | ->];
        [exists "", [], 0%nat | exists "", [], 1%nat]; reflexivity. }
  destruct (existsb (String.eqb "SNYK_TOKEN") (environ w)) eqn:Henv.
  { apply environ_test in Henv.
    rewrite (main_token_bound w args cfg [] Hcfg Htool Henv). cbn [snd app].
    exists "", [], 1%nat. rewrite !spawned_app, Hquiet. reflexivity. }
  assert (Hout : ~ In "SNYK_TOKEN" (environ w)).
  { intros Hin. apply environ_test in Hin. rewrite Hin in Henv. discriminate Henv. }
  destruct (string_or_not (dict_get cfg "auth_token" PNone)) as [[token Htoken] | Hnot].
  2:{ rewrite (main_token_check_raises w args cfg [] TypeError
                 [Log INFO "----------------check_snyk_token Started-----------------"]
                 Hcfg Htool (check_snyk_token_not_string w _ _ Hout Hnot)).
      exists "", [], 1%nat. cbn [snd app is_ValueError].
      rewrite !spawned_app, Hquiet. reflexivity. }
  destruct (passable w token) eqn:Hpass.
  2:{ rewrite (main_token_refused w args cfg token [] Hcfg Htool Hout Htoken Hpass).
      exists "", [], 1%nat. cbn [snd app]. rewrite !spawned_app, Hquiet. reflexivity. }
  destruct (exit_code (run_process w ["snyk"; "auth"; token])) as [code|] eqn:Hrun.
  2:{ rewrite (main_token_check_raises w args cfg [] OSError
                 [Log INFO "----------------check_snyk_token Started-----------------"]
                 Hcfg Htool).
      - exists "", [], 1%nat. cbn [snd app is_ValueError].
        rewrite !spawned_app, Hquiet. reflexivity.
      - rewrite Htoken. apply (check_snyk_token_not_started w token _ Hout Hpass).
        destruct (run_process w ["snyk"; "auth"; token]); try discriminate Hrun.
        reflexivity. }
  destruct (code =? 0) eqn:Hcode.
  2:{ rewrite (main_token_check_raises w args cfg [] CalledProcessError
                 [Log INFO "----------------check_snyk_token Started-----------------";
                  Spawn ["snyk"; "auth"; token];
                  Log ERROR "Failed to authenticate to Snyk: {e}";
                  Log INFO "----------------check_snyk_token Ended-----------------"]
                 Hcfg Htool).
      - exists token, [], 2%nat. cbn [snd app is_ValueError].
        rewrite !spawned_app, Hquiet. reflexivity.
      - rewrite Htoken.
        apply (check_snyk_token_rejected w token code _ Hout Hpass Hrun).
        apply Z.eqb_neq. exact Hcode. }
  assert (Hauth : auth_accepted w token = true).
  { unfold auth_accepted. rewrite Hpass.
    destruct (run_process w ["snyk"; "auth"; token]); cbn in Hrun;
      try discriminate Hrun; injection Hrun as ->; exact Hcode. }
  rewrite (main_after_setup w args cfg token [] Hcfg Htool Hout Htoken Hauth).
  cbn [app]. destruct (scan_for_push args).
  - destruct (push_block_spawns w args (dict_get cfg "target" PNone)
                (dict_get cfg "project_path" PNone) (setup_events w token))
      as [more [Heq Hspawn]].
    unfold bind at 1.
    destruct (scan_for_push_block w args (dict_get cfg "target" PNone)
                (dict_get cfg "project_path" PNone) (setup_events w token))
      as [[u|e] tr'] eqn:Hblock; cbn [snd] in Heq; subst tr';
      cbn [snd logger_info emit];
      rewrite ?spawned_app, setup_spawns;
      destruct Hspawn as [-> | [rest ->]];
      first [ exists token, [], 2%nat; reflexivity
            | exists token, rest, 3%nat; reflexivity ].
  - exists token, [], 2%nat. unfold bind, ret, logger_info, emit. cbn [snd].
    rewrite spawned_app, setup_spawns. reflexivity.
Qed.

(* ================================================================== *)
(** * The change set and the scan *)
(* ================================================================== *)

(** X18: [get_changed_files] asks GitPython, in this order, for the
    repository, its remote [origin], a fetch, the commit of the base branch,
    the commit of the pull request branch and the diff of the two commits.
    The first call that fails ends it: the later calls are not made, the
    error is logged with the closing banner, and the same exception is
    raised again.  When every call succeeds it returns the [a_path], the
    path before the change, of every entry of the diff, in the order of the
    diff and as many as the diff has entries (so a renamed file is listed
    under its old name, and an empty diff gives an empty list and no
    error), after three log lines. *)
Theorem changed_files_outcomes (w : World) (repo : string) (base pr : option string)
    (tr : trace) :
  let opened :=
    tr ++ [Log INFO "----------------get_changed_files Started-----------------";
           OpenRepo repo] in
  let failed (e : exn) (events : trace) : outcome (list pyval) * trace :=
    (Raise e,
     events ++ [Log ERROR "Error getting changed files: {e}";
                Log INFO "----------------get_changed_files Ended----------------"]) in
  (forall e, is_Exception e = true ->
     git_repo w repo = Fails e ->
     get_changed_files w repo base pr tr = failed e opened)
  /\ (forall e, is_Exception e = true ->
        git_repo w repo = Gives tt ->
        git_origin w repo = Fails e ->
        get_changed_files w repo base pr tr = failed e opened)
  /\ (forall e, is_Exception e = true ->
        git_repo w repo = Gives tt ->
        git_origin w repo = Gives tt ->
        git_fetch w repo = Fails e ->
        get_changed_files w repo base pr tr = failed e (opened ++ [GitFetch repo]))
  /\ (forall e, is_Exception e = true ->
        git_repo w repo = Gives tt ->
        git_origin w repo = Gives tt ->
        git_fetch w repo = Gives tt ->
        git_ref_commit w repo base = Fails e ->
        get_changed_files w repo base pr tr = failed e (opened ++ [GitFetch repo]))
  /\ (forall e base_commit, is_Exception e = true ->
        git_repo w repo = Gives tt ->
        git_origin w repo = Gives tt ->
        git_fetch w repo = Gives tt ->
        git_ref_commit w repo base = Gives base_commit ->
        git_ref_commit w repo pr = Fails e ->
        get_changed_files w repo base pr tr = failed e (opened ++ [GitFetch repo]))
  /\ (forall e base_commit compare_commit, is_Exception e = true ->
        git_repo w repo = Gives tt ->
        git_origin w repo = Gives tt ->
        git_fetch w repo = Gives tt ->
        git_ref_commit w repo base = Gives base_commit ->
        git_ref_commit w repo pr = Gives compare_commit ->
        git_diff w repo base_commit compare_commit = Fails e ->
        get_changed_files w repo base pr tr
        = failed e (opened ++ [GitFetch repo; GitDiff repo base_commit compare_commit]))
  /\ (forall base_commit compare_commit diff_index,
        git_repo w repo = Gives tt ->
        git_origin w repo = Gives tt ->
        git_fetch w repo = Gives tt ->
        git_ref_commit w repo base = Gives base_commit ->
        git_ref_commit w repo pr = Gives compare_commit ->
        git_diff w repo base_commit compare_commit = Gives diff_index ->
        get_changed_files w repo base pr tr
        = (Ok (map a_path diff_index),
           opened
             ++ [GitFetch repo; GitDiff repo base_commit compare_commit;
                 Log INFO "Found {len(changed_files)} changed files between {base_branch} and {pr_branch}.";
                 Log INFO "Changed Files: {changed_files}";
                 Log INFO "----------------get_changed_files Ended----------------"])
        /\ List.length (map a_path diff_index) = List.length diff_index).
Proof.
  cbv zeta.
  unfold get_changed_files, try_except, bind, logger_info, logger_error, emit, git_call,
    ret, raise.
  split; [|split; [|split; [|split; [|split; [|split]]]]].
  - intros e He H1. rewrite H1, He. rewrite <- !app_assoc. reflexivity.
  - intros e He H1 H2. rewrite H1, H2, He. rewrite <- !app_assoc. reflexivity.
  - intros e He H1 H2 H3. rewrite H1, H2, H3, He. rewrite <- !app_assoc. reflexivity.
  - intros e He H1 H2 H3 H4. rewrite H1, H2, H3, H4, He.
    rewrite <- !app_assoc. reflexivity.
  - intros e b He H1 H2 H3 H4 H5. rewrite H1, H2, H3, H4, H5, He.
    rewrite <- !app_assoc. reflexivity.
  - intros e b c He H1 H2 H3 H4 H5 H6. rewrite H1, H2, H3, H4, H5, H6, He.
    rewrite <- !app_assoc. reflexivity.
  - intros b c items H1 H2 H3 H4 H5 H6. rewrite H1, H2, H3, H4, H5, H6.
    split; [rewrite <- !app_assoc; reflexivity | apply length_map].
Qed.

Lemma changed_files_outcomes_witness :
  get_changed_files two_changes_world "./" (Some "main") (Some "feature") []
  = (Ok [PStr "a.py"; PStr "old.py"],
     [Log INFO "----------------get_changed_files Started-----------------";
      OpenRepo "./";
      GitFetch "./";
      GitDiff "./" "commit of origin/main" "commit of origin/feature";
      Log INFO "Found {len(changed_files)} changed files between {base_branch} and {pr_branch}.";
      Log INFO "Changed Files: {changed_files}";
      Log INFO "----------------get_changed_files Ended----------------"])
  /\ get_changed_files two_changes_world "./" (Some "main") None []
     = (Raise AssertionError,
        [Log INFO "----------------get_changed_files Started-----------------";
         OpenRepo "./";
         GitFetch "./";
         Log ERROR "Error getting changed files: {e}";
         Log INFO "----------------get_changed_files Ended----------------"])
  /\ get_changed_files no_tool_world "./" (Some "main") (Some "feature") []
     = (Raise InvalidGitRepositoryError,
        [Log INFO "----------------get_changed_files Started-----------------";
         OpenRepo "./";
         Log ERROR "Error getting changed files: {e}";
         Log INFO "----------------get_changed_files Ended----------------"]).
Proof.
  pose proof (changed_files_outcomes two_changes_world "./" (Some "main")
                (Some "feature") []) as [_ [_ [_ [_ [_ [_ Hfound]]]]]].
  pose proof (changed_files_outcomes two_changes_world "./" (Some "main") None [])
    as [_ [_ [_ [_ [Hpr _]]]]].
  pose proof (changed_files_outcomes no_tool_world "./" (Some "main")
                (Some "feature") []) as [Hrepo _].
  split; [|split].
  - apply (Hfound "commit of origin/main" "commit of origin/feature"
             [{| a_path := PStr "a.py"; b_path := PStr "a.py" |};
              {| a_path := PStr "old.py"; b_path := PStr "new.py" |}]);
      reflexivity.
  - apply (Hpr AssertionError "commit of origin/main"); reflexivity.
  - apply (Hrepo InvalidGitRepositoryError); reflexivity.
Defined.
